(** * Sipeed SLogic analyzer: the bulk-transfer acquisition engine

    A shallow embedding of [src/hardware/sipeed-slogic-analyzer/protocol.c]
    (the completion callback [receive_transfer], the event-loop tick
    [handle_events], [sipeed_slogic_acquisition_start] and
    [sipeed_slogic_acquisition_stop]) together with the properties of the
    transfer pool, of the link probe and of the completion state machine.

    The device context is a record that is passed from call to call; every
    call to a collaborator (libusb, the session, the remote device) that a
    property talks about is recorded in the list of calls a function
    returns.  What the collaborators answer (allocation results, libusb
    return codes, the monotonic clock) is an input of the model. *)

From Stdlib Require Import ZArith Lia Bool QArith Qround.
From Stdlib Require String.
From stdpp Require Import base list.

Close Scope Q_scope.
Local Open Scope Z_scope.

(** ** Machine integers *)

(** The fields of [struct dev_context] are declared in [protocol.h]; their
    types are read off their uses.  The configuration fields are read and
    written in [api.c] through [g_variant_get_uint64] and
    [g_variant_new_uint64]; the byte counters and the per-transfer fields are
    combined with them in unsigned arithmetic, so all of them are taken as
    64-bit unsigned, as are the two [num_transfers_*] counters.
    [transfer->actual_length] is libusb's [int]. *)
Definition u64 (x : Z) : Z := x mod 2 ^ 64.

Definition s32 (x : Z) : Z := (x + 2 ^ 31) mod 2 ^ 32 - 2 ^ 31.

(** libsigrok's unit helpers and return codes, libusb's error code. *)
Definition SR_KHZ (n : Z) : Z := n * 1000.
Definition SR_OK : Z := 0.
Definition SR_ERR_IO : Z := -11.
Definition LIBUSB_ERROR_NO_MEM : Z := -11.

(** ** Floating point

    [TRANSFERS_DURATION_TOLERANCE] is a floating-point constant of
    [protocol.h]; the code only ever uses [TRANSFERS_DURATION_TOLERANCE + 1],
    multiplies it by unsigned integers, converts the product to the
    [unsigned int] timeout of a transfer and compares it with a duration in
    milliseconds.  These four operations are the interface below; the
    rounding of the C operations is whatever an instance says it is. *)
Record float_model : Type := {
  float : Type;
  (* TRANSFERS_DURATION_TOLERANCE + 1 *)
  tolerance_plus_one : float;
  (* f * u, with u an unsigned integer *)
  float_mul_uint : float -> Z -> float;
  (* the conversion to the unsigned int timeout of libusb *)
  float_to_timeout : float -> Z;
  (* (double)d / SR_KHZ(1) > f, with d in microseconds *)
  duration_ms_exceeds : Z -> float -> bool
}.

(** The instance that computes without rounding, on rationals. *)
Definition exact_floats (tolerance : Q) : float_model := {|
  float := Q;
  tolerance_plus_one := Qred (Qplus tolerance 1);
  float_mul_uint := fun f u => Qred (Qmult f (inject_Z u));
  float_to_timeout := fun f => Qfloor f;
  duration_ms_exceeds := fun d f =>
    match Qcompare (Qmake d 1000) f with Gt => true | _ => false end
|}.

(** ** Data *)

Inductive libusb_transfer_status : Type :=
  | LIBUSB_TRANSFER_COMPLETED
  | LIBUSB_TRANSFER_ERROR
  | LIBUSB_TRANSFER_TIMED_OUT
  | LIBUSB_TRANSFER_CANCELLED
  | LIBUSB_TRANSFER_STALL
  | LIBUSB_TRANSFER_NO_DEVICE
  | LIBUSB_TRANSFER_OVERFLOW.

(** The fields of [struct libusb_transfer] the engine reads or writes.
    [user_data] tells whether the pointer to the device instance is set. *)
Record libusb_transfer : Type := {
  status : libusb_transfer_status;
  buffer_length : Z;
  actual_length : Z;
  timeout : Z;
  user_data : bool
}.

(** A slot of [devc->transfers] holds a pointer to a transfer or NULL; the
    pointer is the number of the slot's submission. *)
Definition transfer_handle : Type := Z.

Record dev_context : Type := {
  cur_limit_samples : Z;
  cur_samplerate : Z;
  cur_samplechannel : Z;
  cur_pattern_mode_idx : Z;
  samples_need_nbytes : Z;
  samples_got_nbytes : Z;
  per_transfer_duration : Z;
  per_transfer_nbytes : Z;
  num_transfers_completed : Z;
  num_transfers_used : Z;
  transfers : list (option transfer_handle);
  transfers_reached_nbytes : Z;
  transfers_reached_nbytes_latest : Z;
  transfers_reached_time_start : Z;
  transfers_reached_time_latest : Z;
  acq_aborted : Z
}.

(** The calls to collaborators, in the order the code makes them. *)
Inductive call : Type :=
  | remote_stop (ret : Z)
  | remote_run (ret : Z)
  | libusb_submit_transfer (length tmo ret : Z)
  | libusb_cancel_transfer (h : transfer_handle)
  | libusb_free_transfer (h : transfer_handle)
  | submit_raw_data (len : Z)
  | sr_session_source_add (period : Z)
  | sr_session_source_remove
  | std_session_send_df_header
  | std_session_send_df_frame_begin
  | std_session_send_df_end.

(** Field updates, one per assigned field. *)
Definition set_samples_need_nbytes (v : Z) (d : dev_context) : dev_context :=
  {| cur_limit_samples := cur_limit_samples d; cur_samplerate := cur_samplerate d;
     cur_samplechannel := cur_samplechannel d;
     cur_pattern_mode_idx := cur_pattern_mode_idx d;
     samples_need_nbytes := v; samples_got_nbytes := samples_got_nbytes d;
     per_transfer_duration := per_transfer_duration d;
     per_transfer_nbytes := per_transfer_nbytes d;
     num_transfers_completed := num_transfers_completed d;
     num_transfers_used := num_transfers_used d; transfers := transfers d;
     transfers_reached_nbytes := transfers_reached_nbytes d;
     transfers_reached_nbytes_latest := transfers_reached_nbytes_latest d;
     transfers_reached_time_start := transfers_reached_time_start d;
     transfers_reached_time_latest := transfers_reached_time_latest d;
     acq_aborted := acq_aborted d |}.

Definition set_samples_got_nbytes (v : Z) (d : dev_context) : dev_context :=
  {| cur_limit_samples := cur_limit_samples d; cur_samplerate := cur_samplerate d;
     cur_samplechannel := cur_samplechannel d;
     cur_pattern_mode_idx := cur_pattern_mode_idx d;
     samples_need_nbytes := samples_need_nbytes d; samples_got_nbytes := v;
     per_transfer_duration := per_transfer_duration d;
     per_transfer_nbytes := per_transfer_nbytes d;
     num_transfers_completed := num_transfers_completed d;
     num_transfers_used := num_transfers_used d; transfers := transfers d;
     transfers_reached_nbytes := transfers_reached_nbytes d;
     transfers_reached_nbytes_latest := transfers_reached_nbytes_latest d;
     transfers_reached_time_start := transfers_reached_time_start d;
     transfers_reached_time_latest := transfers_reached_time_latest d;
     acq_aborted := acq_aborted d |}.

Definition set_per_transfer_duration (v : Z) (d : dev_context) : dev_context :=
  {| cur_limit_samples := cur_limit_samples d; cur_samplerate := cur_samplerate d;
     cur_samplechannel := cur_samplechannel d;
     cur_pattern_mode_idx := cur_pattern_mode_idx d;
     samples_need_nbytes := samples_need_nbytes d;
     samples_got_nbytes := samples_got_nbytes d;
     per_transfer_duration := v;
     per_transfer_nbytes := per_transfer_nbytes d;
     num_transfers_completed := num_transfers_completed d;
     num_transfers_used := num_transfers_used d; transfers := transfers d;
     transfers_reached_nbytes := transfers_reached_nbytes d;
     transfers_reached_nbytes_latest := transfers_reached_nbytes_latest d;
     transfers_reached_time_start := transfers_reached_time_start d;
     transfers_reached_time_latest := transfers_reached_time_latest d;
     acq_aborted := acq_aborted d |}.

Definition set_per_transfer_nbytes (v : Z) (d : dev_context) : dev_context :=
  {| cur_limit_samples := cur_limit_samples d; cur_samplerate := cur_samplerate d;
     cur_samplechannel := cur_samplechannel d;
     cur_pattern_mode_idx := cur_pattern_mode_idx d;
     samples_need_nbytes := samples_need_nbytes d;
     samples_got_nbytes := samples_got_nbytes d;
     per_transfer_duration := per_transfer_duration d;
     per_transfer_nbytes := v;
     num_transfers_completed := num_transfers_completed d;
     num_transfers_used := num_transfers_used d; transfers := transfers d;
     transfers_reached_nbytes := transfers_reached_nbytes d;
     transfers_reached_nbytes_latest := transfers_reached_nbytes_latest d;
     transfers_reached_time_start := transfers_reached_time_start d;
     transfers_reached_time_latest := transfers_reached_time_latest d;
     acq_aborted := acq_aborted d |}.

Definition set_num_transfers_completed (v : Z) (d : dev_context) : dev_context :=
  {| cur_limit_samples := cur_limit_samples d; cur_samplerate := cur_samplerate d;
     cur_samplechannel := cur_samplechannel d;
     cur_pattern_mode_idx := cur_pattern_mode_idx d;
     samples_need_nbytes := samples_need_nbytes d;
     samples_got_nbytes := samples_got_nbytes d;
     per_transfer_duration := per_transfer_duration d;
     per_transfer_nbytes := per_transfer_nbytes d;
     num_transfers_completed := v;
     num_transfers_used := num_transfers_used d; transfers := transfers d;
     transfers_reached_nbytes := transfers_reached_nbytes d;
     transfers_reached_nbytes_latest := transfers_reached_nbytes_latest d;
     transfers_reached_time_start := transfers_reached_time_start d;
     transfers_reached_time_latest := transfers_reached_time_latest d;
     acq_aborted := acq_aborted d |}.

Definition set_num_transfers_used (v : Z) (d : dev_context) : dev_context :=
  {| cur_limit_samples := cur_limit_samples d; cur_samplerate := cur_samplerate d;
     cur_samplechannel := cur_samplechannel d;
     cur_pattern_mode_idx := cur_pattern_mode_idx d;
     samples_need_nbytes := samples_need_nbytes d;
     samples_got_nbytes := samples_got_nbytes d;
     per_transfer_duration := per_transfer_duration d;
     per_transfer_nbytes := per_transfer_nbytes d;
     num_transfers_completed := num_transfers_completed d;
     num_transfers_used := v; transfers := transfers d;
     transfers_reached_nbytes := transfers_reached_nbytes d;
     transfers_reached_nbytes_latest := transfers_reached_nbytes_latest d;
     transfers_reached_time_start := transfers_reached_time_start d;
     transfers_reached_time_latest := transfers_reached_time_latest d;
     acq_aborted := acq_aborted d |}.

Definition set_transfers (v : list (option transfer_handle)) (d : dev_context)
  : dev_context :=
  {| cur_limit_samples := cur_limit_samples d; cur_samplerate := cur_samplerate d;
     cur_samplechannel := cur_samplechannel d;
     cur_pattern_mode_idx := cur_pattern_mode_idx d;
     samples_need_nbytes := samples_need_nbytes d;
     samples_got_nbytes := samples_got_nbytes d;
     per_transfer_duration := per_transfer_duration d;
     per_transfer_nbytes := per_transfer_nbytes d;
     num_transfers_completed := num_transfers_completed d;
     num_transfers_used := num_transfers_used d; transfers := v;
     transfers_reached_nbytes := transfers_reached_nbytes d;
     transfers_reached_nbytes_latest := transfers_reached_nbytes_latest d;
     transfers_reached_time_start := transfers_reached_time_start d;
     transfers_reached_time_latest := transfers_reached_time_latest d;
     acq_aborted := acq_aborted d |}.

Definition set_transfers_reached_nbytes (v : Z) (d : dev_context) : dev_context :=
  {| cur_limit_samples := cur_limit_samples d; cur_samplerate := cur_samplerate d;
     cur_samplechannel := cur_samplechannel d;
     cur_pattern_mode_idx := cur_pattern_mode_idx d;
     samples_need_nbytes := samples_need_nbytes d;
     samples_got_nbytes := samples_got_nbytes d;
     per_transfer_duration := per_transfer_duration d;
     per_transfer_nbytes := per_transfer_nbytes d;
     num_transfers_completed := num_transfers_completed d;
     num_transfers_used := num_transfers_used d; transfers := transfers d;
     transfers_reached_nbytes := v;
     transfers_reached_nbytes_latest := transfers_reached_nbytes_latest d;
     transfers_reached_time_start := transfers_reached_time_start d;
     transfers_reached_time_latest := transfers_reached_time_latest d;
     acq_aborted := acq_aborted d |}.

Definition set_transfers_reached_nbytes_latest (v : Z) (d : dev_context)
  : dev_context :=
  {| cur_limit_samples := cur_limit_samples d; cur_samplerate := cur_samplerate d;
     cur_samplechannel := cur_samplechannel d;
     cur_pattern_mode_idx := cur_pattern_mode_idx d;
     samples_need_nbytes := samples_need_nbytes d;
     samples_got_nbytes := samples_got_nbytes d;
     per_transfer_duration := per_transfer_duration d;
     per_transfer_nbytes := per_transfer_nbytes d;
     num_transfers_completed := num_transfers_completed d;
     num_transfers_used := num_transfers_used d; transfers := transfers d;
     transfers_reached_nbytes := transfers_reached_nbytes d;
     transfers_reached_nbytes_latest := v;
     transfers_reached_time_start := transfers_reached_time_start d;
     transfers_reached_time_latest := transfers_reached_time_latest d;
     acq_aborted := acq_aborted d |}.

Definition set_transfers_reached_time_start (v : Z) (d : dev_context)
  : dev_context :=
  {| cur_limit_samples := cur_limit_samples d; cur_samplerate := cur_samplerate d;
     cur_samplechannel := cur_samplechannel d;
     cur_pattern_mode_idx := cur_pattern_mode_idx d;
     samples_need_nbytes := samples_need_nbytes d;
     samples_got_nbytes := samples_got_nbytes d;
     per_transfer_duration := per_transfer_duration d;
     per_transfer_nbytes := per_transfer_nbytes d;
     num_transfers_completed := num_transfers_completed d;
     num_transfers_used := num_transfers_used d; transfers := transfers d;
     transfers_reached_nbytes := transfers_reached_nbytes d;
     transfers_reached_nbytes_latest := transfers_reached_nbytes_latest d;
     transfers_reached_time_start := v;
     transfers_reached_time_latest := transfers_reached_time_latest d;
     acq_aborted := acq_aborted d |}.

Definition set_transfers_reached_time_latest (v : Z) (d : dev_context)
  : dev_context :=
  {| cur_limit_samples := cur_limit_samples d; cur_samplerate := cur_samplerate d;
     cur_samplechannel := cur_samplechannel d;
     cur_pattern_mode_idx := cur_pattern_mode_idx d;
     samples_need_nbytes := samples_need_nbytes d;
     samples_got_nbytes := samples_got_nbytes d;
     per_transfer_duration := per_transfer_duration d;
     per_transfer_nbytes := per_transfer_nbytes d;
     num_transfers_completed := num_transfers_completed d;
     num_transfers_used := num_transfers_used d; transfers := transfers d;
     transfers_reached_nbytes := transfers_reached_nbytes d;
     transfers_reached_nbytes_latest := transfers_reached_nbytes_latest d;
     transfers_reached_time_start := transfers_reached_time_start d;
     transfers_reached_time_latest := v;
     acq_aborted := acq_aborted d |}.

Definition set_acq_aborted (v : Z) (d : dev_context) : dev_context :=
  {| cur_limit_samples := cur_limit_samples d; cur_samplerate := cur_samplerate d;
     cur_samplechannel := cur_samplechannel d;
     cur_pattern_mode_idx := cur_pattern_mode_idx d;
     samples_need_nbytes := samples_need_nbytes d;
     samples_got_nbytes := samples_got_nbytes d;
     per_transfer_duration := per_transfer_duration d;
     per_transfer_nbytes := per_transfer_nbytes d;
     num_transfers_completed := num_transfers_completed d;
     num_transfers_used := num_transfers_used d; transfers := transfers d;
     transfers_reached_nbytes := transfers_reached_nbytes d;
     transfers_reached_nbytes_latest := transfers_reached_nbytes_latest d;
     transfers_reached_time_start := transfers_reached_time_start d;
     transfers_reached_time_latest := transfers_reached_time_latest d;
     acq_aborted := v |}.

Definition set_actual_length (v : Z) (t : libusb_transfer) : libusb_transfer :=
  {| status := status t; buffer_length := buffer_length t; actual_length := v;
     timeout := timeout t; user_data := user_data t |}.

Definition set_timeout (v : Z) (t : libusb_transfer) : libusb_transfer :=
  {| status := status t; buffer_length := buffer_length t;
     actual_length := actual_length t; timeout := v; user_data := user_data t |}.

(** ** The engine *)

Section Engine.

(** The constants of [protocol.h]. *)
Variable NUM_MAX_TRANSFERS : Z.
Variable PATTERN_MODE_TEST_MAX_SPEED : Z.
Variable fm : float_model.

(** [(TRANSFERS_DURATION_TOLERANCE + 1) * devc->per_transfer_duration] *)
Definition duration_limit (d : dev_context) : float fm :=
  float_mul_uint fm (tolerance_plus_one fm) (per_transfer_duration d).

(** [(TRANSFERS_DURATION_TOLERANCE + 1) * devc->per_transfer_duration *
    (devc->num_transfers_used + 2)], as the timeout of a transfer. *)
Definition transfer_timeout (d : dev_context) : Z :=
  float_to_timeout fm
    (float_mul_uint fm (duration_limit d) (u64 (num_transfers_used d + 2))).

(** [sipeed_slogic_acquisition_stop] *)
Definition sipeed_slogic_acquisition_stop (d : dev_context) : dev_context :=
  set_acq_aborted 1 d.

(** [devc->samples_got_nbytes + devc->num_transfers_used *
    devc->per_transfer_nbytes < devc->samples_need_nbytes] *)
Definition need_more (d : dev_context) : bool :=
  u64 (samples_got_nbytes d + u64 (num_transfers_used d * per_transfer_nbytes d))
  <? samples_need_nbytes d.

(** The clamp of [transfer->actual_length] to the remaining need: the [int]
    is compared as an unsigned 64-bit number, and the remaining need is
    stored back into the [int]. *)
Definition clamp_actual_length (d : dev_context) (len : Z) : Z :=
  let remaining := u64 (samples_need_nbytes d - samples_got_nbytes d) in
  if u64 len >? remaining then s32 remaining else len.

(** The [switch (transfer->status)] of [receive_transfer].  [now] is the
    value of the monotonic clock read on entry and [submit_ret] what
    [libusb_submit_transfer] returns if the transfer is submitted again. *)
Definition handle_status (now submit_ret : Z) (t : libusb_transfer)
    (d : dev_context) : dev_context * libusb_transfer * list call :=
  match status t with
  | LIBUSB_TRANSFER_COMPLETED | LIBUSB_TRANSFER_TIMED_OUT =>
      let d := set_transfers_reached_nbytes_latest (u64 (actual_length t)) d in
      let d := set_transfers_reached_nbytes
                 (u64 (transfers_reached_nbytes d
                       + transfers_reached_nbytes_latest d)) d in
      let t := set_actual_length (clamp_actual_length d (actual_length t)) t in
      let d := set_samples_got_nbytes
                 (u64 (samples_got_nbytes d + u64 (actual_length t))) d in
      let d := set_transfers_reached_time_latest now d in
      if actual_length t =? 0 then
        (set_num_transfers_used (u64 (num_transfers_used d - 1)) d, t, [])
      else
        let forwarded :=
          if cur_pattern_mode_idx d =? PATTERN_MODE_TEST_MAX_SPEED then []
          else [submit_raw_data (u64 (actual_length t))] in
        let d := set_num_transfers_used (u64 (num_transfers_used d - 1)) d in
        if need_more d then
          let t := set_actual_length 0 t in
          let t := set_timeout (transfer_timeout d) t in
          let submitted :=
            [libusb_submit_transfer (buffer_length t) (timeout t) submit_ret] in
          if submit_ret =? 0 then
            (set_num_transfers_used (u64 (num_transfers_used d + 1)) d, t,
             forwarded ++ submitted)
          else (d, t, forwarded ++ submitted)
        else (d, t, forwarded)
  | LIBUSB_TRANSFER_OVERFLOW | LIBUSB_TRANSFER_STALL
  | LIBUSB_TRANSFER_NO_DEVICE =>
      (set_num_transfers_used 0 d, t, [])
  | _ =>
      (set_num_transfers_used (u64 (num_transfers_used d - 1)) d, t, [])
  end.

(** The check of the gap between two completions that follows the switch;
    [duration] is [now - transfers_reached_time_latest] as read on entry. *)
Definition duration_check (duration : Z) (d : dev_context) : dev_context :=
  if negb (num_transfers_completed d =? 0)
     && duration_ms_exceeds fm duration (duration_limit d)
  then set_num_transfers_used 0 d else d.

(** [if (devc->num_transfers_used == 0) sipeed_slogic_acquisition_stop(sdi)] *)
Definition stop_if_idle (d : dev_context) : dev_context :=
  if num_transfers_used d =? 0 then sipeed_slogic_acquisition_stop d else d.

(** [receive_transfer] *)
Definition receive_transfer (now submit_ret : Z) (t : libusb_transfer)
    (d : dev_context) : dev_context * libusb_transfer * list call :=
  if negb (user_data t) then (d, t, [])
  else
    let duration := now - transfers_reached_time_latest d in
    if acq_aborted d =? 1 then (d, t, [])
    else
      let '(d, t, calls) := handle_status now submit_ret t d in
      let d := duration_check duration d in
      let d := stop_if_idle d in
      (set_num_transfers_completed (u64 (num_transfers_completed d + 1)) d,
       t, calls).

(** [handle_events]: once the latch is set, every registered transfer is
    cancelled, then every slot is released and cleared, the event source is
    removed and the end of the stream is sent.  The array has
    [NUM_MAX_TRANSFERS] elements, so the two loops visit every slot.  The
    completions that libusb delivers while it is polled are calls of
    [receive_transfer] of their own. *)
Definition registered (slots : list (option transfer_handle))
  : list transfer_handle :=
  omap id slots.

Definition handle_events (d : dev_context) : dev_context * list call :=
  if acq_aborted d =? 0 then (d, [])
  else
    (set_transfers (replicate (length (transfers d)) None) d,
     map libusb_cancel_transfer (registered (transfers d))
     ++ map libusb_free_transfer (registered (transfers d))
     ++ [sr_session_source_remove; std_session_send_df_end]).

(** What happens to a session between its start and its end. *)
Inductive event : Type :=
  | Completion (now submit_ret : Z) (t : libusb_transfer)
  | Tick
  | Stop.

Definition step (e : event) (d : dev_context) : dev_context * list call :=
  match e with
  | Completion now submit_ret t =>
      let '(d, _, calls) := receive_transfer now submit_ret t d in (d, calls)
  | Tick => handle_events d
  | Stop => (sipeed_slogic_acquisition_stop d, [])
  end.

Fixpoint run (es : list event) (d : dev_context) : dev_context * list call :=
  match es with
  | [] => (d, [])
  | e :: es =>
      let '(d, calls) := step e d in
      let '(d, calls') := run es d in
      (d, calls ++ calls')
  end.

(** *** Acquisition start *)

(** The answers of the collaborators during a start. *)
Inductive probe_answer : Type :=
  | probe_malloc_fails
  | probe_submit (ret : Z).

Inductive fill_answer : Type :=
  | fill_malloc_fails
  | fill_alloc_transfer_fails
  | fill_submit (ret : Z).

Record start_answers : Type := {
  remote_stop_ret : Z;
  (* libusb_alloc_transfer for the probe returns a transfer *)
  probe_transfer_allocated : bool;
  (* the i-th pass of the probing loop *)
  probe_answers : nat -> probe_answer;
  (* the attempt to fill the slot of this index *)
  fill_answers : Z -> fill_answer;
  (* g_get_monotonic_time *)
  start_time : Z;
  remote_run_ret : Z
}.

(** Unsigned division; a zero divisor has no defined result. *)
Definition udiv (a b : Z) : option Z :=
  if b =? 0 then None else Some (a / b).

(** [(n + (2*16*1024-1)) & ~(2*16*1024-1)] on 64-bit unsigned [n]; the mask
    is an [int] that is converted to the unsigned type. *)
Definition round_up_block (n : Z) : Z :=
  Z.land (u64 (n + (2 * 16 * 1024 - 1))) (u64 (Z.lnot (2 * 16 * 1024 - 1))).

(** How the probing loop is left. *)
Inductive probe_exit : Type :=
  | probe_planned (nbytes duration : Z)
  | probe_io_error (nbytes duration : Z).

Definition probe_handle : transfer_handle := -1.

(** The inner [do ... while (devc->per_transfer_nbytes > 32*1024)] loop; a
    pass that halves and [continue]s goes on to the loop condition.  [None]
    is an undefined division or the end of the fuel. *)
Fixpoint probe_loop (fuel : nat) (answers : nat -> probe_answer) (i : nat)
    (rate ch nbytes : Z) : option (probe_exit * list call) :=
  match fuel with
  | O => None
  | S fuel =>
      let nbytes := round_up_block nbytes in
      duration ← udiv (u64 (u64 (nbytes * SR_KHZ 1) * 8)) (u64 (rate * ch));
      match answers i with
      | probe_malloc_fails =>
          let nbytes := Z.shiftr nbytes 1 in
          if nbytes >? 32 * 1024
          then probe_loop fuel answers (S i) rate ch nbytes
          else Some (probe_planned nbytes duration, [])
      | probe_submit ret =>
          let submitted := libusb_submit_transfer nbytes 0 ret in
          if ret =? 0 then
            let nbytes := Z.shiftr nbytes 1 in
            duration ← udiv nbytes (u64 (rate / SR_KHZ 1 * ch) / 8);
            Some (probe_planned nbytes duration,
                  [submitted; libusb_cancel_transfer probe_handle])
          else if ret =? LIBUSB_ERROR_NO_MEM then
            let nbytes := Z.shiftr nbytes 1 in
            if nbytes >? 32 * 1024
            then
              '(exit, calls) ← probe_loop fuel answers (S i) rate ch nbytes;
              Some (exit, submitted :: calls)
            else Some (probe_planned nbytes duration, [submitted])
          else
            Some (probe_io_error nbytes duration,
                  [submitted; libusb_free_transfer probe_handle])
      end
  end.

(** The passes the probing loop can make on a 64-bit size. *)
Definition probe_fuel : nat := 65.

(** The loop that fills the pool, lines 254 to 283. *)
Definition fill_guard (d : dev_context) : bool :=
  (num_transfers_used d <? NUM_MAX_TRANSFERS) && need_more d.

Fixpoint fill_pool (fuel : nat) (answers : Z -> fill_answer) (d : dev_context)
  : option (dev_context * list call) :=
  match fuel with
  | O => None
  | S fuel =>
      if fill_guard d then
        match answers (num_transfers_used d) with
        | fill_malloc_fails | fill_alloc_transfer_fails => Some (d, [])
        | fill_submit ret =>
            let h := num_transfers_used d in
            let submitted :=
              libusb_submit_transfer (per_transfer_nbytes d)
                (transfer_timeout d) ret in
            if ret =? 0 then
              let d := set_transfers
                         (<[Z.to_nat (num_transfers_used d) := Some h]>
                            (transfers d)) d in
              let d := set_num_transfers_used (u64 (num_transfers_used d + 1)) d in
              '(d, calls) ← fill_pool fuel answers d;
              Some (d, submitted :: calls)
            else Some (d, [submitted; libusb_free_transfer h])
        end
      else Some (d, [])
  end.

(** [(devc->per_transfer_duration / 2) ?: 1] *)
Definition tick_period (d : dev_context) : Z :=
  if per_transfer_duration d / 2 =? 0 then 1 else per_transfer_duration d / 2.

(** The part of [sipeed_slogic_acquisition_start] that follows the probe. *)
Definition arm (a : start_answers) (d : dev_context)
  : option (Z * dev_context * list call) :=
  let d := set_acq_aborted 0 d in
  let d := set_num_transfers_used 0 d in
  let d := set_num_transfers_completed 0 d in
  let d := set_transfers (replicate (Z.to_nat NUM_MAX_TRANSFERS) None) d in
  let d := set_transfers_reached_nbytes 0 d in
  let added := sr_session_source_add (tick_period d) in
  '(d, filled) ← fill_pool (S (Z.to_nat NUM_MAX_TRANSFERS)) (fill_answers a) d;
  let d := set_transfers_reached_time_start (start_time a) d in
  let d := set_transfers_reached_time_latest (transfers_reached_time_start d) d in
  let calls :=
    added :: filled
    ++ [std_session_send_df_header; std_session_send_df_frame_begin] in
  if num_transfers_used d =? 0 then
    Some (SR_OK, sipeed_slogic_acquisition_stop d, calls)
  else if remote_run_ret a <? 0 then
    Some (remote_run_ret a, d, calls ++ [remote_run (remote_run_ret a)])
  else Some (SR_OK, d, calls ++ [remote_run (remote_run_ret a)]).

(** [125 * samplerate * samplechannel / 8 / SR_KHZ(1)], the size planned for
    125 ms. *)
Definition planned_nbytes (d : dev_context) : Z :=
  u64 (u64 (125 * cur_samplerate d) * cur_samplechannel d) / 8 / SR_KHZ 1.

(** [sipeed_slogic_acquisition_start] *)
Definition sipeed_slogic_acquisition_start (a : start_answers)
    (d : dev_context) : option (Z * dev_context * list call) :=
  if remote_stop_ret a <? 0 then
    Some (remote_stop_ret a, d, [remote_stop (remote_stop_ret a)])
  else
    let stopped := remote_stop (remote_stop_ret a) in
    let d := set_samples_got_nbytes 0 d in
    let d := set_samples_need_nbytes
               (u64 (cur_limit_samples d * cur_samplechannel d) / 8) d in
    (* the argument 1000 * cur_limit_samples / cur_samplerate of sr_info *)
    _ ← udiv (u64 (1000 * cur_limit_samples d)) (cur_samplerate d);
    let d := set_per_transfer_duration 125 d in
    let d := set_per_transfer_nbytes (planned_nbytes d) d in
    if negb (probe_transfer_allocated a) then Some (SR_ERR_IO, d, [stopped])
    else
      '(exit, probed) ← probe_loop probe_fuel (probe_answers a) 0
                          (cur_samplerate d) (cur_samplechannel d)
                          (per_transfer_nbytes d);
      match exit with
      | probe_io_error nbytes duration =>
          let d := set_per_transfer_nbytes nbytes d in
          let d := set_per_transfer_duration duration d in
          Some (SR_ERR_IO, d, stopped :: probed)
      | probe_planned nbytes duration =>
          let d := set_per_transfer_nbytes nbytes d in
          let d := set_per_transfer_duration duration d in
          '(ret, d, calls) ← arm a d;
          Some (ret, d,
                stopped :: probed ++ [libusb_free_transfer probe_handle]
                ++ calls)
      end.

End Engine.

(** ** The configuration interface

    The tables and the handlers of [api.c].  [struct dev_context] holds, next
    to the fields of the engine, the model of the device, the two limits and
    the channel group; they are kept beside the engine's record. *)

Definition SR_MHZ (n : Z) : Z := n * 1000000.
Definition SR_ERR_NA : Z := -6.

(** A member that holds a pointer to a function: null, or some function.
    What a function answers when it is called is among the answers of the
    collaborators. *)
Inductive function_pointer : Type :=
  | NULL
  | FUNCTION.

(** [struct slogic_model], with the members that [api.c] initialises and
    those that [protocol.c] uses through [devc->model]: the bulk endpoint,
    [operation.remote_stop], [operation.remote_run] and [submit_raw_data]. *)
Record slogic_model : Type := {
  name : String.string;
  max_samplerate : Z;
  max_samplechannel : Z;
  max_bandwidth : Z;
  ep_in : Z;
  operation_remote_stop : function_pointer;
  operation_remote_run : function_pointer;
  model_submit_raw_data : function_pointer
}.

(** The names of the models. *)
Module ModelName.
Import String.
Definition lite_8 : string := "Slogic Lite 8".
Definition basic_16_u3 : string := "Slogic Basic 16 U3".
Definition none : string := "".
End ModelName.

Definition SLogic_LITE_8 : nat := 0.
Definition SLogic_BASIC_16_U3 : nat := 1.

(** The initialisers name the four configuration members only; the other
    members of the two elements are zero: no endpoint, null pointers. *)
Definition support_models : list slogic_model :=
  [ {| name := ModelName.lite_8; max_samplerate := SR_MHZ 160;
       max_samplechannel := 8; max_bandwidth := SR_MHZ 320;
       ep_in := 0; operation_remote_stop := NULL;
       operation_remote_run := NULL; model_submit_raw_data := NULL |};
    {| name := ModelName.basic_16_u3; max_samplerate := SR_MHZ 1600;
       max_samplechannel := 16; max_bandwidth := SR_MHZ 3200;
       ep_in := 0; operation_remote_stop := NULL;
       operation_remote_run := NULL; model_submit_raw_data := NULL |} ].

Definition samplerates : list Z :=
  [ SR_MHZ 1; SR_MHZ 2; SR_MHZ 4; SR_MHZ 5; SR_MHZ 8; SR_MHZ 10; SR_MHZ 16;
    SR_MHZ 20; SR_MHZ 32;
    SR_MHZ 40; SR_MHZ 80; SR_MHZ 160;
    SR_MHZ 200; SR_MHZ 400; SR_MHZ 800; SR_MHZ 1600 ].

Definition buffersizes : list Z := [2; 4; 8; 16].

Inductive sr_trigger_matches : Type :=
  | SR_TRIGGER_ZERO
  | SR_TRIGGER_ONE
  | SR_TRIGGER_RISING
  | SR_TRIGGER_FALLING
  | SR_TRIGGER_EDGE.

Definition trigger_matches : list sr_trigger_matches :=
  [ SR_TRIGGER_ZERO; SR_TRIGGER_ONE; SR_TRIGGER_RISING; SR_TRIGGER_FALLING;
    SR_TRIGGER_EDGE ].

(** The configuration keys the driver names; any other key is [SR_CONF_other]. *)
Inductive sr_configkey : Type :=
  | SR_CONF_LOGIC_ANALYZER
  | SR_CONF_CONN
  | SR_CONF_CONTINUOUS
  | SR_CONF_LIMIT_SAMPLES
  | SR_CONF_SAMPLERATE
  | SR_CONF_BUFFERSIZE
  | SR_CONF_TRIGGER_MATCH
  | SR_CONF_SCAN_OPTIONS
  | SR_CONF_DEVICE_OPTIONS
  | SR_CONF_other (key : Z).

(** An entry of an option table: the key and the [SR_CONF_GET],
    [SR_CONF_SET] and [SR_CONF_LIST] bits that are or-ed into it. *)
Record option_entry : Type := {
  opt_key : sr_configkey;
  opt_get : bool;
  opt_set : bool;
  opt_list : bool
}.

Definition scanopts : list option_entry :=
  [ {| opt_key := SR_CONF_CONN; opt_get := false; opt_set := false;
       opt_list := false |} ].

Definition drvopts : list option_entry :=
  [ {| opt_key := SR_CONF_LOGIC_ANALYZER; opt_get := false; opt_set := false;
       opt_list := false |} ].

Definition devopts : list option_entry :=
  [ {| opt_key := SR_CONF_CONTINUOUS; opt_get := false; opt_set := false;
       opt_list := false |};
    {| opt_key := SR_CONF_LIMIT_SAMPLES; opt_get := true; opt_set := true;
       opt_list := false |};
    {| opt_key := SR_CONF_SAMPLERATE; opt_get := true; opt_set := true;
       opt_list := true |};
    {| opt_key := SR_CONF_BUFFERSIZE; opt_get := true; opt_set := true;
       opt_list := true |};
    {| opt_key := SR_CONF_TRIGGER_MATCH; opt_get := true; opt_set := false;
       opt_list := true |} ].

Inductive sr_channeltype : Type :=
  | SR_CHANNEL_LOGIC
  | SR_CHANNEL_ANALOG.

(** The fields of [struct sr_channel] the driver reads or writes. *)
Record sr_channel : Type := {
  index : Z;
  type : sr_channeltype;
  enabled : bool
}.

(** A device instance: the engine's context and the rest of
    [struct dev_context]. *)
Record device : Type := {
  priv : dev_context;
  model : slogic_model;
  limit_samplerate : Z;
  limit_samplechannel : Z;
  channels : list sr_channel
}.

(** What a handler stores in [*data]: the value it builds, or the helper
    it calls with the array and the count it passes. *)
Inductive gvariant : Type :=
  | g_variant_new_uint64 (v : Z)
  | std_gvar_samplerates (a : list Z) (n : Z)
  | std_gvar_array_u64 (a : list Z) (n : Z)
  | std_gvar_array_i32 (a : list sr_trigger_matches) (n : Z)
  | std_config_list_data (key : sr_configkey).

(** The first [n] elements of the array, which is what a helper reads from
    the array and the count. *)
Definition listed (g : gvariant) : list Z :=
  match g with
  | std_gvar_samplerates a n | std_gvar_array_u64 a n => take (Z.to_nat n) a
  | _ => []
  end.

Definition set_cur_limit_samples (v : Z) (d : dev_context) : dev_context :=
  {| cur_limit_samples := v; cur_samplerate := cur_samplerate d;
     cur_samplechannel := cur_samplechannel d;
     cur_pattern_mode_idx := cur_pattern_mode_idx d;
     samples_need_nbytes := samples_need_nbytes d;
     samples_got_nbytes := samples_got_nbytes d;
     per_transfer_duration := per_transfer_duration d;
     per_transfer_nbytes := per_transfer_nbytes d;
     num_transfers_completed := num_transfers_completed d;
     num_transfers_used := num_transfers_used d; transfers := transfers d;
     transfers_reached_nbytes := transfers_reached_nbytes d;
     transfers_reached_nbytes_latest := transfers_reached_nbytes_latest d;
     transfers_reached_time_start := transfers_reached_time_start d;
     transfers_reached_time_latest := transfers_reached_time_latest d;
     acq_aborted := acq_aborted d |}.

Definition set_cur_samplerate (v : Z) (d : dev_context) : dev_context :=
  {| cur_limit_samples := cur_limit_samples d; cur_samplerate := v;
     cur_samplechannel := cur_samplechannel d;
     cur_pattern_mode_idx := cur_pattern_mode_idx d;
     samples_need_nbytes := samples_need_nbytes d;
     samples_got_nbytes := samples_got_nbytes d;
     per_transfer_duration := per_transfer_duration d;
     per_transfer_nbytes := per_transfer_nbytes d;
     num_transfers_completed := num_transfers_completed d;
     num_transfers_used := num_transfers_used d; transfers := transfers d;
     transfers_reached_nbytes := transfers_reached_nbytes d;
     transfers_reached_nbytes_latest := transfers_reached_nbytes_latest d;
     transfers_reached_time_start := transfers_reached_time_start d;
     transfers_reached_time_latest := transfers_reached_time_latest d;
     acq_aborted := acq_aborted d |}.

Definition set_cur_samplechannel (v : Z) (d : dev_context) : dev_context :=
  {| cur_limit_samples := cur_limit_samples d;
     cur_samplerate := cur_samplerate d; cur_samplechannel := v;
     cur_pattern_mode_idx := cur_pattern_mode_idx d;
     samples_need_nbytes := samples_need_nbytes d;
     samples_got_nbytes := samples_got_nbytes d;
     per_transfer_duration := per_transfer_duration d;
     per_transfer_nbytes := per_transfer_nbytes d;
     num_transfers_completed := num_transfers_completed d;
     num_transfers_used := num_transfers_used d; transfers := transfers d;
     transfers_reached_nbytes := transfers_reached_nbytes d;
     transfers_reached_nbytes_latest := transfers_reached_nbytes_latest d;
     transfers_reached_time_start := transfers_reached_time_start d;
     transfers_reached_time_latest := transfers_reached_time_latest d;
     acq_aborted := acq_aborted d |}.

Definition set_priv (v : dev_context) (s : device) : device :=
  {| priv := v; model := model s; limit_samplerate := limit_samplerate s;
     limit_samplechannel := limit_samplechannel s; channels := channels s |}.

Definition set_limit_samplerate (v : Z) (s : device) : device :=
  {| priv := priv s; model := model s; limit_samplerate := v;
     limit_samplechannel := limit_samplechannel s; channels := channels s |}.

Definition set_limit_samplechannel (v : Z) (s : device) : device :=
  {| priv := priv s; model := model s; limit_samplerate := limit_samplerate s;
     limit_samplechannel := v; channels := channels s |}.

Definition set_channels (v : list sr_channel) (s : device) : device :=
  {| priv := priv s; model := model s; limit_samplerate := limit_samplerate s;
     limit_samplechannel := limit_samplechannel s; channels := v |}.

(** libsigrok's [sr_dev_channel_enable] records the state in the channel. *)
Definition sr_dev_channel_enable (c : sr_channel) (state : bool) : sr_channel :=
  {| index := index c; type := type c; enabled := state |}.

Section Api.

(** libsigrok's helpers, which [api.c] only calls: [std_u64_idx] answers
    with the index of a value in an array or a negative number, and
    [STD_CONFIG_LIST] serves the option tables. *)
Variable std_u64_idx : Z -> list Z -> Z.
Variable STD_CONFIG_LIST : sr_configkey -> bool -> Z.
Variable NUM_MAX_TRANSFERS : Z.

(** The device context that [scan] sets up in memory filled with zeros,
    with its sixteen logic channels, all enabled. *)
Definition scan_new_device : device :=
  let m := default (Build_slogic_model ModelName.none 0 0 0 0 NULL NULL NULL)
             (support_models !! SLogic_BASIC_16_U3) in
  let limit_samplechannel := max_samplechannel m in
  let limit_samplerate := max_bandwidth m / max_samplechannel m in
  {| priv :=
       {| cur_limit_samples := 0; cur_samplerate := limit_samplerate;
          cur_samplechannel := limit_samplechannel;
          cur_pattern_mode_idx := 0;
          samples_need_nbytes := 0; samples_got_nbytes := 0;
          per_transfer_duration := 0; per_transfer_nbytes := 0;
          num_transfers_completed := 0; num_transfers_used := 0;
          transfers := replicate (Z.to_nat NUM_MAX_TRANSFERS) None;
          transfers_reached_nbytes := 0;
          transfers_reached_nbytes_latest := 0;
          transfers_reached_time_start := 0;
          transfers_reached_time_latest := 0; acq_aborted := 0 |};
     model := m;
     limit_samplerate := limit_samplerate;
     limit_samplechannel := limit_samplechannel;
     channels :=
       map (fun i => {| index := i; type := SR_CHANNEL_LOGIC; enabled := true |})
         (seqZ 0 16) |}.

(** [config_get]: the return code and what is stored in [*data]. *)
Definition config_get (key : sr_configkey) (s : device)
  : Z * option gvariant :=
  match key with
  | SR_CONF_SAMPLERATE =>
      (SR_OK, Some (g_variant_new_uint64 (cur_samplerate (priv s))))
  | SR_CONF_BUFFERSIZE =>
      (SR_OK, Some (g_variant_new_uint64 (cur_samplechannel (priv s))))
  | SR_CONF_LIMIT_SAMPLES =>
      (SR_OK, Some (g_variant_new_uint64 (cur_limit_samples (priv s))))
  | _ => (SR_ERR_NA, None)
  end.

(** The loop of [config_set] over the channels of the group. *)
Definition enable_channels (cur : Z) (l : list sr_channel) : list sr_channel :=
  map (fun c =>
         match type c with
         | SR_CHANNEL_LOGIC =>
             sr_dev_channel_enable c
               (if u64 (index c) >=? cur then false else true)
         | _ => c
         end) l.

(** [config_set]; [data] is the 64-bit value of the variant.  [None] is a
    division by zero. *)
Definition config_set (key : sr_configkey) (data : Z) (s : device)
  : option (Z * device) :=
  match key with
  | SR_CONF_SAMPLERATE =>
      let rate :=
        if (data >? limit_samplerate s)
           || (std_u64_idx data samplerates <? 0)
        then limit_samplerate s else data in
      let s := set_priv (set_cur_samplerate rate (priv s)) s in
      limit ← udiv (max_bandwidth (model s)) (cur_samplerate (priv s));
      let s := set_limit_samplechannel limit s in
      let s :=
        if limit_samplechannel s >? max_samplechannel (model s)
        then set_limit_samplechannel (max_samplechannel (model s)) s
        else s in
      Some (SR_OK, s)
  | SR_CONF_BUFFERSIZE =>
      let ch :=
        if (data >? limit_samplechannel s)
           || (std_u64_idx data buffersizes <? 0)
        then limit_samplechannel s else data in
      let s := set_priv (set_cur_samplechannel ch (priv s)) s in
      limit ← udiv (max_bandwidth (model s)) (cur_samplechannel (priv s));
      let s := set_limit_samplerate limit s in
      let s :=
        if limit_samplerate s >? max_samplerate (model s)
        then set_limit_samplerate (max_samplerate (model s)) s
        else s in
      let s :=
        set_channels
          (enable_channels (cur_samplechannel (priv s)) (channels s)) s in
      Some (SR_OK, s)
  | SR_CONF_LIMIT_SAMPLES =>
      Some (SR_OK, set_priv (set_cur_limit_samples data (priv s)) s)
  | _ => Some (SR_ERR_NA, s)
  end.

(** [config_list]; the device instance may be missing, and the two lists
    that read the limits then dereference a null pointer: [None]. *)
Definition config_list (key : sr_configkey) (sdi : option device)
  : option (Z * option gvariant) :=
  match key with
  | SR_CONF_SCAN_OPTIONS | SR_CONF_DEVICE_OPTIONS =>
      Some (STD_CONFIG_LIST key (bool_decide (is_Some sdi)),
            Some (std_config_list_data key))
  | SR_CONF_SAMPLERATE =>
      s ← sdi;
      Some (SR_OK,
            Some (std_gvar_samplerates samplerates
                    (1 + std_u64_idx (limit_samplerate s) samplerates)))
  | SR_CONF_BUFFERSIZE =>
      s ← sdi;
      Some (SR_OK,
            Some (std_gvar_array_u64 buffersizes
                    (1 + std_u64_idx (limit_samplechannel s) buffersizes)))
  | SR_CONF_TRIGGER_MATCH =>
      Some (SR_OK,
            Some (std_gvar_array_i32 trigger_matches
                    (Z.of_nat (length trigger_matches))))
  | _ => Some (SR_ERR_NA, None)
  end.

(** A sequence of [config_set] calls. *)
Fixpoint configure (ops : list (sr_configkey * Z)) (s : device)
  : option device :=
  match ops with
  | [] => Some s
  | (key, data) :: ops =>
      '(_, s) ← config_set key data s;
      configure ops s
  end.

End Api.

(** The linear search that answers like [std_u64_idx]. *)
Fixpoint u64_idx_from (i : Z) (data : Z) (a : list Z) : Z :=
  match a with
  | [] => -1
  | x :: a => if data =? x then i else u64_idx_from (i + 1) data a
  end.

Definition u64_idx (data : Z) (a : list Z) : Z := u64_idx_from 0 data a.

(** What the properties need of [std_u64_idx]: a negative answer for a
    value that is not in the array, the index of the value otherwise. *)
Definition finds_index (idx : Z -> list Z -> Z) : Prop :=
  forall (v : Z) (a : list Z),
    (idx v a < 0 /\ ~ In v a)
    \/ (0 <= idx v a /\ a !! Z.to_nat (idx v a) = Some v).

(** The configuration that [scan] sets up and [config_set] keeps: the rate
    and the channel count come from the tables and stay within the
    bandwidth of the model, each limit is what the bandwidth leaves to the
    other setting, and the logic channels below the channel count are the
    enabled ones. *)
Definition config_inv (s : device) : Prop :=
  support_models !! SLogic_BASIC_16_U3 = Some (model s)
  /\ In (cur_samplerate (priv s)) samplerates
  /\ In (cur_samplechannel (priv s)) buffersizes
  /\ cur_samplerate (priv s) * cur_samplechannel (priv s)
     <= max_bandwidth (model s)
  /\ limit_samplerate s
     = Z.min (max_bandwidth (model s) / cur_samplechannel (priv s))
         (max_samplerate (model s))
  /\ limit_samplechannel s
     = Z.min (max_bandwidth (model s) / cur_samplerate (priv s))
         (max_samplechannel (model s))
  /\ map index (channels s) = seqZ 0 16
  /\ Forall (fun c => type c = SR_CHANNEL_LOGIC
                      /\ enabled c = (index c <? cur_samplechannel (priv s)))
       (channels s).

(** A table in strictly ascending order. *)
Fixpoint ascending (a : list Z) : Prop :=
  match a with
  | [] => True
  | x :: a => List.Forall (Z.lt x) a /\ ascending a
  end.

(** [devopts] declares the key with the given capability bit. *)
Definition declares (bit : option_entry -> bool) (key : sr_configkey) : Prop :=
  exists e, In e devopts /\ opt_key e = key /\ bit e = true.

(** ** Predicates of the properties *)

Definition in_u64 (x : Z) : Prop := 0 <= x < 2 ^ 64.

(** The byte counters of a session. *)
Definition bytes_inv (d : dev_context) : Prop :=
  0 <= samples_got_nbytes d <= samples_need_nbytes d
  /\ samples_need_nbytes d < 2 ^ 64.

(** A completion carries the device instance and a length libusb can
    report: a non-negative [int]. *)
Definition wf_event (e : event) : Prop :=
  match e with
  | Completion _ _ t => 0 <= actual_length t < 2 ^ 31
  | _ => True
  end.

(** The statuses the switch treats as fatal for the whole pool. *)
Definition fatal_status (s : libusb_transfer_status) : bool :=
  match s with
  | LIBUSB_TRANSFER_OVERFLOW | LIBUSB_TRANSFER_STALL
  | LIBUSB_TRANSFER_NO_DEVICE => true
  | _ => false
  end.

(** The statuses that may have received data. *)
Definition data_status (s : libusb_transfer_status) : bool :=
  match s with
  | LIBUSB_TRANSFER_COMPLETED | LIBUSB_TRANSFER_TIMED_OUT => true
  | _ => false
  end.

(** The size and the answer of a submission to libusb. *)
Definition submission (c : call) : option (Z * Z) :=
  match c with
  | libusb_submit_transfer len _ ret => Some (len, ret)
  | _ => None
  end.

(** The start went past the probe and registered the event source. *)
Definition armed (calls : list call) : Prop :=
  exists period, In (sr_session_source_add period) calls.

(** The pool of a session that went past the probe. *)
Definition pool_inv (NUM_MAX_TRANSFERS : Z) (d : dev_context) : Prop :=
  0 <= num_transfers_used d <= NUM_MAX_TRANSFERS
  /\ (acq_aborted d = 1 \/ (acq_aborted d = 0 /\ 1 <= num_transfers_used d))
  /\ length (transfers d) = Z.to_nat NUM_MAX_TRANSFERS.

(** The divisions of the start are defined. *)
Definition valid_config (d : dev_context) : Prop :=
  cur_samplerate d <> 0
  /\ u64 (cur_samplerate d * cur_samplechannel d) <> 0
  /\ u64 (cur_samplerate d / SR_KHZ 1 * cur_samplechannel d) / 8 <> 0.

(** The calls the probing loop makes. *)
Definition probe_call (c : call) : Prop :=
  match c with
  | libusb_submit_transfer _ _ _ | libusb_cancel_transfer _
  | libusb_free_transfer _ => True
  | _ => False
  end.

(** No trial of the probe succeeds, and none fails for another reason than
    a lack of memory. *)
Definition no_probe_success (answers : nat -> probe_answer) : Prop :=
  forall i, answers i = probe_malloc_fails
            \/ answers i = probe_submit LIBUSB_ERROR_NO_MEM.

(** The condition of the filling loop when [j] transfers are outstanding:
    [j < NUM_MAX_TRANSFERS] and [got + j * per_transfer_nbytes < need], the
    sum and the product taken modulo 2^64. *)
Definition fill_wanted (NUM_MAX_TRANSFERS : Z) (d : dev_context) (j : Z)
  : bool :=
  (j <? NUM_MAX_TRANSFERS)
  && (u64 (samples_got_nbytes d + u64 (j * per_transfer_nbytes d))
      <? samples_need_nbytes d).

(** The timeout [(1 + tolerance) * per_transfer_duration * (j + 2)] of the
    transfer submitted when [j] transfers are outstanding. *)
Definition fill_timeout (fm : float_model) (d : dev_context) (j : Z) : Z :=
  float_to_timeout fm
    (float_mul_uint fm
       (float_mul_uint fm (tolerance_plus_one fm) (per_transfer_duration d))
       (j + 2)).

(** The calls of the pass that ends the filling: none when the loop
    condition fails or an allocation fails, the refused submission and the
    release of its transfer otherwise. *)
Definition fill_stop_calls (NUM_MAX_TRANSFERS : Z) (fm : float_model)
    (answers : Z -> fill_answer) (d : dev_context) (k : Z) : list call :=
  if fill_wanted NUM_MAX_TRANSFERS d k then
    match answers k with
    | fill_submit ret =>
        [libusb_submit_transfer (per_transfer_nbytes d) (fill_timeout fm d k) ret;
         libusb_free_transfer k]
    | _ => []
    end
  else [].

(** [d'] is [d] but for the outstanding count and the slots. *)
Definition same_but_pool (d d' : dev_context) : Prop :=
  d' = set_num_transfers_used (num_transfers_used d')
         (set_transfers (transfers d') d).

(** *** Readings of the calls *)

(** The length of a chunk handed to the consumer. *)
Definition raw_data (c : call) : option Z :=
  match c with submit_raw_data len => Some len | _ => None end.

(** The bytes handed to the consumer by a list of calls. *)
Definition forwarded_nbytes (calls : list call) : Z :=
  foldr Z.add 0 (omap raw_data calls).

Definition cancelled (c : call) : option transfer_handle :=
  match c with libusb_cancel_transfer h => Some h | _ => None end.

Definition freed (c : call) : option transfer_handle :=
  match c with libusb_free_transfer h => Some h | _ => None end.

(** The calls that release a transfer, as they are made. *)
Definition released (c : call) : option call :=
  match c with
  | libusb_cancel_transfer _ | libusb_free_transfer _ => Some c
  | _ => None
  end.

(** An event other than a tick of the event loop. *)
Definition no_tick (e : event) : Prop :=
  match e with Tick => False | _ => True end.

(** The framing notifications sent to the session. *)
Definition notification (c : call) : option call :=
  match c with
  | std_session_send_df_header | std_session_send_df_frame_begin
  | std_session_send_df_end => Some c
  | _ => None
  end.

(** The answer of the remote run command. *)
Definition run_command (c : call) : option Z :=
  match c with remote_run ret => Some ret | _ => None end.

(** The calls of a teardown. *)
Definition teardown_call (c : call) : Prop :=
  match c with
  | libusb_cancel_transfer _ | libusb_free_transfer _
  | sr_session_source_remove | std_session_send_df_end => True
  | _ => False
  end.

(** A trial of the probe: a whole number of 32 KiB blocks, no timeout. *)
Definition block_trial (c : call) : Prop :=
  match c with
  | libusb_submit_transfer len tmo _ => len mod 32768 = 0 /\ tmo = 0
  | _ => True
  end.

(** The context with every slot of the pool emptied. *)
Definition cleared (d : dev_context) : dev_context :=
  set_transfers (replicate (length (transfers d)) None) d.

(** ** The start on a device instance *)

(** [sipeed_slogic_acquisition_start] as it is called on a device instance:
    the stop and the run command are called through the members of
    [devc->model->operation].  A call through a null pointer has no defined
    result: [None]. *)
Definition acquisition_start_on (NUM_MAX_TRANSFERS : Z) (fm : float_model)
    (a : start_answers) (s : device) : option (Z * device * list call) :=
  match operation_remote_stop (model s) with
  | NULL => None
  | FUNCTION =>
      '(ret, d, calls) ←
        sipeed_slogic_acquisition_start NUM_MAX_TRANSFERS fm a (priv s);
      match omap run_command calls, operation_remote_run (model s) with
      | _ :: _, NULL => None
      | _, _ => Some (ret, set_priv d s, calls)
      end
  end.

(** ** Concrete sessions *)

(** A tolerance of five per cent, computed without rounding. *)
Definition floats_5pct : float_model := exact_floats (1 # 20).

(** A device context as [scan] and [config_set] leave it: the counters are
    zero, the configuration is set. *)
Definition idle_context (rate ch limit : Z) : dev_context :=
  {| cur_limit_samples := limit; cur_samplerate := rate;
     cur_samplechannel := ch; cur_pattern_mode_idx := 0;
     samples_need_nbytes := 0; samples_got_nbytes := 0;
     per_transfer_duration := 0; per_transfer_nbytes := 0;
     num_transfers_completed := 0; num_transfers_used := 0; transfers := [];
     transfers_reached_nbytes := 0; transfers_reached_nbytes_latest := 0;
     transfers_reached_time_start := 0; transfers_reached_time_latest := 0;
     acq_aborted := 0 |}.

(** 1 MHz on 2 channels, a million samples: 31250 bytes are planned for
    125 ms. *)
Definition slow_context : dev_context := idle_context 1000000 2 1000000.

(** Every allocation and every submission succeeds. *)
Definition answers_all_succeed : start_answers :=
  {| remote_stop_ret := 0; probe_transfer_allocated := true;
     probe_answers := fun _ => probe_submit 0;
     fill_answers := fun _ => fill_submit 0;
     start_time := 1000; remote_run_ret := 0 |}.

(** Every trial submission of the probe fails for lack of memory. *)
Definition answers_probe_no_mem : start_answers :=
  {| remote_stop_ret := 0; probe_transfer_allocated := true;
     probe_answers := fun _ => probe_submit LIBUSB_ERROR_NO_MEM;
     fill_answers := fun _ => fill_submit 0;
     start_time := 1000; remote_run_ret := 0 |}.

(** A session in the middle of its acquisition: a pool of four transfers of
    128 KiB, 1 MiB needed, one completion seen. *)
Definition live_context : dev_context :=
  {| cur_limit_samples := 1048576; cur_samplerate := 8000000;
     cur_samplechannel := 8; cur_pattern_mode_idx := 0;
     samples_need_nbytes := 1048576; samples_got_nbytes := 131072;
     per_transfer_duration := 125; per_transfer_nbytes := 131072;
     num_transfers_completed := 1; num_transfers_used := 4;
     transfers := [Some 0; Some 1; Some 2; Some 3];
     transfers_reached_nbytes := 131072;
     transfers_reached_nbytes_latest := 131072;
     transfers_reached_time_start := 0;
     transfers_reached_time_latest := 100000;
     acq_aborted := 0 |}.

(** The same session after a stop request. *)
Definition aborted_context : dev_context := set_acq_aborted 1 live_context.

(** A transfer of the pool as libusb hands it to the callback. *)
Definition pool_transfer (s : libusb_transfer_status) (len : Z)
  : libusb_transfer :=
  {| status := s; buffer_length := 131072; actual_length := len;
     timeout := 262; user_data := true |}.

(** The session when everything needed has been received. *)
Definition full_context : dev_context :=
  set_samples_got_nbytes 1048576 live_context.

(** The session when 64 KiB are still missing. *)
Definition last_context : dev_context :=
  set_samples_got_nbytes 983040 live_context.

(** 1 MHz on 2 channels with a sample limit of zero. *)
Definition unlimited_context : dev_context := idle_context 1000000 2 0.

(** Four channels at 400 MHz are asked for after the scan. *)
Definition four_channels_fast : list (sr_configkey * Z) :=
  [(SR_CONF_BUFFERSIZE, 4); (SR_CONF_SAMPLERATE, SR_MHZ 400)].

(** * Properties *)

(** ** Machine arithmetic *)

(** Linear arithmetic with division by constants. *)
Ltac zdiv_lia := Z.to_euclidean_division_equations; lia.

Lemma u64_range (x : Z) : 0 <= u64 x < 2 ^ 64.
Proof. unfold u64. apply Z.mod_pos_bound. lia. Qed.

Lemma u64_small (x : Z) : 0 <= x < 2 ^ 64 -> u64 x = x.
Proof. intros H. unfold u64. apply Z.mod_small. exact H. Qed.

Lemma s32_small (x : Z) : - 2 ^ 31 <= x < 2 ^ 31 -> s32 x = x.
Proof. intros H. unfold s32. rewrite Z.mod_small; lia. Qed.

Lemma u64_le (x : Z) : 0 <= x -> u64 x <= x.
Proof. intros H. unfold u64. apply Z.mod_le; lia. Qed.

Section Handler.

Variable PATTERN_MODE_TEST_MAX_SPEED : Z.
Variable fm : float_model.

Local Abbreviation handler := (receive_transfer PATTERN_MODE_TEST_MAX_SPEED fm).
Local Abbreviation switch := (handle_status PATTERN_MODE_TEST_MAX_SPEED fm).

(** Splits every test of the handler. *)
Ltac split_tests :=
  repeat match goal with
         | |- context [if ?b then _ else _] => destruct b eqn:?
         | |- context [match status ?t with _ => _ end] =>
             destruct (status t) eqn:?
         end.

(** The clamp is the minimum of the reported length and the remaining need. *)
Lemma clamp_actual_length_min (d : dev_context) (len : Z) :
  bytes_inv d -> 0 <= len < 2 ^ 31 ->
  clamp_actual_length d len
  = Z.min len (samples_need_nbytes d - samples_got_nbytes d).
Proof.
  intros [Hgot Hneed] Hlen. unfold clamp_actual_length.
  rewrite (u64_small len) by lia.
  rewrite (u64_small (samples_need_nbytes d - samples_got_nbytes d)) by lia.
  destruct (Z.gtb_spec len (samples_need_nbytes d - samples_got_nbytes d)).
  - rewrite s32_small by lia. lia.
  - lia.
Qed.

(** What the switch does to the byte counters. *)
Lemma handle_status_bytes (now r : Z) (t : libusb_transfer) (d : dev_context) :
  samples_need_nbytes (switch now r t d).1.1 = samples_need_nbytes d
  /\ samples_got_nbytes (switch now r t d).1.1
     = if data_status (status t)
       then u64 (samples_got_nbytes d
                 + u64 (clamp_actual_length d (actual_length t)))
       else samples_got_nbytes d.
Proof.
  unfold handle_status.
  destruct (status t); simpl; split_tests; simpl; auto.
Qed.

(** The checks after the switch leave the byte counters alone. *)
Lemma receive_transfer_bytes (now r : Z) (t : libusb_transfer) (d : dev_context) :
  samples_need_nbytes (handler now r t d).1.1 = samples_need_nbytes d
  /\ samples_got_nbytes (handler now r t d).1.1
     = if user_data t && negb (acq_aborted d =? 1) && data_status (status t)
       then u64 (samples_got_nbytes d
                 + u64 (clamp_actual_length d (actual_length t)))
       else samples_got_nbytes d.
Proof.
  unfold receive_transfer.
  destruct (user_data t); simpl; auto.
  destruct (acq_aborted d =? 1); simpl; auto.
  destruct (handle_status_bytes now r t d) as [Hn Hg].
  destruct (switch now r t d) as [[d1 t1] c1]; simpl in *.
  unfold duration_check, stop_if_idle, sipeed_slogic_acquisition_stop.
  split_tests; simpl; auto.
Qed.

(** One completion: the counter grows by the clamped length. *)
Lemma receive_transfer_got (now r : Z) (t : libusb_transfer) (d : dev_context) :
  bytes_inv d -> 0 <= actual_length t < 2 ^ 31 ->
  samples_need_nbytes (handler now r t d).1.1 = samples_need_nbytes d
  /\ samples_got_nbytes (handler now r t d).1.1
     = if user_data t && negb (acq_aborted d =? 1) && data_status (status t)
       then samples_got_nbytes d
            + Z.min (actual_length t)
                (samples_need_nbytes d - samples_got_nbytes d)
       else samples_got_nbytes d.
Proof.
  intros Hinv Hlen.
  destruct (receive_transfer_bytes now r t d) as [Hn Hg].
  split; [exact Hn|]. rewrite Hg.
  destruct (user_data t && negb (acq_aborted d =? 1) && data_status (status t));
    [|reflexivity].
  rewrite clamp_actual_length_min by assumption.
  destruct Hinv as [Hgot Hneed].
  rewrite (u64_small (Z.min _ _)) by lia.
  apply u64_small. lia.
Qed.

(** Every event keeps the need, never lowers the counter and keeps it within
    the need. *)
Lemma step_bytes (e : event) (d : dev_context) :
  bytes_inv d -> wf_event e ->
  let d' := (step PATTERN_MODE_TEST_MAX_SPEED fm e d).1 in
  samples_need_nbytes d' = samples_need_nbytes d
  /\ samples_got_nbytes d <= samples_got_nbytes d'
  /\ bytes_inv d'.
Proof.
  intros Hinv Hwf. destruct e as [now r t| |]; simpl in *.
  - destruct (receive_transfer_got now r t d Hinv Hwf) as [Hn Hg].
    destruct (handler now r t d) as [[d1 t1] c1]; simpl in *.
    unfold bytes_inv in *. rewrite Hn, Hg.
    destruct (user_data t && negb (acq_aborted d =? 1) && data_status (status t));
      lia.
  - unfold handle_events. destruct (acq_aborted d =? 0); simpl; auto with zarith.
  - unfold bytes_inv in *. simpl. auto with zarith.
Qed.

Lemma run_app (es1 es2 : list event) (d : dev_context) :
  (run PATTERN_MODE_TEST_MAX_SPEED fm (es1 ++ es2) d).1
  = (run PATTERN_MODE_TEST_MAX_SPEED fm es2
       (run PATTERN_MODE_TEST_MAX_SPEED fm es1 d).1).1.
Proof.
  revert d. induction es1 as [|e es1 IH]; intros d; simpl.
  - reflexivity.
  - destruct (step PATTERN_MODE_TEST_MAX_SPEED fm e d) as [d1 c1].
    specialize (IH d1).
    destruct (run PATTERN_MODE_TEST_MAX_SPEED fm (es1 ++ es2) d1) as [d2 c2].
    destruct (run PATTERN_MODE_TEST_MAX_SPEED fm es1 d1) as [d3 c3].
    simpl in *. exact IH.
Qed.

Lemma run_bytes (es : list event) (d : dev_context) :
  bytes_inv d -> Forall wf_event es ->
  let d' := (run PATTERN_MODE_TEST_MAX_SPEED fm es d).1 in
  samples_need_nbytes d' = samples_need_nbytes d
  /\ samples_got_nbytes d <= samples_got_nbytes d'
  /\ bytes_inv d'.
Proof.
  revert d. induction es as [|e es IH]; intros d Hinv Hwf; simpl.
  - repeat split; try apply Hinv; lia.
  - inversion Hwf as [|? ? He Hes]; subst.
    destruct (step_bytes e d Hinv He) as (Hn & Hg & Hinv1).
    destruct (step PATTERN_MODE_TEST_MAX_SPEED fm e d) as [d1 c1]; simpl in *.
    destruct (IH d1 Hinv1 Hes) as (Hn2 & Hg2 & Hinv2).
    destruct (run PATTERN_MODE_TEST_MAX_SPEED fm es d1) as [d2 c2]; simpl in *.
    repeat split; try apply Hinv2; lia.
Qed.

(** C1. Throughout an acquisition the received-byte counter
    [samples_got_nbytes] never decreases from one event to a later one and
    never exceeds [samples_need_nbytes], which stays what it was: for a
    session whose counter is within the need and every sequence of
    completions, ticks and stop requests, the counter after a prefix is at
    most the counter after the whole sequence, which is at most the need.
    A completion that may carry data (completed or timed out, latch not set)
    adds the reported length clamped to the remaining need,
    [min actual_length (need - got)]; every other completion adds nothing. *)
Theorem bytes_received_monotone_bounded
    (d : dev_context) (es1 es2 : list event) :
  bytes_inv d -> Forall wf_event (es1 ++ es2) ->
  let before := (run PATTERN_MODE_TEST_MAX_SPEED fm es1 d).1 in
  let after := (run PATTERN_MODE_TEST_MAX_SPEED fm (es1 ++ es2) d).1 in
  samples_got_nbytes d <= samples_got_nbytes before
  /\ samples_got_nbytes before <= samples_got_nbytes after
  /\ samples_got_nbytes after <= samples_need_nbytes after
  /\ samples_need_nbytes after = samples_need_nbytes d
  /\ forall now r t,
       0 <= actual_length t < 2 ^ 31 ->
       samples_got_nbytes (handler now r t after).1.1
       = if user_data t && negb (acq_aborted after =? 1)
            && data_status (status t)
         then samples_got_nbytes after
              + Z.min (actual_length t)
                  (samples_need_nbytes after - samples_got_nbytes after)
         else samples_got_nbytes after.
Proof.
  intros Hinv Hwf before after.
  apply Forall_app in Hwf. destruct Hwf as [Hwf1 Hwf2].
  destruct (run_bytes es1 d Hinv Hwf1) as (Hn1 & Hg1 & Hinv1).
  fold before in Hn1, Hg1, Hinv1.
  destruct (run_bytes es2 before Hinv1 Hwf2) as (Hn2 & Hg2 & Hinv2).
  assert (Hafter : after = (run PATTERN_MODE_TEST_MAX_SPEED fm es2 before).1)
    by apply run_app.
  rewrite <- Hafter in Hn2, Hg2, Hinv2.
  repeat split; try lia.
  - apply Hinv2.
  - intros now r t Hlen.
    apply (receive_transfer_got now r t after Hinv2 Hlen).
Qed.

(** The switch leaves the completion count, the planned duration and the
    latch alone. *)
Lemma handle_status_frame (now r : Z) (t : libusb_transfer) (d : dev_context) :
  let d' := (switch now r t d).1.1 in
  num_transfers_completed d' = num_transfers_completed d
  /\ per_transfer_duration d' = per_transfer_duration d
  /\ acq_aborted d' = acq_aborted d.
Proof.
  unfold handle_status.
  destruct (status t); simpl; split_tests; simpl; auto.
Qed.

(** C10. A completion that finds the abort latch set returns at once: the
    device context is the one it was called with (so the byte counter, the
    outstanding and completed counts, the throughput counters and the time of
    the last completion are unchanged), the transfer is untouched, and no
    call is made: nothing is forwarded to the consumer and nothing is
    submitted again. *)
Theorem aborted_completion_is_ignored
    (now r : Z) (t : libusb_transfer) (d : dev_context) :
  acq_aborted d = 1 -> handler now r t d = (d, t, []).
Proof.
  intros Hab. unfold receive_transfer. rewrite Hab. simpl.
  destruct (user_data t); reflexivity.
Qed.

(** C9, as amended. [num_transfers_completed] is incremented by one, modulo
    2^64, at the end of every invocation that gets past the two guards on
    entry, that is, whose transfer carries its device instance and which
    finds the abort latch not set; this holds for every transfer status and
    every answer of the resubmission.  An invocation that one of the guards
    stops returns before the increment and leaves the count as it was. *)
Theorem completed_count_increments
    (now r : Z) (t : libusb_transfer) (d : dev_context) :
  let d' := (handler now r t d).1.1 in
  num_transfers_completed d'
  = (if user_data t && negb (acq_aborted d =? 1)
     then u64 (num_transfers_completed d + 1)
     else num_transfers_completed d)
  /\ (user_data t = true -> acq_aborted d <> 1 ->
      0 <= num_transfers_completed d < 2 ^ 64 - 1 ->
      num_transfers_completed d' = num_transfers_completed d + 1).
Proof.
  intros d'.
  assert (H : num_transfers_completed d'
              = if user_data t && negb (acq_aborted d =? 1)
                then u64 (num_transfers_completed d + 1)
                else num_transfers_completed d).
  { subst d'. unfold receive_transfer.
    destruct (user_data t); simpl; [|reflexivity].
    destruct (acq_aborted d =? 1); simpl; [reflexivity|].
    destruct (handle_status_frame now r t d) as (Hc & _ & _).
    destruct (switch now r t d) as [[d1 t1] c1]; simpl in *.
    rewrite <- Hc.
    unfold duration_check, stop_if_idle, sipeed_slogic_acquisition_stop.
    split_tests; reflexivity. }
  split; [exact H|].
  intros Hud Hab Hrange. rewrite H, Hud.
  destruct (Z.eqb_spec (acq_aborted d) 1) as [|_]; [contradiction|].
  simpl. apply u64_small. lia.
Qed.

(** C6, as amended. A completion whose status is overflow, stall or
    device-gone and which gets past the two guards on entry, that is, whose
    transfer carries its device instance and which finds the abort latch not
    set, forces [num_transfers_used] to zero and sets the latch through the
    acquisition-stop call, whatever the rest of the context is, and submits
    nothing.  An invocation that one of the guards stops returns at once and
    leaves the context, the outstanding count included, as it was. *)
Theorem fatal_status_aborts
    (now r : Z) (t : libusb_transfer) (d : dev_context) :
  fatal_status (status t) = true ->
  let '(d', t', calls) := handler now r t d in
  if user_data t && negb (acq_aborted d =? 1)
  then num_transfers_used d' = 0 /\ acq_aborted d' = 1 /\ calls = []
  else d' = d /\ t' = t /\ calls = [].
Proof.
  intros Hfatal. unfold receive_transfer.
  destruct (user_data t); simpl; [|auto].
  destruct (Z.eqb_spec (acq_aborted d) 1) as [Hab|Hab]; simpl; [auto|].
  unfold handle_status.
  destruct (status t); try discriminate Hfatal;
    unfold duration_check, stop_if_idle, sipeed_slogic_acquisition_stop;
    simpl;
    destruct (negb (num_transfers_completed d =? 0) && _); simpl; auto.
Qed.

(** C7, as amended. On a completion that is not the first one
    ([num_transfers_completed] is not zero) and that gets past the two guards
    on entry (the transfer carries its device instance, the abort latch is
    not set), if the time since [transfers_reached_time_latest], the time of
    the previous completion that was handled as completed or timed out,
    exceeds [(1 + tolerance) * per_transfer_duration], the handler forces
    [num_transfers_used] to zero and sets the latch, whatever the status of
    the transfer was and whether or not the switch submitted it again.  An
    invocation that one of the guards stops makes no check and leaves the
    context as it was. *)
Theorem stalled_link_aborts
    (now r : Z) (t : libusb_transfer) (d : dev_context) :
  num_transfers_completed d <> 0 ->
  duration_ms_exceeds fm (now - transfers_reached_time_latest d)
    (duration_limit fm d) = true ->
  let '(d', t', calls) := handler now r t d in
  if user_data t && negb (acq_aborted d =? 1)
  then num_transfers_used d' = 0 /\ acq_aborted d' = 1
  else d' = d /\ t' = t /\ calls = [].
Proof.
  intros Hcount Hgap. unfold receive_transfer.
  destruct (user_data t); simpl; [|auto].
  destruct (Z.eqb_spec (acq_aborted d) 1) as [Hab|Hab]; simpl; [auto|].
  destruct (handle_status_frame now r t d) as (Hc & Hd & _).
  destruct (switch now r t d) as [[d1 t1] c1]; simpl in *.
  unfold duration_check, duration_limit in *. rewrite Hc, Hd, Hgap.
  destruct (Z.eqb_spec (num_transfers_completed d) 0) as [|_]; [contradiction|].
  simpl. auto.
Qed.

(** C8, as amended. A completed or timed-out completion whose clamped
    length is zero is never submitted again and leaves [samples_got_nbytes]
    as it was: the handler makes no call at all.  When the invocation gets
    past the two guards on entry (the transfer carries its device instance,
    the abort latch is not set), the switch retires the transfer by
    decrementing [num_transfers_used] and leaves the transfer with a zero
    length; after the switch only the check of the gap between completions
    can still change [num_transfers_used], to zero.  An invocation that one
    of the guards stops does not decrement: it leaves the context and the
    transfer as they were. *)
Theorem empty_completion_retires
    (now r : Z) (t : libusb_transfer) (d : dev_context) :
  data_status (status t) = true ->
  clamp_actual_length d (actual_length t) = 0 ->
  in_u64 (samples_got_nbytes d) ->
  let '(d', t', calls) := handler now r t d in
  calls = []
  /\ samples_got_nbytes d' = samples_got_nbytes d
  /\ if user_data t && negb (acq_aborted d =? 1)
     then
       num_transfers_used (switch now r t d).1.1
       = u64 (num_transfers_used d - 1)
       /\ (0 < num_transfers_used d < 2 ^ 64 ->
           num_transfers_used (switch now r t d).1.1
           = num_transfers_used d - 1)
       /\ actual_length t' = 0
       /\ num_transfers_used d'
          = (if negb (num_transfers_completed d =? 0)
                && duration_ms_exceeds fm
                     (now - transfers_reached_time_latest d)
                     (duration_limit fm d)
             then 0 else u64 (num_transfers_used d - 1))
     else d' = d /\ t' = t.
Proof.
  intros Hdata Hclamp Hgot.
  assert (Hsw : switch now r t d
          = (set_num_transfers_used (u64 (num_transfers_used d - 1))
               (set_transfers_reached_time_latest now
                  (set_samples_got_nbytes (samples_got_nbytes d)
                     (set_transfers_reached_nbytes
                        (u64 (transfers_reached_nbytes d
                              + u64 (actual_length t)))
                        (set_transfers_reached_nbytes_latest
                           (u64 (actual_length t)) d)))),
             set_actual_length 0 t, [])).
  { unfold handle_status, clamp_actual_length in *.
    destruct (status t); try discriminate Hdata; simpl in *;
      rewrite Hclamp; simpl; rewrite Z.add_0_r, (u64_small _ Hgot);
      reflexivity. }
  unfold receive_transfer.
  destruct (user_data t); simpl; [|auto].
  destruct (Z.eqb_spec (acq_aborted d) 1) as [Hab|Hab]; simpl; [auto|].
  rewrite Hsw.
  unfold duration_check, duration_limit, stop_if_idle,
    sipeed_slogic_acquisition_stop; simpl.
  pose proof (u64_small (num_transfers_used d - 1)) as Hsmall.
  split_tests; simpl in *;
    (split; [reflexivity|]; split; [reflexivity|];
     split; [reflexivity|]; split; [intros; apply Hsmall; lia|];
     split; [reflexivity|]; reflexivity || lia).
Qed.

End Handler.

(** ** The link probe *)

(** The mask clears the fifteen low bits of a 64-bit number. *)
Lemma land_block_mask (x : Z) :
  0 <= x < 2 ^ 64 ->
  Z.land x (u64 (Z.lnot (2 * 16 * 1024 - 1))) = x - x mod 32768.
Proof.
  intros Hx.
  change (u64 (Z.lnot (2 * 16 * 1024 - 1)))
    with (Z.ldiff (Z.ones 64) (Z.ones 15)).
  rewrite Z.ldiff_land, Z.land_assoc, Z.land_ones by lia.
  rewrite (Z.mod_small x) by exact Hx.
  rewrite <- Z.ldiff_land, Z.ldiff_ones_r by lia.
  rewrite Z.shiftr_div_pow2, Z.shiftl_mul_pow2 by lia.
  change (2 ^ 15) with 32768.
  pose proof (Z.div_mod x 32768). lia.
Qed.

Lemma round_up_block_eq (n : Z) :
  round_up_block n
  = u64 (n + 32767) - u64 (n + 32767) mod 32768.
Proof.
  unfold round_up_block. change (2 * 16 * 1024 - 1) with 32767.
  apply (land_block_mask (u64 (n + 32767))). apply u64_range.
Qed.

Lemma round_up_block_multiple (n : Z) : round_up_block n mod 32768 = 0.
Proof.
  rewrite round_up_block_eq.
  set (x := u64 (n + 32767)).
  rewrite Zminus_mod, Z.mod_mod, Z.sub_diag by lia. reflexivity.
Qed.

Lemma round_up_block_bounds (n : Z) :
  0 <= n ->
  0 <= round_up_block n <= n + 32767
  /\ (n + 32767 < 2 ^ 64 -> n <= round_up_block n).
Proof.
  intros Hn. rewrite round_up_block_eq.
  pose proof (u64_range (n + 32767)) as Hr.
  pose proof (u64_le (n + 32767)) as Hle.
  pose proof (Z.mod_pos_bound (u64 (n + 32767)) 32768) as Hm.
  pose proof (Z.mod_le (u64 (n + 32767)) 32768) as Hml.
  split; [lia|].
  intros Hsmall. rewrite (u64_small (n + 32767)) in * by lia. lia.
Qed.

(** Half of a multiple of 32 KiB is a multiple of 16 KiB. *)
Lemma half_block_multiple (r : Z) :
  r mod 32768 = 0 -> Z.shiftr r 1 mod 16384 = 0 /\ Z.shiftr r 1 = r / 2.
Proof.
  intros Hr. rewrite Z.shiftr_div_pow2 by lia. change (2 ^ 1) with 2.
  split; [|reflexivity].
  apply Z.mod_divide in Hr; [|lia]. destruct Hr as [q ->].
  replace (q * 32768) with (q * 16384 * 2) by lia.
  rewrite Z.div_mul by lia. apply Z.mod_mul. lia.
Qed.

Lemma udiv_nonzero (a b : Z) : b <> 0 -> udiv a b = Some (a / b).
Proof.
  intros Hb. unfold udiv. destruct (Z.eqb_spec b 0); [contradiction|reflexivity].
Qed.

Section Probe.

Variable answers : nat -> probe_answer.
Variables rate ch : Z.
Hypothesis rate_ch_nonzero : u64 (rate * ch) <> 0.
Hypothesis bytes_per_ms_nonzero : u64 (rate / SR_KHZ 1 * ch) / 8 <> 0.

(** One pass of the probing loop. *)
Lemma probe_loop_unfold (f i : nat) (n : Z) :
  probe_loop (S f) answers i rate ch n
  = let nbytes := round_up_block n in
    duration ← udiv (u64 (u64 (nbytes * SR_KHZ 1) * 8)) (u64 (rate * ch));
    match answers i with
    | probe_malloc_fails =>
        let nbytes := Z.shiftr nbytes 1 in
        if nbytes >? 32 * 1024
        then probe_loop f answers (S i) rate ch nbytes
        else Some (probe_planned nbytes duration, [])
    | probe_submit ret =>
        let submitted := libusb_submit_transfer nbytes 0 ret in
        if ret =? 0 then
          let nbytes := Z.shiftr nbytes 1 in
          duration ← udiv nbytes (u64 (rate / SR_KHZ 1 * ch) / 8);
          Some (probe_planned nbytes duration,
                [submitted; libusb_cancel_transfer probe_handle])
        else if ret =? LIBUSB_ERROR_NO_MEM then
          let nbytes := Z.shiftr nbytes 1 in
          if nbytes >? 32 * 1024
          then
            '(exit, calls) ← probe_loop f answers (S i) rate ch nbytes;
            Some (exit, submitted :: calls)
          else Some (probe_planned nbytes duration, [submitted])
        else
          Some (probe_io_error nbytes duration,
                [submitted; libusb_free_transfer probe_handle])
    end.
Proof. reflexivity. Qed.

(** The probing loop ends within its fuel, and what it plans is half of a
    multiple of 32 KiB. *)
Lemma probe_loop_spec (f : nat) :
  forall (i : nat) (n : Z),
    0 <= n <= 32768 + 2 ^ Z.of_nat f ->
    exists exit calls,
      probe_loop (S f) answers i rate ch n = Some (exit, calls)
      /\ Forall probe_call calls
      /\ match exit with
         | probe_planned nb _ =>
             0 <= nb /\ nb mod 16384 = 0 /\ (1 <= n <= 2 ^ 63 -> 16384 <= nb)
         | probe_io_error _ _ =>
             exists j ret, answers j = probe_submit ret
                           /\ ret <> 0 /\ ret <> LIBUSB_ERROR_NO_MEM
         end
      /\ (no_probe_success answers ->
          exists nb dur, exit = probe_planned nb dur /\ nb <= 32768).
Proof.
  induction f as [|f IH]; intros i n Hn.
  all: rewrite probe_loop_unfold; cbv zeta.
  all: destruct (round_up_block_bounds n ltac:(lia)) as [Hr Hlow].
  all: pose proof (round_up_block_multiple n) as Hmul.
  all: destruct (half_block_multiple _ Hmul) as [Hhalf Hdiv].
  all: remember (round_up_block n) as r eqn:Hreq.
  all: rewrite (udiv_nonzero _ _ rate_ch_nonzero).
  all: cbn [mbind option_bind].
  all: assert (Hnb : 0 <= Z.shiftr r 1
                     /\ (1 <= n <= 2 ^ 63 -> 16384 <= Z.shiftr r 1))
         by (rewrite Hdiv; split; [zdiv_lia|]; intros ?;
             assert (n <= r) by (apply Hlow; lia); zdiv_lia).
  - (* the last pass the fuel allows *)
    assert (Hle : Z.shiftr r 1 <= 32 * 1024)
      by (rewrite Hdiv; change (2 ^ Z.of_nat 0) with 1 in Hn; zdiv_lia).
    destruct (Z.gtb_spec (Z.shiftr r 1) (32 * 1024)) as [Hgt|_]; [lia|].
    destruct (answers i) as [|ret] eqn:Hans.
    + eexists _, _. split; [reflexivity|]. split; [constructor|].
      split; [tauto|]. intros _. eauto.
    + destruct (Z.eqb_spec ret 0) as [->|Hret].
      * rewrite (udiv_nonzero _ _ bytes_per_ms_nonzero).
        cbn [mbind option_bind].
        eexists _, _. split; [reflexivity|].
        split; [repeat constructor|]. split; [tauto|].
        intros Hno. destruct (Hno i) as [H|H]; rewrite Hans in H;
          discriminate H.
      * destruct (Z.eqb_spec ret LIBUSB_ERROR_NO_MEM) as [->|Hmem].
        -- eexists _, _. split; [reflexivity|].
           split; [repeat constructor|]. split; [tauto|]. intros _. eauto.
        -- eexists _, _. split; [reflexivity|].
           split; [repeat constructor|]. split; [eauto|].
           intros Hno. destruct (Hno i) as [H|H]; rewrite Hans in H;
             [discriminate H|congruence].
  - (* a pass that may be followed by another *)
    assert (Hnext : 0 <= Z.shiftr r 1 <= 32768 + 2 ^ Z.of_nat f
                    /\ (1 <= n <= 2 ^ 63 -> Z.shiftr r 1 <= 2 ^ 63))
      by (rewrite Hdiv; rewrite Nat2Z.inj_succ, Z.pow_succ_r in Hn by lia;
          zdiv_lia).
    destruct Hnext as [Hnext Hkeep].
    destruct (answers i) as [|ret] eqn:Hans.
    + destruct (Z.gtb_spec (Z.shiftr r 1) (32 * 1024)) as [Hgt|Hle].
      * destruct (IH (S i) (Z.shiftr r 1) Hnext)
          as (exit & calls & Hp & Hc & He & Hs).
        exists exit, calls. split; [exact Hp|]. split; [exact Hc|].
        split; [|exact Hs].
        destruct exit; [|exact He].
        destruct He as (H0 & H1 & H2). repeat split; try assumption.
        intros Hn1. apply H2. lia.
      * eexists _, _. split; [reflexivity|]. split; [constructor|].
        split; [tauto|]. intros _. eauto.
    + destruct (Z.eqb_spec ret 0) as [->|Hret].
      * rewrite (udiv_nonzero _ _ bytes_per_ms_nonzero).
        cbn [mbind option_bind].
        eexists _, _. split; [reflexivity|].
        split; [repeat constructor|]. split; [tauto|].
        intros Hno. destruct (Hno i) as [H|H]; rewrite Hans in H;
          discriminate H.
      * destruct (Z.eqb_spec ret LIBUSB_ERROR_NO_MEM) as [->|Hmem].
        -- destruct (Z.gtb_spec (Z.shiftr r 1) (32 * 1024)) as [Hgt|Hle].
           ++ destruct (IH (S i) (Z.shiftr r 1) Hnext)
                as (exit & calls & Hp & Hc & He & Hs).
              rewrite Hp. cbn [mbind option_bind].
              eexists _, _. split; [reflexivity|].
              split; [constructor; [exact I|exact Hc]|].
              split; [|exact Hs].
              destruct exit; [|exact He].
              destruct He as (H0 & H1 & H2). repeat split; try assumption.
              intros Hn1. apply H2. lia.
           ++ eexists _, _. split; [reflexivity|].
              split; [repeat constructor|]. split; [tauto|].
              intros _. eauto.
        -- eexists _, _. split; [reflexivity|].
           split; [repeat constructor|]. split; [eauto|].
           intros Hno. destruct (Hno i) as [H|H]; rewrite Hans in H;
             [discriminate H|congruence].
Qed.

End Probe.

(** ** The pool *)

Section Pool.

Variable NUM_MAX_TRANSFERS : Z.
Variable PATTERN_MODE_TEST_MAX_SPEED : Z.
Variable fm : float_model.
Hypothesis NUM_MAX_TRANSFERS_range : 0 <= NUM_MAX_TRANSFERS < 2 ^ 64 - 1.

Local Abbreviation fill := (fill_pool NUM_MAX_TRANSFERS fm).
Local Abbreviation wanted := (fill_wanted NUM_MAX_TRANSFERS).

(** One pass of the filling loop. *)
Lemma fill_pool_unfold (answers : Z -> fill_answer) (fuel : nat)
    (d : dev_context) :
  fill (S fuel) answers d
  = if wanted d (num_transfers_used d) then
      match answers (num_transfers_used d) with
      | fill_malloc_fails | fill_alloc_transfer_fails => Some (d, [])
      | fill_submit ret =>
          let h := num_transfers_used d in
          let submitted :=
            libusb_submit_transfer (per_transfer_nbytes d)
              (transfer_timeout fm d) ret in
          if ret =? 0 then
            let d := set_transfers
                       (<[Z.to_nat (num_transfers_used d) := Some h]>
                          (transfers d)) d in
            let d := set_num_transfers_used (u64 (num_transfers_used d + 1)) d in
            '(d, calls) ← fill fuel answers d;
            Some (d, submitted :: calls)
          else Some (d, [submitted; libusb_free_transfer h])
      end
    else Some (d, []).
Proof. reflexivity. Qed.

(** The filling loop ends within its fuel.  It registers one transfer per
    pass as long as the loop condition holds and the submission succeeds,
    and stops at the first pass where either fails. *)
Lemma fill_pool_spec (answers : Z -> fill_answer) (fuel : nat) :
  forall d : dev_context,
    0 <= num_transfers_used d ->
    NUM_MAX_TRANSFERS - num_transfers_used d <= Z.of_nat fuel ->
    exists d' calls,
      fill (S fuel) answers d = Some (d', calls)
      /\ num_transfers_used d <= num_transfers_used d'
      /\ (num_transfers_used d' <= NUM_MAX_TRANSFERS
          \/ num_transfers_used d' = num_transfers_used d)
      /\ same_but_pool d d'
      /\ length (transfers d') = length (transfers d)
      /\ (forall i : nat, Z.of_nat i < num_transfers_used d ->
            transfers d' !! i = transfers d !! i)
      /\ (forall j, num_transfers_used d <= j < num_transfers_used d' ->
            wanted d j = true /\ answers j = fill_submit 0
            /\ ((Z.to_nat j < length (transfers d))%nat ->
                transfers d' !! Z.to_nat j = Some (Some j)))
      /\ (wanted d (num_transfers_used d') = false
          \/ answers (num_transfers_used d') <> fill_submit 0)
      /\ calls
         = map (fun j => libusb_submit_transfer (per_transfer_nbytes d)
                           (fill_timeout fm d j) 0)
             (seqZ (num_transfers_used d)
                (num_transfers_used d' - num_transfers_used d))
           ++ fill_stop_calls NUM_MAX_TRANSFERS fm answers d
                (num_transfers_used d').
Proof.
  assert (Htimeout : forall d : dev_context,
            0 <= num_transfers_used d < NUM_MAX_TRANSFERS ->
            transfer_timeout fm d = fill_timeout fm d (num_transfers_used d)).
  { intros d Hd. unfold transfer_timeout, duration_limit, fill_timeout.
    rewrite (u64_small (num_transfers_used d + 2)) by lia. reflexivity. }
  assert (Hlt : forall d : dev_context,
            wanted d (num_transfers_used d) = true ->
            num_transfers_used d < NUM_MAX_TRANSFERS).
  { intros d Hw. unfold fill_wanted in Hw. apply andb_true_iff in Hw.
    destruct Hw as [Hw _]. apply Z.ltb_lt in Hw. exact Hw. }
  (* a pass that ends the loop *)
  assert (Hexit : forall (d : dev_context) (tail : list call),
            tail = fill_stop_calls NUM_MAX_TRANSFERS fm answers d
                     (num_transfers_used d) ->
            wanted d (num_transfers_used d) = false
            \/ answers (num_transfers_used d) <> fill_submit 0 ->
            exists d' calls,
              Some (d, tail) = Some (d', calls)
              /\ num_transfers_used d <= num_transfers_used d'
              /\ (num_transfers_used d' <= NUM_MAX_TRANSFERS
                  \/ num_transfers_used d' = num_transfers_used d)
              /\ same_but_pool d d'
              /\ length (transfers d') = length (transfers d)
              /\ (forall i : nat, Z.of_nat i < num_transfers_used d ->
                    transfers d' !! i = transfers d !! i)
              /\ (forall j, num_transfers_used d <= j < num_transfers_used d' ->
                    wanted d j = true /\ answers j = fill_submit 0
                    /\ ((Z.to_nat j < length (transfers d))%nat ->
                        transfers d' !! Z.to_nat j = Some (Some j)))
              /\ (wanted d (num_transfers_used d') = false
                  \/ answers (num_transfers_used d') <> fill_submit 0)
              /\ calls
                 = map (fun j => libusb_submit_transfer (per_transfer_nbytes d)
                                   (fill_timeout fm d j) 0)
                     (seqZ (num_transfers_used d)
                        (num_transfers_used d' - num_transfers_used d))
                   ++ fill_stop_calls NUM_MAX_TRANSFERS fm answers d
                        (num_transfers_used d')).
  { intros d tail -> Hend. exists d; eexists. split; [reflexivity|].
    rewrite Z.sub_diag. cbn [seqZ Z.to_nat seq map fmap list_fmap app].
    repeat split; try solve [lia | auto | destruct d; reflexivity]. }
  induction fuel as [|fuel IH]; intros d Hu Hfuel.
  all: rewrite fill_pool_unfold; cbv zeta.
  all: destruct (wanted d (num_transfers_used d)) eqn:Hw.
  - specialize (Hlt d Hw). lia.
  - apply Hexit; [unfold fill_stop_calls; rewrite Hw; reflexivity|auto].
  - specialize (Hlt d Hw).
    destruct (answers (num_transfers_used d)) as [| |ret] eqn:Hans.
    + apply Hexit; [unfold fill_stop_calls; rewrite Hw, Hans; reflexivity|].
      right; congruence.
    + apply Hexit; [unfold fill_stop_calls; rewrite Hw, Hans; reflexivity|].
      right; congruence.
    + destruct (Z.eqb_spec ret 0) as [->|Hret].
      * (* the pass that registers a transfer *)
        set (d1 := set_num_transfers_used _ _).
        assert (Hused1 : num_transfers_used d1 = num_transfers_used d + 1)
          by (subst d1; simpl; apply u64_small; lia).
        destruct (IH d1) as (d' & calls & Hfill & Hle & Hmax & Hsame & Hlen
                             & Hlow & Hreg & Hend & Hcalls); [lia|lia|].
        rewrite Hfill. cbn [mbind option_bind].
        exists d', (libusb_submit_transfer (per_transfer_nbytes d)
                      (transfer_timeout fm d) 0 :: calls).
        split; [reflexivity|].
        assert (Hlen1 : length (transfers d1) = length (transfers d))
          by (subst d1; simpl; apply length_insert).
        assert (Hw1 : forall j, wanted d1 j = wanted d j) by reflexivity.
        rewrite Hused1 in *.
        split; [lia|]. split; [left; lia|].
        split; [unfold same_but_pool in *; rewrite Hsame; subst d1;
                destruct d; reflexivity|].
        split; [congruence|].
        split.
        { intros i Hi. rewrite Hlow by lia. subst d1; simpl.
          apply list_lookup_insert_ne. lia. }
        split.
        { intros j Hj.
          destruct (Z.eq_dec j (num_transfers_used d)) as [->|Hne].
          - split; [exact Hw|]. split; [exact Hans|]. intros Hin.
            rewrite Hlow by lia. subst d1; simpl.
            apply list_lookup_insert_eq. exact Hin.
          - destruct (Hreg j ltac:(lia)) as (H1 & H2 & H3).
            rewrite Hw1 in H1. split; [exact H1|]. split; [exact H2|].
            intros Hin. apply H3. lia. }
        split; [rewrite <- Hw1; exact Hend|].
        rewrite Hcalls.
        rewrite (seqZ_cons (num_transfers_used d)) by lia.
        cbn [map fmap list_fmap app]. f_equal.
        -- rewrite Htimeout by lia. reflexivity.
        -- f_equal. f_equal. f_equal; lia.
      * rewrite Htimeout by lia.
        apply Hexit; [unfold fill_stop_calls; rewrite Hw, Hans; reflexivity|].
        right. rewrite Hans. congruence.
  - apply Hexit; [unfold fill_stop_calls; rewrite Hw; reflexivity|auto].
Qed.

(** *** The pool invariant *)

Lemma handle_status_pool (now r : Z) (t : libusb_transfer) (d : dev_context) :
  1 <= num_transfers_used d <= NUM_MAX_TRANSFERS ->
  let d' := (handle_status PATTERN_MODE_TEST_MAX_SPEED fm now r t d).1.1 in
  0 <= num_transfers_used d' <= NUM_MAX_TRANSFERS
  /\ transfers d' = transfers d.
Proof.
  intros Hu.
  assert (H1 : u64 (num_transfers_used d - 1) = num_transfers_used d - 1)
    by (apply u64_small; lia).
  assert (H2 : u64 (num_transfers_used d - 1 + 1) = num_transfers_used d)
    by (rewrite u64_small; lia).
  unfold handle_status.
  destruct (status t); simpl;
    repeat match goal with
           | |- context [if ?b then _ else _] => destruct b
           end; simpl; rewrite ?H1, ?H2; split; (lia || reflexivity).
Qed.

Lemma receive_transfer_pool_inv (now r : Z) (t : libusb_transfer)
    (d : dev_context) :
  pool_inv NUM_MAX_TRANSFERS d ->
  pool_inv NUM_MAX_TRANSFERS
    (receive_transfer PATTERN_MODE_TEST_MAX_SPEED fm now r t d).1.1.
Proof.
  intros Hinv. unfold receive_transfer.
  destruct (user_data t); simpl; [|exact Hinv].
  destruct (Z.eqb_spec (acq_aborted d) 1) as [Hab|Hab]; simpl; [exact Hinv|].
  destruct Hinv as (Hu & [Hab1|[Hab0 Hlive]] & Hlen); [contradiction|].
  destruct (handle_status_pool now r t d ltac:(lia)) as [Hu1 Htr].
  destruct (handle_status_frame PATTERN_MODE_TEST_MAX_SPEED fm now r t d)
    as (_ & _ & Hab').
  destruct (handle_status PATTERN_MODE_TEST_MAX_SPEED fm now r t d)
    as [[d1 t1] c1]; simpl in *.
  unfold pool_inv, duration_check, stop_if_idle, sipeed_slogic_acquisition_stop.
  destruct (negb (num_transfers_completed d1 =? 0) && _); simpl.
  - repeat split; lia || congruence.
  - destruct (Z.eqb_spec (num_transfers_used d1) 0); simpl.
    + repeat split; lia || congruence.
    + repeat split; lia || congruence.
Qed.

Lemma step_pool_inv (e : event) (d : dev_context) :
  pool_inv NUM_MAX_TRANSFERS d ->
  pool_inv NUM_MAX_TRANSFERS (step PATTERN_MODE_TEST_MAX_SPEED fm e d).1.
Proof.
  intros Hinv. destruct e as [now r t| |]; simpl.
  - pose proof (receive_transfer_pool_inv now r t d Hinv) as H.
    destruct (receive_transfer PATTERN_MODE_TEST_MAX_SPEED fm now r t d)
      as [[d1 t1] c1]. exact H.
  - unfold handle_events. destruct (acq_aborted d =? 0); simpl; [exact Hinv|].
    destruct Hinv as (Hu & Hab & Hlen). unfold pool_inv; simpl.
    rewrite length_replicate. auto.
  - destruct Hinv as (Hu & Hab & Hlen). unfold pool_inv; simpl. auto.
Qed.

Lemma run_pool_inv (es : list event) (d : dev_context) :
  pool_inv NUM_MAX_TRANSFERS d ->
  pool_inv NUM_MAX_TRANSFERS (run PATTERN_MODE_TEST_MAX_SPEED fm es d).1.
Proof.
  revert d. induction es as [|e es IH]; intros d Hinv; simpl; [exact Hinv|].
  pose proof (step_pool_inv e d Hinv) as H1.
  destruct (step PATTERN_MODE_TEST_MAX_SPEED fm e d) as [d1 c1]; simpl in *.
  specialize (IH d1 H1).
  destruct (run PATTERN_MODE_TEST_MAX_SPEED fm es d1) as [d2 c2]. exact IH.
Qed.

Lemma registered_length (slots : list (option transfer_handle)) :
  (length (registered slots) <= length slots)%nat.
Proof.
  unfold registered.
  induction slots as [|[h|] slots IH]; cbn in *; lia.
Qed.

Lemma pool_inv_bounded (d : dev_context) :
  pool_inv NUM_MAX_TRANSFERS d ->
  0 <= num_transfers_used d <= NUM_MAX_TRANSFERS
  /\ Z.of_nat (length (registered (transfers d))) <= NUM_MAX_TRANSFERS.
Proof.
  intros (Hu & _ & Hlen). split; [exact Hu|].
  pose proof (registered_length (transfers d)). lia.
Qed.

(** *** Arming the pool *)

(** Without overflow the loop condition is the one on the integers. *)
Lemma fill_wanted_exact (d : dev_context) (j : Z) :
  0 <= j -> 0 <= samples_got_nbytes d -> 0 <= per_transfer_nbytes d ->
  samples_got_nbytes d + j * per_transfer_nbytes d < 2 ^ 64 ->
  wanted d j = true
  <-> j < NUM_MAX_TRANSFERS
      /\ samples_got_nbytes d + j * per_transfer_nbytes d
         < samples_need_nbytes d.
Proof.
  intros Hj Hgot Hn Hsmall. unfold fill_wanted.
  rewrite (u64_small (j * per_transfer_nbytes d)) by nia.
  rewrite u64_small by nia.
  rewrite andb_true_iff, !Z.ltb_lt. reflexivity.
Qed.

Lemma arm_spec (a : start_answers) (d : dev_context) :
  exists ret d' calls,
    arm NUM_MAX_TRANSFERS fm a d = Some (ret, d', calls)
    /\ 0 <= num_transfers_used d' <= NUM_MAX_TRANSFERS
    /\ length (transfers d') = Z.to_nat NUM_MAX_TRANSFERS
    /\ (forall j, 0 <= j < num_transfers_used d' ->
          wanted d j = true /\ fill_answers a j = fill_submit 0
          /\ transfers d' !! Z.to_nat j = Some (Some j))
    /\ (wanted d (num_transfers_used d') = false
        \/ fill_answers a (num_transfers_used d') <> fill_submit 0)
    /\ calls
       = (sr_session_source_add (tick_period d)
          :: (map (fun j => libusb_submit_transfer (per_transfer_nbytes d)
                              (fill_timeout fm d j) 0)
                (seqZ 0 (num_transfers_used d'))
              ++ fill_stop_calls NUM_MAX_TRANSFERS fm (fill_answers a) d
                   (num_transfers_used d'))
          ++ [std_session_send_df_header; std_session_send_df_frame_begin])
         ++ (if num_transfers_used d' =? 0 then []
             else [remote_run (remote_run_ret a)])
    /\ (if num_transfers_used d' =? 0
        then acq_aborted d' = 1 /\ ret = SR_OK
        else acq_aborted d' = 0
             /\ ret = if remote_run_ret a <? 0 then remote_run_ret a
                      else SR_OK)
    /\ samples_got_nbytes d' = samples_got_nbytes d
    /\ samples_need_nbytes d' = samples_need_nbytes d
    /\ per_transfer_nbytes d' = per_transfer_nbytes d.
Proof.
  unfold arm.
  set (d0 := set_transfers_reached_nbytes 0 _).
  destruct (fill_pool_spec (fill_answers a) (Z.to_nat NUM_MAX_TRANSFERS) d0)
    as (d1 & filled & Hfill & Hle & Hmax & Hsame & Hlen & _ & Hreg & Hend
        & Hcalls).
  { simpl. lia. }
  { simpl. lia. }
  rewrite Hfill. cbn [mbind option_bind].
  change (num_transfers_used d0) with 0 in *.
  rewrite Z.sub_0_r in Hcalls.
  assert (Hlen0 : length (transfers d0) = Z.to_nat NUM_MAX_TRANSFERS)
    by (simpl; apply length_replicate).
  assert (Hk : 0 <= num_transfers_used d1 <= NUM_MAX_TRANSFERS) by lia.
  assert (Hfields : samples_got_nbytes d1 = samples_got_nbytes d
                    /\ samples_need_nbytes d1 = samples_need_nbytes d
                    /\ per_transfer_nbytes d1 = per_transfer_nbytes d)
    by (unfold same_but_pool in Hsame; rewrite Hsame; simpl; auto).
  destruct Hfields as (Hg & Hn & Hb).
  assert (Hregd : forall j, 0 <= j < num_transfers_used d1 ->
            wanted d j = true /\ fill_answers a j = fill_submit 0
            /\ transfers d1 !! Z.to_nat j = Some (Some j)).
  { intros j Hj. destruct (Hreg j Hj) as (H1 & H2 & H3).
    split; [exact H1|]. split; [exact H2|]. apply H3. lia. }
  assert (Hab1 : acq_aborted d1 = 0)
    by (unfold same_but_pool in Hsame; rewrite Hsame; reflexivity).
  simpl.
  destruct (Z.eqb_spec (num_transfers_used d1) 0) as [Hz|Hnz].
  - eexists _, _, _. split; [reflexivity|]. simpl.
    rewrite Hz in *. simpl. rewrite Hcalls, app_nil_r.
    repeat split; assumption || lia || congruence.
  - destruct (Z.ltb_spec (remote_run_ret a) 0).
    + eexists _, _, _. split; [reflexivity|]. simpl.
      destruct (Z.eqb_spec (num_transfers_used d1) 0); [contradiction|].
      rewrite Hcalls, Hlen.
      repeat split; try assumption; try lia; try apply Hregd; auto.
    + eexists _, _, _. split; [reflexivity|]. simpl.
      destruct (Z.eqb_spec (num_transfers_used d1) 0); [contradiction|].
      rewrite Hcalls, Hlen.
      repeat split; try assumption; try lia; try apply Hregd; auto.
Qed.

(** C5. The initial fill registers transfers for the outstanding counts
    [0 .. k-1], where [k] is the count it ends with: at each of these counts
    the loop condition ([j < NUM_MAX_TRANSFERS] and
    [got + j * per_transfer_nbytes < need]) held and the submission
    succeeded, and at [k] the condition fails or the allocation or the
    submission fails.  The transfer submitted at count [j] has the planned
    size and the timeout
    [(1 + tolerance) * per_transfer_duration * (j + 2)].  A failure ends the
    filling and nothing else: the start goes on to the stream notifications
    and returns [SR_OK] (or the error of the remote run command), and the
    latch stays clear as long as one transfer is outstanding.  Without
    overflow the loop condition is the one on the integers. *)
Theorem pool_fill_submits (a : start_answers) (d : dev_context) :
  exists ret d' calls,
    arm NUM_MAX_TRANSFERS fm a d = Some (ret, d', calls)
    /\ 0 <= num_transfers_used d' <= NUM_MAX_TRANSFERS
    /\ (forall j, 0 <= j < num_transfers_used d' ->
          wanted d j = true /\ fill_answers a j = fill_submit 0
          /\ transfers d' !! Z.to_nat j = Some (Some j))
    /\ (wanted d (num_transfers_used d') = false
        \/ fill_answers a (num_transfers_used d') <> fill_submit 0)
    /\ calls
       = (sr_session_source_add (tick_period d)
          :: (map (fun j => libusb_submit_transfer (per_transfer_nbytes d)
                              (fill_timeout fm d j) 0)
                (seqZ 0 (num_transfers_used d'))
              ++ fill_stop_calls NUM_MAX_TRANSFERS fm (fill_answers a) d
                   (num_transfers_used d'))
          ++ [std_session_send_df_header; std_session_send_df_frame_begin])
         ++ (if num_transfers_used d' =? 0 then []
             else [remote_run (remote_run_ret a)])
    /\ (if num_transfers_used d' =? 0
        then acq_aborted d' = 1 /\ ret = SR_OK
        else acq_aborted d' = 0
             /\ ret = if remote_run_ret a <? 0 then remote_run_ret a
                      else SR_OK)
    /\ (forall j,
          0 <= j -> 0 <= samples_got_nbytes d -> 0 <= per_transfer_nbytes d ->
          samples_got_nbytes d + j * per_transfer_nbytes d < 2 ^ 64 ->
          wanted d j = true
          <-> j < NUM_MAX_TRANSFERS
              /\ samples_got_nbytes d + j * per_transfer_nbytes d
                 < samples_need_nbytes d).
Proof.
  destruct (arm_spec a d)
    as (ret & d' & calls & Harm & Hk & _ & Hreg & Hend & Hcalls & Hret & _).
  exists ret, d', calls.
  repeat (split; [assumption|]).
  intros j. apply fill_wanted_exact.
Qed.

(** *** The whole start *)

Lemma planned_nbytes_range (d : dev_context) :
  0 <= planned_nbytes d <= 2 ^ 63.
Proof.
  unfold planned_nbytes, SR_KHZ.
  pose proof (u64_range (u64 (125 * cur_samplerate d) * cur_samplechannel d)).
  zdiv_lia.
Qed.

Lemma probe_calls_not_armed (stopped : call) (probed : list call) :
  probe_call stopped \/ (exists r, stopped = remote_stop r) ->
  Forall probe_call probed -> ~ armed (stopped :: probed).
Proof.
  intros Hs Hp [period [Heq|Hin]].
  - subst stopped. destruct Hs as [[]|[r Hr]]. discriminate Hr.
  - rewrite Forall_forall in Hp. apply list_elem_of_In in Hin.
    apply (Hp _ Hin).
Qed.

(** The three ways a start ends: refused by the remote stop command, failed
    in the probe, or armed. *)
Lemma start_spec (a : start_answers) (d : dev_context) :
  valid_config d ->
  exists ret d' calls,
    sipeed_slogic_acquisition_start NUM_MAX_TRANSFERS fm a d
    = Some (ret, d', calls)
    /\ ((remote_stop_ret a < 0 /\ ret = remote_stop_ret a /\ d' = d
         /\ ~ armed calls)
        \/ (0 <= remote_stop_ret a /\ ret = SR_ERR_IO /\ ~ armed calls
            /\ num_transfers_used d' = num_transfers_used d
            /\ transfers d' = transfers d
            /\ acq_aborted d' = acq_aborted d
            /\ bytes_inv d'
            /\ (probe_transfer_allocated a = false
                \/ exists j r, probe_answers a j = probe_submit r
                               /\ r <> 0 /\ r <> LIBUSB_ERROR_NO_MEM))
        \/ (0 <= remote_stop_ret a /\ probe_transfer_allocated a = true
            /\ armed calls
            /\ pool_inv NUM_MAX_TRANSFERS d'
            /\ bytes_inv d'
            /\ 0 <= per_transfer_nbytes d'
            /\ per_transfer_nbytes d' mod 16384 = 0
            /\ (planned_nbytes d <> 0 -> 16384 <= per_transfer_nbytes d')
            /\ (no_probe_success (probe_answers a) ->
                per_transfer_nbytes d' <= 32768)
            /\ (ret = SR_OK \/ (ret = remote_run_ret a /\ ret < 0)))).
Proof.
  intros (Hrate & Hrc & Hms). unfold sipeed_slogic_acquisition_start.
  assert (Hneed : 0 <= 0 <= u64 (cur_limit_samples d * cur_samplechannel d) / 8
                  /\ u64 (cur_limit_samples d * cur_samplechannel d) / 8
                     < 2 ^ 64).
  { pose proof (u64_range (cur_limit_samples d * cur_samplechannel d)).
    zdiv_lia. }
  destruct (Z.ltb_spec (remote_stop_ret a) 0) as [Hstop|Hstop].
  { eexists _, _, _. split; [reflexivity|]. left.
    repeat split; try assumption.
    intros [period [Heq|[]]]. discriminate Heq. }
  cbn [cur_limit_samples cur_samplerate cur_samplechannel
       set_samples_got_nbytes set_samples_need_nbytes
       set_per_transfer_duration set_per_transfer_nbytes per_transfer_nbytes].
  rewrite (udiv_nonzero _ _ Hrate). cbn [mbind option_bind].
  destruct (probe_transfer_allocated a) eqn:Halloc; cbn [negb].
  2: { eexists _, _, _. split; [reflexivity|]. right; left.
       split; [assumption|]. split; [reflexivity|].
       split; [intros [period [Heq|[]]]; discriminate Heq|].
       repeat (split; [reflexivity|]). split; [exact Hneed|]. left; reflexivity. }
  pose proof (planned_nbytes_range d) as Hplan.
  destruct (probe_loop_spec (probe_answers a) (cur_samplerate d)
              (cur_samplechannel d) Hrc Hms 64 0%nat (planned_nbytes d))
    as (exit & probed & Hloop & Hcalls & Hexit & Hnone).
  { change (2 ^ Z.of_nat 64) with (2 ^ 64). lia. }
  change (S 64) with probe_fuel in Hloop.
  change (planned_nbytes (set_per_transfer_duration _ _))
    with (planned_nbytes d).
  rewrite Hloop. cbn [mbind option_bind].
  destruct exit as [nb dur|nb dur].
  - (* the probe plans a size *)
    destruct Hexit as (Hnb0 & Hnbm & Hnbl).
    match goal with
    | |- context [arm _ _ a ?c] => set (d2 := c)
    end.
    destruct (arm_spec a d2)
      as (ret & d' & calls & Harm & Hk & Hlen & _ & _ & Hcallseq & Hret
          & Hgot & Hnd & Hbytes).
    rewrite Harm. cbn [mbind option_bind].
    eexists _, _, _. split; [reflexivity|]. right; right.
    change (per_transfer_nbytes d2) with nb in Hbytes. rewrite Hbytes.
    split; [assumption|]. split; [reflexivity|].
    split.
    { exists (tick_period d2). right. apply in_or_app. right.
      apply in_or_app. right. rewrite Hcallseq. apply in_or_app. left.
      left. reflexivity. }
    split.
    { unfold pool_inv. split; [exact Hk|]. split; [|exact Hlen].
      destruct (Z.eqb_spec (num_transfers_used d') 0); [left|right];
        intuition lia. }
    split; [unfold bytes_inv; rewrite Hgot, Hnd; exact Hneed|].
    split; [exact Hnb0|]. split; [exact Hnbm|].
    split; [intros Hp; apply Hnbl; lia|].
    split.
    { intros Hno. destruct (Hnone Hno) as (nb' & dur' & Heq & Hle).
      injection Heq as -> ->. exact Hle. }
    destruct (num_transfers_used d' =? 0);
      [left; apply Hret|].
    destruct Hret as [_ ->].
    destruct (Z.ltb_spec (remote_run_ret a) 0); [right|left]; auto.
  - (* a trial submission fails for another reason than memory *)
    eexists _, _, _. split; [reflexivity|]. right; left.
    split; [assumption|]. split; [reflexivity|].
    split; [apply probe_calls_not_armed; [right; eauto|exact Hcalls]|].
    repeat (split; [reflexivity|]). split; [exact Hneed|]. right; exact Hexit.
Qed.

(** C2, as amended. For every configuration whose divisions are defined and
    every sequence of allocation and submission answers, the start either
    fails before arming with an explicit error ([SR_ERR_IO] from the probe,
    or the negative code of the remote stop command), or it arms with a
    [per_transfer_nbytes] that is a multiple of 16 KiB, half the rounding
    granularity, and at least 16 KiB whenever the size planned for 125 ms is
    not zero: the value is halved once after it was rounded up to 32 KiB. *)
Theorem probe_accepts_half_blocks (a : start_answers) (d : dev_context) :
  valid_config d ->
  exists ret d' calls,
    sipeed_slogic_acquisition_start NUM_MAX_TRANSFERS fm a d
    = Some (ret, d', calls)
    /\ ((~ armed calls
         /\ (ret = SR_ERR_IO \/ (ret = remote_stop_ret a /\ ret < 0)))
        \/ (armed calls
            /\ per_transfer_nbytes d' mod 16384 = 0
            /\ (planned_nbytes d <> 0 -> 16384 <= per_transfer_nbytes d'))).
Proof.
  intros Hvalid.
  destruct (start_spec a d Hvalid) as (ret & d' & calls & Hstart & Hcases).
  exists ret, d', calls. split; [exact Hstart|].
  destruct Hcases as [H|[H|H]].
  - destruct H as (Hneg & -> & _ & Hna). left. split; [exact Hna|]. right. lia.
  - destruct H as (_ & -> & Hna & _). left. split; [exact Hna|]. left.
    reflexivity.
  - destruct H as (_ & _ & Harmed & _ & _ & _ & Hm & Hlow & _). right. auto.
Qed.

(** C3, as amended. When no trial of the probe succeeds, every one of them
    failing for lack of memory, the halving loop stops at or below the floor
    of 32 KiB and the start does not fail: it goes on to arm the pool with
    the value it reached, a multiple of 16 KiB not above 32 KiB, and returns
    [SR_OK] unless the remote run command fails. *)
Theorem probe_exhausted_still_arms (a : start_answers) (d : dev_context) :
  valid_config d ->
  0 <= remote_stop_ret a ->
  probe_transfer_allocated a = true ->
  no_probe_success (probe_answers a) ->
  exists ret d' calls,
    sipeed_slogic_acquisition_start NUM_MAX_TRANSFERS fm a d
    = Some (ret, d', calls)
    /\ armed calls
    /\ 0 <= per_transfer_nbytes d' <= 32 * 1024
    /\ per_transfer_nbytes d' mod 16384 = 0
    /\ (ret = SR_OK \/ (ret = remote_run_ret a /\ ret < 0)).
Proof.
  intros Hvalid Hstop Halloc Hno.
  destruct (start_spec a d Hvalid) as (ret & d' & calls & Hstart & Hcases).
  exists ret, d', calls. split; [exact Hstart|].
  destruct Hcases as [H|[H|H]].
  - lia.
  - destruct H as (_ & _ & _ & _ & _ & _ & _ & [Hf|(j & r & Hj & Hr0 & Hrm)]).
    + congruence.
    + destruct (Hno j) as [H|H]; rewrite Hj in H; congruence.
  - destruct H as (_ & _ & Harmed & _ & _ & H0 & Hm & _ & Hle & Hret).
    specialize (Hle Hno). repeat split; try assumption; lia.
Qed.

(** C4. From a start that armed the pool (or that failed before arming and
    left a pool that was within its bounds), through every sequence of
    completions, ticks of the event loop and stop requests,
    [num_transfers_used] is at most [NUM_MAX_TRANSFERS] and at most
    [NUM_MAX_TRANSFERS] slots of [transfers] hold a transfer. *)
Theorem pool_within_capacity
    (a : start_answers) (d0 : dev_context) (es : list event) :
  valid_config d0 ->
  exists ret d calls,
    sipeed_slogic_acquisition_start NUM_MAX_TRANSFERS fm a d0
    = Some (ret, d, calls)
    /\ (armed calls \/ pool_inv NUM_MAX_TRANSFERS d0 ->
        let d' := (run PATTERN_MODE_TEST_MAX_SPEED fm es d).1 in
        0 <= num_transfers_used d' <= NUM_MAX_TRANSFERS
        /\ Z.of_nat (length (registered (transfers d')))
           <= NUM_MAX_TRANSFERS).
Proof.
  intros Hvalid.
  destruct (start_spec a d0 Hvalid) as (ret & d & calls & Hstart & Hcases).
  exists ret, d, calls. split; [exact Hstart|].
  intros Hpre d'. apply pool_inv_bounded. apply run_pool_inv.
  destruct Hcases as [H|[H|H]].
  - destruct H as (_ & _ & -> & Hna). destruct Hpre; [contradiction|assumption].
  - destruct H as (_ & _ & Hna & Hu & Ht & Hab & _).
    destruct Hpre as [|Hinv]; [contradiction|].
    unfold pool_inv in *. rewrite Hu, Ht, Hab. exact Hinv.
  - apply H.
Qed.

(** A start that got past the remote stop command leaves the byte counter
    at zero, within a need that fits 64 bits. *)
Lemma start_establishes_bytes_inv (a : start_answers) (d : dev_context) :
  valid_config d -> 0 <= remote_stop_ret a ->
  exists ret d' calls,
    sipeed_slogic_acquisition_start NUM_MAX_TRANSFERS fm a d
    = Some (ret, d', calls)
    /\ bytes_inv d'.
Proof.
  intros Hvalid Hstop.
  destruct (start_spec a d Hvalid) as (ret & d' & calls & Hstart & Hcases).
  exists ret, d', calls. split; [exact Hstart|].
  destruct Hcases as [H|[H|H]]; [lia|apply H|apply H].
Qed.

End Pool.

(** * The properties on concrete sessions *)

Lemma bytes_received_monotone_bounded_witness :
  let es1 := [Completion 200000 0
                (pool_transfer LIBUSB_TRANSFER_COMPLETED 131072)] in
  let es2 := [Completion 300000 0
                (pool_transfer LIBUSB_TRANSFER_TIMED_OUT 2000000); Tick; Stop] in
  bytes_inv live_context
  /\ Forall wf_event (es1 ++ es2)
  /\ samples_got_nbytes (run 0 floats_5pct es1 live_context).1
     <= samples_got_nbytes (run 0 floats_5pct (es1 ++ es2) live_context).1
  /\ samples_got_nbytes (run 0 floats_5pct (es1 ++ es2) live_context).1
     <= samples_need_nbytes (run 0 floats_5pct (es1 ++ es2) live_context).1.
Proof.
  intros es1 es2.
  assert (H1 : bytes_inv live_context) by (unfold bytes_inv; simpl; lia).
  assert (H2 : Forall wf_event (es1 ++ es2))
    by (repeat constructor; simpl; lia).
  split; [exact H1|]. split; [exact H2|].
  destruct (bytes_received_monotone_bounded 0 floats_5pct live_context
              es1 es2 H1 H2) as (_ & Hmono & Hbound & _).
  split; [exact Hmono|exact Hbound].
Defined.

Lemma aborted_completion_is_ignored_witness :
  acq_aborted aborted_context = 1
  /\ receive_transfer 0 floats_5pct 200000 0
       (pool_transfer LIBUSB_TRANSFER_COMPLETED 131072) aborted_context
     = (aborted_context, pool_transfer LIBUSB_TRANSFER_COMPLETED 131072, []).
Proof.
  split; [reflexivity|].
  apply aborted_completion_is_ignored. reflexivity.
Defined.

(** C9 as stated fails: with the latch set the handler returns before the
    increment, and the count of a session that saw one completion stays
    one. *)
Lemma completed_count_frozen_when_aborted :
  num_transfers_completed aborted_context = 1
  /\ num_transfers_completed
       (receive_transfer 0 floats_5pct 200000 0
          (pool_transfer LIBUSB_TRANSFER_COMPLETED 131072)
          aborted_context).1.1 = 1
  /\ num_transfers_completed
       (receive_transfer 0 floats_5pct 200000 0
          (pool_transfer LIBUSB_TRANSFER_COMPLETED 131072)
          aborted_context).1.1
     <> num_transfers_completed aborted_context + 1.
Proof. vm_compute. repeat split; discriminate. Qed.

Lemma completed_count_increments_witness :
  user_data (pool_transfer LIBUSB_TRANSFER_ERROR 0) = true
  /\ acq_aborted live_context <> 1
  /\ 0 <= num_transfers_completed live_context < 2 ^ 64 - 1
  /\ num_transfers_completed
       (receive_transfer 0 floats_5pct 200000 0
          (pool_transfer LIBUSB_TRANSFER_ERROR 0) live_context).1.1
     = num_transfers_completed live_context + 1.
Proof.
  assert (H1 : user_data (pool_transfer LIBUSB_TRANSFER_ERROR 0) = true)
    by reflexivity.
  assert (H2 : acq_aborted live_context <> 1) by (simpl; lia).
  assert (H3 : 0 <= num_transfers_completed live_context < 2 ^ 64 - 1)
    by (simpl; lia).
  repeat (split; [assumption|]).
  destruct (completed_count_increments 0 floats_5pct 200000 0
              (pool_transfer LIBUSB_TRANSFER_ERROR 0) live_context)
    as [_ Hinc].
  exact (Hinc H1 H2 H3).
Defined.

Lemma fatal_status_aborts_witness :
  fatal_status (status (pool_transfer LIBUSB_TRANSFER_STALL 0)) = true
  /\ let '(d', t', calls) :=
       receive_transfer 0 floats_5pct 200000 0
         (pool_transfer LIBUSB_TRANSFER_STALL 0) live_context in
     num_transfers_used d' = 0 /\ acq_aborted d' = 1 /\ calls = [].
Proof.
  assert (H1 : fatal_status (status (pool_transfer LIBUSB_TRANSFER_STALL 0))
               = true) by reflexivity.
  split; [exact H1|].
  exact (fatal_status_aborts 0 floats_5pct 200000 0
           (pool_transfer LIBUSB_TRANSFER_STALL 0) live_context H1).
Defined.

(** C6 as stated fails: a stall that completes after a stop request finds
    the latch set, the handler returns at the guard, and the four transfers
    of the pool stay counted as outstanding. *)
Lemma fatal_status_ignored_when_aborted :
  fatal_status (status (pool_transfer LIBUSB_TRANSFER_STALL 0)) = true
  /\ num_transfers_used aborted_context = 4
  /\ num_transfers_used
       (receive_transfer 0 floats_5pct 200000 0
          (pool_transfer LIBUSB_TRANSFER_STALL 0) aborted_context).1.1 = 4
  /\ num_transfers_used
       (receive_transfer 0 floats_5pct 200000 0
          (pool_transfer LIBUSB_TRANSFER_STALL 0) aborted_context).1.1 <> 0.
Proof. vm_compute. repeat split; discriminate. Qed.

Lemma stalled_link_aborts_witness :
  num_transfers_completed live_context <> 0
  /\ duration_ms_exceeds floats_5pct
       (300000 - transfers_reached_time_latest live_context)
       (duration_limit floats_5pct live_context) = true
  /\ let '(d', t', calls) :=
       receive_transfer 0 floats_5pct 300000 0
         (pool_transfer LIBUSB_TRANSFER_COMPLETED 131072) live_context in
     num_transfers_used d' = 0 /\ acq_aborted d' = 1.
Proof.
  assert (H1 : num_transfers_completed live_context <> 0) by (simpl; lia).
  assert (H2 : duration_ms_exceeds floats_5pct
                 (300000 - transfers_reached_time_latest live_context)
                 (duration_limit floats_5pct live_context) = true)
    by (vm_compute; reflexivity).
  split; [exact H1|]. split; [exact H2|].
  exact (stalled_link_aborts 0 floats_5pct 300000 0
           (pool_transfer LIBUSB_TRANSFER_COMPLETED 131072) live_context
           H1 H2).
Defined.

(** C7 as stated fails: after a stop request, a completion that arrives
    200 ms after the previous one, where 131.25 ms are allowed, finds the
    latch set and returns at the guard; the gap is not checked and the four
    transfers of the pool stay counted as outstanding. *)
Lemma stalled_link_ignored_when_aborted :
  num_transfers_completed aborted_context <> 0
  /\ duration_ms_exceeds floats_5pct
       (300000 - transfers_reached_time_latest aborted_context)
       (duration_limit floats_5pct aborted_context) = true
  /\ num_transfers_used aborted_context = 4
  /\ num_transfers_used
       (receive_transfer 0 floats_5pct 300000 0
          (pool_transfer LIBUSB_TRANSFER_COMPLETED 131072)
          aborted_context).1.1 = 4
  /\ num_transfers_used
       (receive_transfer 0 floats_5pct 300000 0
          (pool_transfer LIBUSB_TRANSFER_COMPLETED 131072)
          aborted_context).1.1 <> 0.
Proof. vm_compute. repeat split; discriminate. Qed.

Lemma empty_completion_retires_witness :
  let t := pool_transfer LIBUSB_TRANSFER_TIMED_OUT 0 in
  data_status (status t) = true
  /\ clamp_actual_length live_context (actual_length t) = 0
  /\ in_u64 (samples_got_nbytes live_context)
  /\ let '(d', t', calls) :=
       receive_transfer 0 floats_5pct 150000 0 t live_context in
     calls = []
     /\ samples_got_nbytes d' = samples_got_nbytes live_context
     /\ actual_length t' = 0
     /\ num_transfers_used d' = 3.
Proof.
  intros t.
  assert (H1 : data_status (status t) = true) by reflexivity.
  assert (H2 : clamp_actual_length live_context (actual_length t) = 0)
    by (vm_compute; reflexivity).
  assert (H3 : in_u64 (samples_got_nbytes live_context))
    by (unfold in_u64; simpl; lia).
  repeat (split; [assumption|]).
  pose proof (empty_completion_retires 0 floats_5pct 150000 0 t live_context
                H1 H2 H3) as H.
  destruct (receive_transfer 0 floats_5pct 150000 0 t live_context)
    as [[d' t'] calls].
  destruct H as (Hcalls & Hgot & Hlive).
  change (user_data t && negb (acq_aborted live_context =? 1)) with true
    in Hlive.
  destruct Hlive as (_ & _ & Hlen & Hused).
  split; [exact Hcalls|]. split; [exact Hgot|]. split; [exact Hlen|].
  rewrite Hused. vm_compute. reflexivity.
Defined.

(** C8 as stated fails: an empty timed-out completion that arrives after a
    stop request finds the latch set and returns at the guard; the slot is
    not retired and the four transfers of the pool stay counted as
    outstanding. *)
Lemma empty_completion_ignored_when_aborted :
  data_status (status (pool_transfer LIBUSB_TRANSFER_TIMED_OUT 0)) = true
  /\ clamp_actual_length aborted_context
       (actual_length (pool_transfer LIBUSB_TRANSFER_TIMED_OUT 0)) = 0
  /\ num_transfers_used aborted_context = 4
  /\ num_transfers_used
       (receive_transfer 0 floats_5pct 150000 0
          (pool_transfer LIBUSB_TRANSFER_TIMED_OUT 0) aborted_context).1.1
     = 4
  /\ num_transfers_used
       (receive_transfer 0 floats_5pct 150000 0
          (pool_transfer LIBUSB_TRANSFER_TIMED_OUT 0) aborted_context).1.1
     <> num_transfers_used aborted_context - 1.
Proof. vm_compute. repeat split; discriminate. Qed.

Lemma pool_within_capacity_witness :
  let es := [Completion 200000 0
               (pool_transfer LIBUSB_TRANSFER_COMPLETED 16384);
             Completion 210000 0 (pool_transfer LIBUSB_TRANSFER_ERROR 0);
             Stop; Tick] in
  0 <= 4 < 2 ^ 64 - 1
  /\ valid_config slow_context
  /\ exists ret d calls,
       sipeed_slogic_acquisition_start 4 floats_5pct answers_all_succeed
         slow_context = Some (ret, d, calls)
       /\ (armed calls \/ pool_inv 4 slow_context ->
           0 <= num_transfers_used (run 0 floats_5pct es d).1 <= 4
           /\ Z.of_nat (length (registered
                                  (transfers (run 0 floats_5pct es d).1)))
              <= 4).
Proof.
  intros es.
  assert (H1 : 0 <= 4 < 2 ^ 64 - 1) by lia.
  assert (H2 : valid_config slow_context)
    by (vm_compute; repeat split; discriminate).
  split; [exact H1|]. split; [exact H2|].
  exact (pool_within_capacity 4 0 floats_5pct H1 answers_all_succeed
           slow_context es H2).
Defined.

Lemma pool_fill_submits_witness :
  0 <= 4 < 2 ^ 64 - 1
  /\ exists ret d' calls,
       arm 4 floats_5pct answers_all_succeed live_context
       = Some (ret, d', calls)
       /\ 0 <= num_transfers_used d' <= 4
       /\ forall j, 0 <= j < num_transfers_used d' ->
            fill_wanted 4 live_context j = true
            /\ fill_answers answers_all_succeed j = fill_submit 0
            /\ transfers d' !! Z.to_nat j = Some (Some j).
Proof.
  assert (H1 : 0 <= 4 < 2 ^ 64 - 1) by lia.
  split; [exact H1|].
  destruct (pool_fill_submits 4 floats_5pct H1 answers_all_succeed
              live_context) as (ret & d' & calls & Harm & Hk & Hreg & _).
  exists ret, d', calls. split; [exact Harm|]. split; [exact Hk|exact Hreg].
Defined.

(** C2 as stated fails: at 1 MHz on 2 channels the probe rounds the planned
    31250 bytes up to 32 KiB, the trial submission succeeds, the size is
    halved, and the start arms the pool with 16 KiB, which is neither a
    multiple of 32 KiB nor at least 32 KiB, and returns [SR_OK]. *)
Lemma accepted_size_below_block :
  exists d' calls,
    sipeed_slogic_acquisition_start 4 floats_5pct answers_all_succeed
      slow_context = Some (SR_OK, d', calls)
    /\ armed calls
    /\ per_transfer_nbytes d' = 16384
    /\ per_transfer_nbytes d' mod (32 * 1024) <> 0
    /\ ~ 32 * 1024 <= per_transfer_nbytes d'.
Proof.
  eexists _, _. split; [vm_compute; reflexivity|].
  split; [exists 32; simpl; tauto|].
  split; [reflexivity|]. split; [discriminate|]. simpl. lia.
Qed.

Lemma probe_accepts_half_blocks_witness :
  0 <= 4 < 2 ^ 64 - 1
  /\ valid_config slow_context
  /\ exists ret d' calls,
       sipeed_slogic_acquisition_start 4 floats_5pct answers_all_succeed
         slow_context = Some (ret, d', calls)
       /\ ((~ armed calls
            /\ (ret = SR_ERR_IO
                \/ (ret = remote_stop_ret answers_all_succeed /\ ret < 0)))
           \/ (armed calls
               /\ per_transfer_nbytes d' mod 16384 = 0
               /\ (planned_nbytes slow_context <> 0 ->
                   16384 <= per_transfer_nbytes d'))).
Proof.
  assert (H1 : 0 <= 4 < 2 ^ 64 - 1) by lia.
  assert (H2 : valid_config slow_context)
    by (vm_compute; repeat split; discriminate).
  split; [exact H1|]. split; [exact H2|].
  exact (probe_accepts_half_blocks 4 floats_5pct H1 answers_all_succeed
           slow_context H2).
Defined.

(** C3 as stated fails: at 1 MHz on 2 channels, when the trial submission of
    32 KiB fails for lack of memory, the size is halved to 16 KiB, the loop
    ends below the floor without a successful trial, and the start goes on:
    it submits four transfers of 16 KiB and returns [SR_OK]. *)
Lemma probe_exhausted_no_error :
  no_probe_success (probe_answers answers_probe_no_mem)
  /\ exists d' calls,
       sipeed_slogic_acquisition_start 4 floats_5pct answers_probe_no_mem
         slow_context = Some (SR_OK, d', calls)
       /\ per_transfer_nbytes d' = 16384
       /\ per_transfer_nbytes d' < 32 * 1024
       /\ num_transfers_used d' = 4
       /\ omap submission calls
          = [(32768, LIBUSB_ERROR_NO_MEM); (16384, 0); (16384, 0);
             (16384, 0); (16384, 0)].
Proof.
  split; [intros i; right; reflexivity|].
  eexists _, _. split; [vm_compute; reflexivity|].
  split; [reflexivity|]. split; [simpl; lia|].
  split; reflexivity.
Qed.

Lemma probe_exhausted_still_arms_witness :
  0 <= 4 < 2 ^ 64 - 1
  /\ valid_config slow_context
  /\ 0 <= remote_stop_ret answers_probe_no_mem
  /\ probe_transfer_allocated answers_probe_no_mem = true
  /\ no_probe_success (probe_answers answers_probe_no_mem)
  /\ exists ret d' calls,
       sipeed_slogic_acquisition_start 4 floats_5pct answers_probe_no_mem
         slow_context = Some (ret, d', calls)
       /\ armed calls
       /\ 0 <= per_transfer_nbytes d' <= 32 * 1024
       /\ per_transfer_nbytes d' mod 16384 = 0
       /\ (ret = SR_OK
           \/ (ret = remote_run_ret answers_probe_no_mem /\ ret < 0)).
Proof.
  assert (H1 : 0 <= 4 < 2 ^ 64 - 1) by lia.
  assert (H2 : valid_config slow_context)
    by (vm_compute; repeat split; discriminate).
  assert (H3 : 0 <= remote_stop_ret answers_probe_no_mem) by (simpl; lia).
  assert (H4 : probe_transfer_allocated answers_probe_no_mem = true)
    by reflexivity.
  assert (H5 : no_probe_success (probe_answers answers_probe_no_mem))
    by (intros i; right; reflexivity).
  repeat (split; [assumption|]).
  exact (probe_exhausted_still_arms 4 floats_5pct H1 answers_probe_no_mem
           slow_context H2 H3 H4 H5).
Defined.

(** ** The model on the scenarios of the specification *)

(** A full completion of the first transfer of a pool of four: the counter
    grows by 128 KiB, the data is forwarded and, three transfers of 128 KiB
    being short of the 1 MiB needed, the transfer is submitted again with
    the timeout of a pool of three. *)
Example completion_resubmits :
  receive_transfer 1 floats_5pct 200000 0
    (pool_transfer LIBUSB_TRANSFER_COMPLETED 131072) live_context
  = (set_num_transfers_completed 2
       (set_transfers_reached_time_latest 200000
          (set_samples_got_nbytes 262144
             (set_transfers_reached_nbytes 262144 live_context))),
     set_timeout 656 (pool_transfer LIBUSB_TRANSFER_COMPLETED 0),
     [submit_raw_data 131072; libusb_submit_transfer 131072 656 0]).
Proof. vm_compute. reflexivity. Qed.

(** A stall: the pool is dropped at once and the latch is set. *)
Example stall_aborts :
  receive_transfer 1 floats_5pct 200000 0
    (pool_transfer LIBUSB_TRANSFER_STALL 0) live_context
  = (set_num_transfers_completed 2
       (set_acq_aborted 1 (set_num_transfers_used 0 live_context)),
     pool_transfer LIBUSB_TRANSFER_STALL 0, []).
Proof. vm_compute. reflexivity. Qed.

(** A completion that reports more than is still needed is cut to the need;
    nothing remains to be read and the transfer is not submitted again. *)
Example last_completion_is_clamped :
  let d := set_samples_got_nbytes 1000000 live_context in
  let '(d', t', calls) :=
    receive_transfer 1 floats_5pct 200000 0
      (pool_transfer LIBUSB_TRANSFER_COMPLETED 131072) d in
  samples_got_nbytes d' = 1048576
  /\ actual_length t' = 48576
  /\ num_transfers_used d' = 3
  /\ calls = [submit_raw_data 48576].
Proof. vm_compute. repeat split. Qed.

(** After the stop request the tick cancels and releases the four transfers
    and ends the stream. *)
Example tick_tears_down :
  handle_events aborted_context
  = (set_transfers [None; None; None; None] aborted_context,
     [libusb_cancel_transfer 0; libusb_cancel_transfer 1;
      libusb_cancel_transfer 2; libusb_cancel_transfer 3;
      libusb_free_transfer 0; libusb_free_transfer 1;
      libusb_free_transfer 2; libusb_free_transfer 3;
      sr_session_source_remove; std_session_send_df_end]).
Proof. vm_compute. reflexivity. Qed.

(** 200 MHz on 16 channels: 50 000 000 bytes are planned, rounded up to
    50 003 968, and half of that is accepted after the successful trial. *)
Example fast_start_plans_half :
  exists d' calls,
    sipeed_slogic_acquisition_start 4 floats_5pct answers_all_succeed
      (idle_context 200000000 16 100000000) = Some (SR_OK, d', calls)
    /\ per_transfer_nbytes d' = 25001984
    /\ per_transfer_duration d' = 62
    /\ samples_need_nbytes d' = 200000000
    /\ num_transfers_used d' = 4.
Proof. eexists _, _. split; [vm_compute; reflexivity|]. repeat split. Qed.

(** * Further properties of the engine *)

Section Session.

Variable PATTERN_MODE_TEST_MAX_SPEED : Z.
Variable fm : float_model.

Local Abbreviation handler := (receive_transfer PATTERN_MODE_TEST_MAX_SPEED fm).
Local Abbreviation switch := (handle_status PATTERN_MODE_TEST_MAX_SPEED fm).
Local Abbreviation session := (run PATTERN_MODE_TEST_MAX_SPEED fm).

(** The switch on a status that may carry data, in terms of the clamped
    length. *)
Lemma handle_status_data (now r : Z) (t : libusb_transfer) (d : dev_context) :
  data_status (status t) = true ->
  let c := clamp_actual_length d (actual_length t) in
  let d1 :=
    set_transfers_reached_time_latest now
      (set_samples_got_nbytes (u64 (samples_got_nbytes d + u64 c))
         (set_transfers_reached_nbytes
            (u64 (transfers_reached_nbytes d + u64 (actual_length t)))
            (set_transfers_reached_nbytes_latest (u64 (actual_length t)) d))) in
  let d2 := set_num_transfers_used (u64 (num_transfers_used d - 1)) d1 in
  switch now r t d
  = if c =? 0 then (d2, set_actual_length c t, [])
    else
      let forwarded :=
        if cur_pattern_mode_idx d =? PATTERN_MODE_TEST_MAX_SPEED then []
        else [submit_raw_data (u64 c)] in
      if need_more d2 then
        let t2 := set_timeout (transfer_timeout fm d2)
                    (set_actual_length 0 (set_actual_length c t)) in
        let submitted :=
          [libusb_submit_transfer (buffer_length t) (transfer_timeout fm d2) r] in
        if r =? 0
        then (set_num_transfers_used (u64 (num_transfers_used d2 + 1)) d2, t2,
              forwarded ++ submitted)
        else (d2, t2, forwarded ++ submitted)
      else (d2, set_actual_length c t, forwarded).
Proof.
  intros Hdata. unfold handle_status.
  destruct (status t); try discriminate Hdata; reflexivity.
Qed.

(** The switch on the other statuses makes no call. *)
Lemma handle_status_other (now r : Z) (t : libusb_transfer) (d : dev_context) :
  data_status (status t) = false ->
  switch now r t d
  = (set_num_transfers_used
       (if fatal_status (status t) then 0 else u64 (num_transfers_used d - 1))
       d, t, []).
Proof.
  intros Hdata. unfold handle_status.
  destruct (status t); try discriminate Hdata; reflexivity.
Qed.

(** The checks that follow the switch touch the outstanding count, the
    latch and the completion count only. *)
Lemma after_switch_frame (duration : Z) (d : dev_context) :
  let d1 := stop_if_idle (duration_check fm duration d) in
  let d' := set_num_transfers_completed (u64 (num_transfers_completed d1 + 1))
              d1 in
  samples_got_nbytes d' = samples_got_nbytes d
  /\ samples_need_nbytes d' = samples_need_nbytes d
  /\ cur_pattern_mode_idx d' = cur_pattern_mode_idx d
  /\ transfers d' = transfers d
  /\ per_transfer_nbytes d' = per_transfer_nbytes d
  /\ (num_transfers_used d' = num_transfers_used d
      \/ num_transfers_used d' = 0).
Proof.
  unfold duration_check, stop_if_idle, sipeed_slogic_acquisition_stop.
  repeat match goal with
         | |- context [if ?b then _ else _] => destruct b
         end; simpl; auto 10.
Qed.

Lemma forwarded_nbytes_app (c1 c2 : list call) :
  forwarded_nbytes (c1 ++ c2) = forwarded_nbytes c1 + forwarded_nbytes c2.
Proof.
  unfold forwarded_nbytes. rewrite omap_app.
  induction (omap raw_data c1) as [|x l IH]; simpl; lia.
Qed.

Lemma forwarded_nbytes_quiet (calls : list call) :
  Forall (fun c => raw_data c = None) calls -> forwarded_nbytes calls = 0.
Proof.
  unfold forwarded_nbytes.
  induction 1 as [|c l Hc Hl IH]; cbn; [reflexivity|].
  rewrite Hc. exact IH.
Qed.

Lemma receive_transfer_forwarded (now r : Z) (t : libusb_transfer)
    (d : dev_context) :
  bytes_inv d -> 0 <= actual_length t < 2 ^ 31 ->
  let '(d', _, calls) := handler now r t d in
  cur_pattern_mode_idx d' = cur_pattern_mode_idx d
  /\ forwarded_nbytes calls
     = if cur_pattern_mode_idx d =? PATTERN_MODE_TEST_MAX_SPEED then 0
       else samples_got_nbytes d' - samples_got_nbytes d.
Proof.
  intros Hinv Hlen. unfold receive_transfer.
  assert (Hnone : cur_pattern_mode_idx d = cur_pattern_mode_idx d
                  /\ forwarded_nbytes []
                     = if cur_pattern_mode_idx d =? PATTERN_MODE_TEST_MAX_SPEED
                       then 0 else samples_got_nbytes d - samples_got_nbytes d)
    by (split; [reflexivity|]; destruct (_ =? _); unfold forwarded_nbytes;
        simpl; lia).
  destruct (user_data t); simpl; [|exact Hnone].
  destruct (acq_aborted d =? 1); simpl; [exact Hnone|].
  destruct (data_status (status t)) eqn:Hdata.
  - rewrite (handle_status_data now r t d Hdata). cbv zeta.
    pose proof (clamp_actual_length_min d (actual_length t) Hinv Hlen) as Hc.
    remember (clamp_actual_length d (actual_length t)) as c eqn:Hceq.
    destruct Hinv as [Hgot Hneed].
    assert (Hcr : 0 <= c <= samples_need_nbytes d - samples_got_nbytes d)
      by lia.
    assert (Hu : u64 c = c) by (apply u64_small; lia).
    assert (Hg : u64 (samples_got_nbytes d + c) = samples_got_nbytes d + c)
      by (apply u64_small; lia).
    rewrite Hu, Hg.
    destruct (Z.eqb_spec c 0) as [Hz|Hnz];
      [|destruct (need_more _); [destruct (r =? 0)|]];
      match goal with
      | |- context [stop_if_idle (duration_check fm ?dur ?dx)] =>
          destruct (after_switch_frame dur dx) as (Hg' & _ & Hp' & _)
      end; cbv beta iota zeta; rewrite Hg', Hp';
      (split; [reflexivity|]);
      destruct (cur_pattern_mode_idx d =? PATTERN_MODE_TEST_MAX_SPEED);
      unfold forwarded_nbytes; simpl; lia.
  - rewrite (handle_status_other now r t d Hdata).
    match goal with
    | |- context [stop_if_idle (duration_check fm ?dur ?dx)] =>
        destruct (after_switch_frame dur dx) as (Hg' & _ & Hp' & _)
    end; cbv beta iota zeta; rewrite Hg', Hp'.
    split; [reflexivity|].
    destruct (cur_pattern_mode_idx d =? PATTERN_MODE_TEST_MAX_SPEED);
      unfold forwarded_nbytes; simpl; lia.
Qed.

Lemma step_forwarded (e : event) (d : dev_context) :
  bytes_inv d -> wf_event e ->
  let '(d', calls) := step PATTERN_MODE_TEST_MAX_SPEED fm e d in
  cur_pattern_mode_idx d' = cur_pattern_mode_idx d
  /\ forwarded_nbytes calls
     = if cur_pattern_mode_idx d =? PATTERN_MODE_TEST_MAX_SPEED then 0
       else samples_got_nbytes d' - samples_got_nbytes d.
Proof.
  intros Hinv Hwf. destruct e as [now r t| |]; simpl in *.
  - pose proof (receive_transfer_forwarded now r t d Hinv Hwf) as H.
    destruct (handler now r t d) as [[d1 t1] c1]. exact H.
  - unfold handle_events. destruct (acq_aborted d =? 0); simpl.
    + split; [reflexivity|]. destruct (_ =? _); unfold forwarded_nbytes;
        simpl; lia.
    + split; [reflexivity|].
      assert (Hquiet : forwarded_nbytes
                (map libusb_cancel_transfer (registered (transfers d))
                 ++ map libusb_free_transfer (registered (transfers d))
                 ++ [sr_session_source_remove; std_session_send_df_end]) = 0).
      { rewrite !forwarded_nbytes_app.
        rewrite !forwarded_nbytes_quiet; [reflexivity|..];
          rewrite ?Forall_fmap;
          first [apply Forall_true; reflexivity | repeat constructor]. }
      rewrite Hquiet. destruct (_ =? _); lia.
  - split; [reflexivity|]. destruct (_ =? _); unfold forwarded_nbytes;
      simpl; lia.
Qed.

(** X1. What reaches the consumer is what is counted: over every sequence of
    completions, ticks and stop requests the lengths passed to
    [submit_raw_data] add up to the growth of [samples_got_nbytes], unless
    the pattern mode is the speed test, in which nothing is passed on. *)
Theorem forwarded_bytes_match_counter (es : list event) (d : dev_context) :
  bytes_inv d -> Forall wf_event es ->
  let '(d', calls) := session es d in
  forwarded_nbytes calls
  = if cur_pattern_mode_idx d =? PATTERN_MODE_TEST_MAX_SPEED then 0
    else samples_got_nbytes d' - samples_got_nbytes d.
Proof.
  revert d. induction es as [|e es IH]; intros d Hinv Hwf; simpl.
  - destruct (_ =? _); unfold forwarded_nbytes; simpl; lia.
  - inversion Hwf as [|? ? He Hes]; subst.
    pose proof (step_forwarded e d Hinv He) as Hstep.
    destruct (step_bytes PATTERN_MODE_TEST_MAX_SPEED fm e d Hinv He)
      as (_ & _ & Hinv1).
    destruct (step PATTERN_MODE_TEST_MAX_SPEED fm e d) as [d1 c1].
    simpl in Hinv1. destruct Hstep as [Hp Hf].
    specialize (IH d1 Hinv1 Hes).
    destruct (session es d1) as [d2 c2].
    rewrite forwarded_nbytes_app, Hf, IH, Hp.
    destruct (cur_pattern_mode_idx d =? PATTERN_MODE_TEST_MAX_SPEED); lia.
Qed.

(** *** After the latch is set *)

Lemma step_frozen (e : event) (d : dev_context) :
  acq_aborted d = 1 ->
  let '(d', calls) := step PATTERN_MODE_TEST_MAX_SPEED fm e d in
  (d' = d \/ d' = cleared d) /\ Forall teardown_call calls.
Proof.
  intros Hab. destruct e as [now r t| |]; simpl.
  - unfold receive_transfer. rewrite Hab. simpl.
    destruct (user_data t); simpl; auto.
  - unfold handle_events. rewrite Hab. simpl.
    split; [right; reflexivity|].
    rewrite !Forall_app, !Forall_fmap.
    repeat split; try (apply Forall_true; intros ?; exact I).
    repeat constructor.
  - split; [left|constructor].
    unfold sipeed_slogic_acquisition_stop. rewrite <- Hab.
    destruct d; reflexivity.
Qed.

(** X2. The abort latch never reverts and the session is frozen behind it:
    once [acq_aborted] is set, whatever completions, ticks and stop requests
    follow, the device context stays what it was except that a tick empties
    the slots of the pool, and the only calls made are those of the
    teardown; no transfer is submitted and nothing is passed to the
    consumer. *)
Theorem aborted_session_is_frozen (es : list event) (d : dev_context) :
  acq_aborted d = 1 ->
  let '(d', calls) := session es d in
  (d' = d \/ d' = cleared d)
  /\ acq_aborted d' = 1
  /\ Forall teardown_call calls
  /\ omap submission calls = []
  /\ omap raw_data calls = [].
Proof.
  intros Hab.
  assert (Hquiet : forall calls, Forall teardown_call calls ->
            omap submission calls = [] /\ omap raw_data calls = []).
  { induction 1 as [|c l Hc Hl [IH1 IH2]]; [split; reflexivity|].
    destruct c; try destruct Hc; cbn; auto. }
  assert (Hrun : forall es0 d0, acq_aborted d0 = 1 ->
            ((session es0 d0).1 = d0 \/ (session es0 d0).1 = cleared d0)
            /\ Forall teardown_call (session es0 d0).2).
  { clear es d Hab. induction es0 as [|e es IH]; intros d Hab; simpl.
    - split; [left; reflexivity|constructor].
    - pose proof (step_frozen e d Hab) as Hstep.
      destruct (step PATTERN_MODE_TEST_MAX_SPEED fm e d) as [d1 c1].
      destruct Hstep as [Hd1 Hc1].
      assert (Hab1 : acq_aborted d1 = 1)
        by (destruct Hd1 as [-> | ->]; [exact Hab|exact Hab]).
      specialize (IH d1 Hab1).
      destruct (session es d1) as [d2 c2]. simpl in *.
      destruct IH as [Hd2 Hc2]. split; [|apply Forall_app; auto].
      destruct Hd1 as [-> | ->]; destruct Hd2 as [-> | ->]; auto;
        right; unfold cleared; destruct d; simpl;
        rewrite ?length_replicate; reflexivity. }
  specialize (Hrun es d Hab).
  destruct (session es d) as [d' calls]. simpl in Hrun.
  destruct Hrun as [Hd Hc]. destruct (Hquiet calls Hc) as [Hs Hr].
  repeat split; try assumption.
  destruct Hd as [-> | ->]; exact Hab.
Qed.

(** *** When the need is met *)

Lemma teardown_calls_quiet (calls : list call) :
  Forall teardown_call calls ->
  omap submission calls = [] /\ omap raw_data calls = [].
Proof.
  induction 1 as [|c l Hc Hl [IH1 IH2]]; [split; reflexivity|].
  destruct c; try destruct Hc; cbn; auto.
Qed.

Lemma step_need_met (e : event) (d : dev_context) :
  bytes_inv d -> samples_got_nbytes d = samples_need_nbytes d ->
  wf_event e ->
  let '(d', calls) := step PATTERN_MODE_TEST_MAX_SPEED fm e d in
  omap submission calls = [] /\ omap raw_data calls = [].
Proof.
  intros Hinv Hmet Hwf. destruct e as [now r t| |]; simpl in *.
  - unfold receive_transfer.
    destruct (user_data t); simpl; [|auto].
    destruct (acq_aborted d =? 1); simpl; [auto|].
    destruct (data_status (status t)) eqn:Hdata.
    + rewrite (handle_status_data now r t d Hdata). cbv zeta.
      rewrite (clamp_actual_length_min d (actual_length t) Hinv Hwf).
      replace (Z.min (actual_length t)
                 (samples_need_nbytes d - samples_got_nbytes d)) with 0 by lia.
      simpl. auto.
    + rewrite (handle_status_other now r t d Hdata). simpl. auto.
  - unfold handle_events. destruct (acq_aborted d =? 0); simpl; [auto|].
    apply teardown_calls_quiet.
    rewrite !Forall_app, !Forall_fmap.
    repeat split; try (apply Forall_true; intros ?; exact I).
    repeat constructor.
  - auto.
Qed.

(** X3. Once the need is met the engine asks for nothing more: from a
    context whose [samples_got_nbytes] equals [samples_need_nbytes], no
    completion, tick or stop request submits a transfer or passes anything
    to the consumer, and the counter stays at the need. *)
Theorem nothing_after_need_is_met (es : list event) (d : dev_context) :
  bytes_inv d -> samples_got_nbytes d = samples_need_nbytes d ->
  Forall wf_event es ->
  let '(d', calls) := session es d in
  samples_got_nbytes d' = samples_need_nbytes d
  /\ omap submission calls = []
  /\ omap raw_data calls = [].
Proof.
  revert d. induction es as [|e es IH]; intros d Hinv Hmet Hwf; simpl.
  - auto.
  - inversion Hwf as [|? ? He Hes]; subst.
    pose proof (step_need_met e d Hinv Hmet He) as Hstep.
    destruct (step_bytes PATTERN_MODE_TEST_MAX_SPEED fm e d Hinv He)
      as (Hn & Hg & Hinv1).
    destruct (step PATTERN_MODE_TEST_MAX_SPEED fm e d) as [d1 c1].
    simpl in Hn, Hg, Hinv1. destruct Hstep as [Hs1 Hr1].
    assert (Hmet1 : samples_got_nbytes d1 = samples_need_nbytes d1)
      by (destruct Hinv1 as [? ?]; lia).
    specialize (IH d1 Hinv1 Hmet1 Hes).
    destruct (session es d1) as [d2 c2]. destruct IH as (Hg2 & Hs2 & Hr2).
    rewrite !omap_app, Hs1, Hs2, Hr1, Hr2. repeat split; [lia|..]; reflexivity.
Qed.

(** X4. The completion that brings the counter to the need is passed on but
    not submitted again: when a completed or timed-out transfer of a live
    session reports at least the remaining need, [samples_got_nbytes]
    becomes [samples_need_nbytes], the transfer keeps the clamped length,
    the consumer receives exactly the remaining need (outside the speed-test
    pattern mode) and [libusb_submit_transfer] is not called.  The sum the
    code compares with the need must not overflow 64 bits. *)
Theorem final_completion_not_resubmitted
    (now r : Z) (t : libusb_transfer) (d : dev_context) :
  user_data t = true -> acq_aborted d <> 1 ->
  data_status (status t) = true ->
  bytes_inv d -> samples_got_nbytes d < samples_need_nbytes d ->
  samples_need_nbytes d - samples_got_nbytes d <= actual_length t < 2 ^ 31 ->
  1 <= num_transfers_used d < 2 ^ 64 -> 0 <= per_transfer_nbytes d ->
  samples_need_nbytes d + (num_transfers_used d - 1) * per_transfer_nbytes d
  < 2 ^ 64 ->
  let '(d', t', calls) := handler now r t d in
  samples_got_nbytes d' = samples_need_nbytes d
  /\ actual_length t' = samples_need_nbytes d - samples_got_nbytes d
  /\ omap submission calls = []
  /\ omap raw_data calls
     = if cur_pattern_mode_idx d =? PATTERN_MODE_TEST_MAX_SPEED then []
       else [samples_need_nbytes d - samples_got_nbytes d].
Proof.
  intros Hud Hab Hdata Hinv Hshort Hlen Hused Hnb Hsum.
  unfold receive_transfer. rewrite Hud. simpl.
  destruct (Z.eqb_spec (acq_aborted d) 1) as [|_]; [contradiction|].
  rewrite (handle_status_data now r t d Hdata). cbv zeta.
  destruct Hinv as [Hgot Hneed].
  rewrite (clamp_actual_length_min d (actual_length t)) by (split; lia).
  replace (Z.min (actual_length t)
             (samples_need_nbytes d - samples_got_nbytes d))
    with (samples_need_nbytes d - samples_got_nbytes d) by lia.
  set (c := samples_need_nbytes d - samples_got_nbytes d).
  assert (Hu : u64 c = c) by (apply u64_small; lia).
  assert (Hg : u64 (samples_got_nbytes d + c) = samples_need_nbytes d)
    by (rewrite u64_small; lia).
  rewrite Hu, Hg.
  destruct (Z.eqb_spec c 0) as [Hz|_]; [lia|].
  unfold need_more at 1. simpl.
  assert (Hu1 : u64 (num_transfers_used d - 1) = num_transfers_used d - 1)
    by (apply u64_small; lia).
  rewrite Hu1.
  assert (Hprod : 0 <= (num_transfers_used d - 1) * per_transfer_nbytes d)
    by nia.
  rewrite (u64_small ((num_transfers_used d - 1) * per_transfer_nbytes d))
    by lia.
  rewrite (u64_small (samples_need_nbytes d + _)) by lia.
  destruct (Z.ltb_spec
              (samples_need_nbytes d
               + (num_transfers_used d - 1) * per_transfer_nbytes d)
              (samples_need_nbytes d)) as [Hlt|_]; [lia|].
  match goal with
  | |- context [stop_if_idle (duration_check fm ?dur ?dx)] =>
      destruct (after_switch_frame dur dx) as (Hg' & _)
  end.
  cbv beta iota zeta. rewrite Hg'. simpl.
  repeat split.
  destruct (cur_pattern_mode_idx d =? PATTERN_MODE_TEST_MAX_SPEED);
    reflexivity.
  destruct (cur_pattern_mode_idx d =? PATTERN_MODE_TEST_MAX_SPEED);
    reflexivity.
Qed.

(** *** Release of the transfers *)

Lemma registered_replicate (n : nat) : registered (replicate n None) = [].
Proof. unfold registered. induction n as [|n IH]; cbn; auto. Qed.

(** The callback leaves the slots alone and neither cancels nor frees. *)
Lemma receive_transfer_slots (now r : Z) (t : libusb_transfer)
    (d : dev_context) :
  let '(d', _, calls) := handler now r t d in
  transfers d' = transfers d
  /\ omap freed calls = [] /\ omap cancelled calls = [].
Proof.
  unfold receive_transfer.
  destruct (user_data t); simpl; [|auto].
  destruct (acq_aborted d =? 1); simpl; [auto|].
  destruct (data_status (status t)) eqn:Hdata.
  - rewrite (handle_status_data now r t d Hdata). cbv zeta.
    destruct (_ =? 0); [|destruct (need_more _); [destruct (r =? 0)|]];
      match goal with
      | |- context [stop_if_idle (duration_check fm ?dur ?dx)] =>
          destruct (after_switch_frame dur dx) as (_ & _ & _ & Ht & _)
      end; cbv beta iota zeta; rewrite Ht;
      destruct (cur_pattern_mode_idx d =? PATTERN_MODE_TEST_MAX_SPEED);
      cbn; auto.
  - rewrite (handle_status_other now r t d Hdata).
    match goal with
    | |- context [stop_if_idle (duration_check fm ?dur ?dx)] =>
        destruct (after_switch_frame dur dx) as (_ & _ & _ & Ht & _)
    end; cbv beta iota zeta; rewrite Ht. cbn. auto.
Qed.

Lemma released_quiet (calls : list call) :
  omap freed calls = [] -> omap cancelled calls = [] ->
  omap released calls = [].
Proof.
  induction calls as [|c calls IH]; [reflexivity|].
  destruct c; cbn; intros Hf Hc; try discriminate; auto.
Qed.

Lemma released_teardown (l : list transfer_handle) :
  omap released
    (map libusb_cancel_transfer l ++ map libusb_free_transfer l
     ++ [sr_session_source_remove; std_session_send_df_end])
  = map libusb_cancel_transfer l ++ map libusb_free_transfer l.
Proof.
  assert (H : forall (f : transfer_handle -> call) (k : list transfer_handle),
            (forall h, released (f h) = Some (f h)) ->
            omap released (map f k) = map f k).
  { intros f k Hf. induction k as [|h k IH]; [reflexivity|].
    cbn. rewrite Hf. cbn. f_equal. exact IH. }
  rewrite !omap_app, !H by reflexivity. cbn. rewrite app_nil_r. reflexivity.
Qed.

(** The latch, once it is not zero, stays so. *)
Lemma step_latch (e : event) (d : dev_context) :
  acq_aborted d <> 0 ->
  acq_aborted (step PATTERN_MODE_TEST_MAX_SPEED fm e d).1 <> 0.
Proof.
  intros Hab. destruct e as [now r t| |]; simpl.
  - unfold receive_transfer.
    destruct (user_data t); simpl; [|exact Hab].
    destruct (acq_aborted d =? 1); simpl; [exact Hab|].
    destruct (handle_status_frame PATTERN_MODE_TEST_MAX_SPEED fm now r t d)
      as (_ & _ & Hl).
    destruct (switch now r t d) as [[d1 t1] c1]; simpl in *.
    unfold duration_check, stop_if_idle, sipeed_slogic_acquisition_stop.
    repeat match goal with
           | |- context [if ?b then _ else _] => destruct b
           end; simpl; lia.
  - unfold handle_events. destruct (acq_aborted d =? 0); simpl; exact Hab.
  - discriminate.
Qed.

(** What one event releases: nothing, unless it is a tick that finds the
    latch set, which releases everything. *)
Lemma step_released (e : event) (d : dev_context) :
  let '(d1, c1) := step PATTERN_MODE_TEST_MAX_SPEED fm e d in
  (no_tick e \/ acq_aborted d = 0 ->
   transfers d1 = transfers d /\ omap released c1 = [])
  /\ (e = Tick -> acq_aborted d <> 0 ->
      transfers d1 = replicate (length (transfers d)) None
      /\ omap released c1
         = map libusb_cancel_transfer (registered (transfers d))
           ++ map libusb_free_transfer (registered (transfers d))).
Proof.
  destruct e as [now r t| |]; simpl.
  - pose proof (receive_transfer_slots now r t d) as H.
    destruct (handler now r t d) as [[d1 t1] c1].
    destruct H as (Ht & Hf & Hc).
    pose proof (released_quiet c1 Hf Hc).
    split; [auto|]. intros Heq. discriminate Heq.
  - unfold handle_events.
    destruct (Z.eqb_spec (acq_aborted d) 0) as [Hab|Hab].
    + split; [auto|]. intros _ Hn. contradiction.
    + split.
      * intros [[]|H0]. contradiction.
      * intros _ _. split; [reflexivity|]. apply released_teardown.
  - split; [auto|]. intros Heq. discriminate Heq.
Qed.

(** X6. Every registered transfer is released exactly once, and only by the
    teardown.  Over a sequence of events that holds no tick, or that leaves
    the latch clear, the slots stay what they were and no transfer is
    cancelled or freed: completions and stop requests never release.  Over
    a sequence that starts with the latch set and holds a tick, every slot
    ends empty and the release calls made are, in this order, the
    cancellation of every registered transfer in slot order followed by the
    freeing of every registered transfer in slot order, each once: later
    ticks find nothing left to release.  Every run is of one of these two
    kinds. *)
Theorem transfers_released_once (es : list event) (d : dev_context) :
  let '(d', calls) := session es d in
  let untouched := transfers d' = transfers d /\ omap released calls = [] in
  let torn_down :=
    transfers d' = replicate (length (transfers d)) None
    /\ omap released calls
       = map libusb_cancel_transfer (registered (transfers d))
         ++ map libusb_free_transfer (registered (transfers d)) in
  (Forall no_tick es \/ acq_aborted d' = 0 -> untouched)
  /\ (acq_aborted d <> 0 -> In Tick es -> torn_down)
  /\ (untouched \/ torn_down).
Proof.
  assert (Hlatch : forall es0 d0,
            acq_aborted d0 <> 0 -> acq_aborted (session es0 d0).1 <> 0).
  { induction es0 as [|e es0 IH]; intros d0 Hab; simpl; [exact Hab|].
    pose proof (step_latch e d0 Hab) as H1.
    destruct (step PATTERN_MODE_TEST_MAX_SPEED fm e d0) as [d1 c1].
    specialize (IH d1 H1). destruct (session es0 d1) as [d2 c2]. exact IH. }
  revert d. induction es as [|e es IH]; intros d; simpl.
  { split; [auto|]. split; [intros _ []|auto]. }
  pose proof (step_released e d) as Hstep.
  pose proof (step_latch e d) as Hl1.
  destruct (step PATTERN_MODE_TEST_MAX_SPEED fm e d) as [d1 c1].
  pose proof (Hlatch es d1) as Hl2.
  specialize (IH d1). destruct (session es d1) as [d2 c2].
  simpl in Hl1, Hl2. cbv zeta in IH |- *.
  destruct Hstep as [Hs1 Hs2]. destruct IH as (IH1 & IH3 & IH2).
  rewrite !omap_app.
  assert (Hkind : no_tick e \/ acq_aborted d = 0
                  \/ (e = Tick /\ acq_aborted d <> 0)).
  { destruct e; simpl; auto.
    destruct (Z.eq_dec (acq_aborted d) 0); auto. }
  assert (Hquiet_step : no_tick e \/ acq_aborted d = 0 -> 
            (transfers d2 = transfers d1 /\ omap released c2 = [] ->
             transfers d2 = transfers d
             /\ omap released c1 ++ omap released c2 = [])
            /\ (transfers d2 = replicate (length (transfers d1)) None
                /\ omap released c2
                   = map libusb_cancel_transfer (registered (transfers d1))
                     ++ map libusb_free_transfer (registered (transfers d1))
                -> transfers d2 = replicate (length (transfers d)) None
                   /\ omap released c1 ++ omap released c2
                      = map libusb_cancel_transfer (registered (transfers d))
                        ++ map libusb_free_transfer
                             (registered (transfers d)))).
  { intros Hq. destruct (Hs1 Hq) as [Ht1 Hr1]. rewrite Hr1, Ht1.
    split; intros [Ht2 Hr2]; rewrite Ht2, Hr2; auto. }
  assert (Htorn_step : e = Tick -> acq_aborted d <> 0 ->
            transfers d2 = replicate (length (transfers d)) None
            /\ omap released c1 ++ omap released c2
               = map libusb_cancel_transfer (registered (transfers d))
                 ++ map libusb_free_transfer (registered (transfers d))).
  { intros He Hab. destruct (Hs2 He Hab) as [Ht1 Hr1]. rewrite Hr1.
    destruct IH2 as [[Ht2 Hr2]|[Ht2 Hr2]]; rewrite Ht2, Hr2, Ht1,
      ?registered_replicate, ?length_replicate; cbn;
      rewrite ?app_nil_r; auto. }
  split; [|split].
  - intros Hquiet.
    assert (Hq1 : no_tick e \/ acq_aborted d = 0).
    { destruct Hquiet as [Hall|Hend].
      - left. inversion Hall; assumption.
      - right. destruct (Z.eq_dec (acq_aborted d) 0) as [|Hab]; [assumption|].
        exfalso. apply (Hl2 (Hl1 Hab)). exact Hend. }
    assert (Hq2 : Forall no_tick es \/ acq_aborted d2 = 0).
    { destruct Hquiet as [Hall|Hend]; [left|right; exact Hend].
      inversion Hall; assumption. }
    apply (Hquiet_step Hq1). apply IH1. exact Hq2.
  - intros Hab Hin.
    destruct Hkind as [Hno|[H0|[He _]]]; [|contradiction|].
    + destruct Hin as [He|Hin]; [rewrite He in Hno; destruct Hno|].
      apply (Hquiet_step (or_introl Hno)). apply IH3; [|exact Hin].
      apply Hl1. exact Hab.
    + apply Htorn_step; assumption.
  - destruct Hkind as [Hno|[H0|[He Hab]]].
    + destruct IH2 as [HA|HB];
        [left; apply (Hquiet_step (or_introl Hno)); exact HA
        |right; apply (Hquiet_step (or_introl Hno)); exact HB].
    + destruct IH2 as [HA|HB];
        [left; apply (Hquiet_step (or_intror H0)); exact HA
        |right; apply (Hquiet_step (or_intror H0)); exact HB].
    + right. apply Htorn_step; assumption.
Qed.

End Session.

Section Arming.

Variable NUM_MAX_TRANSFERS : Z.
Variable PATTERN_MODE_TEST_MAX_SPEED : Z.
Variable fm : float_model.
Hypothesis NUM_MAX_TRANSFERS_range : 0 <= NUM_MAX_TRANSFERS < 2 ^ 64 - 1.

Local Abbreviation handler := (receive_transfer PATTERN_MODE_TEST_MAX_SPEED fm).
Local Abbreviation switch := (handle_status PATTERN_MODE_TEST_MAX_SPEED fm).
Local Abbreviation session := (run PATTERN_MODE_TEST_MAX_SPEED fm).

(** *** The pool only shrinks *)

Lemma handle_status_used_le (now r : Z) (t : libusb_transfer)
    (d : dev_context) :
  1 <= num_transfers_used d <= NUM_MAX_TRANSFERS ->
  num_transfers_used (switch now r t d).1.1 <= num_transfers_used d.
Proof.
  intros Hu.
  assert (H1 : u64 (num_transfers_used d - 1) = num_transfers_used d - 1)
    by (apply u64_small; lia).
  assert (H2 : u64 (num_transfers_used d - 1 + 1) = num_transfers_used d)
    by (rewrite u64_small; lia).
  unfold handle_status.
  destruct (status t); simpl;
    repeat match goal with
           | |- context [if ?b then _ else _] => destruct b
           end; simpl; rewrite ?H1, ?H2; lia.
Qed.

Lemma step_used_le (e : event) (d : dev_context) :
  pool_inv NUM_MAX_TRANSFERS d ->
  num_transfers_used (step PATTERN_MODE_TEST_MAX_SPEED fm e d).1
  <= num_transfers_used d.
Proof.
  intros (Hu & Hlive & _). destruct e as [now r t| |]; simpl.
  - unfold receive_transfer.
    destruct (user_data t); simpl; [|lia].
    destruct (Z.eqb_spec (acq_aborted d) 1) as [Hab|Hab]; simpl; [lia|].
    destruct Hlive as [|[_ Hone]]; [contradiction|].
    pose proof (handle_status_used_le now r t d ltac:(lia)) as Hle.
    destruct (handle_status_pool NUM_MAX_TRANSFERS PATTERN_MODE_TEST_MAX_SPEED
                fm NUM_MAX_TRANSFERS_range now r t d ltac:(lia)) as [Hpos _].
    destruct (switch now r t d) as [[d1 t1] c1]; simpl in *.
    match goal with
    | |- context [stop_if_idle (duration_check fm ?dur ?dx)] =>
        destruct (after_switch_frame fm dur dx) as (_ & _ & _ & _ & _ & Hused)
    end.
    cbn [num_transfers_used set_num_transfers_completed] in Hused.
    destruct Hused as [-> | ->]; lia.
  - unfold handle_events. destruct (acq_aborted d =? 0); simpl; lia.
  - lia.
Qed.

(** X7. The pool never grows after the initial fill: through every sequence
    of completions, ticks and stop requests [num_transfers_used] is at most
    what it was, a resubmission only ever taking the place of the transfer
    that just completed. *)
Theorem pool_never_grows (es : list event) (d : dev_context) :
  pool_inv NUM_MAX_TRANSFERS d ->
  0 <= num_transfers_used (session es d).1 <= num_transfers_used d.
Proof.
  revert d. induction es as [|e es IH]; intros d Hinv; simpl.
  - destruct Hinv as (Hu & _). lia.
  - pose proof (step_used_le e d Hinv) as Hle.
    pose proof (step_pool_inv NUM_MAX_TRANSFERS PATTERN_MODE_TEST_MAX_SPEED fm
                  NUM_MAX_TRANSFERS_range e d Hinv) as Hinv1.
    destruct (step PATTERN_MODE_TEST_MAX_SPEED fm e d) as [d1 c1].
    simpl in *. specialize (IH d1 Hinv1).
    destruct (session es d1) as [d2 c2]. simpl in *. lia.
Qed.

(** *** The start, step by step *)

(** What arming resets. *)
Lemma arm_resets (a : start_answers) (d : dev_context)
    (ret : Z) (d' : dev_context) (calls : list call) :
  arm NUM_MAX_TRANSFERS fm a d = Some (ret, d', calls) ->
  num_transfers_completed d' = 0
  /\ transfers_reached_nbytes d' = 0
  /\ transfers_reached_time_start d' = start_time a
  /\ transfers_reached_time_latest d' = start_time a
  /\ per_transfer_duration d' = per_transfer_duration d
  /\ cur_pattern_mode_idx d' = cur_pattern_mode_idx d.
Proof.
  unfold arm.
  set (d0 := set_transfers_reached_nbytes 0 _).
  destruct (fill_pool_spec NUM_MAX_TRANSFERS fm NUM_MAX_TRANSFERS_range
              (fill_answers a) (Z.to_nat NUM_MAX_TRANSFERS) d0)
    as (d1 & filled & Hfill & _ & _ & Hsame & _);
    [simpl; lia|simpl; lia|].
  rewrite Hfill. cbn [mbind option_bind].
  unfold same_but_pool in Hsame.
  destruct (num_transfers_used _ =? 0);
    [|destruct (remote_run_ret a <? 0)];
    intros H; injection H as _ <- _; rewrite Hsame; simpl; auto 10.
Qed.

(** A start that the remote stop command accepts and whose probe transfer
    is allocated: the probe, then either the I/O error of a trial or the
    arming of the pool on a context that needs
    [cur_limit_samples * cur_samplechannel / 8] bytes and has none. *)
Lemma start_decomposes (a : start_answers) (d : dev_context) :
  valid_config d -> 0 <= remote_stop_ret a ->
  probe_transfer_allocated a = true ->
  exists probed,
    Forall probe_call probed
    /\ ((exists d',
           sipeed_slogic_acquisition_start NUM_MAX_TRANSFERS fm a d
           = Some (SR_ERR_IO, d', remote_stop (remote_stop_ret a) :: probed))
        \/ (exists d2 ret d' armed_calls,
              samples_got_nbytes d2 = 0
              /\ samples_need_nbytes d2
                 = u64 (cur_limit_samples d * cur_samplechannel d) / 8
              /\ 0 <= per_transfer_nbytes d2
              /\ cur_pattern_mode_idx d2 = cur_pattern_mode_idx d
              /\ arm NUM_MAX_TRANSFERS fm a d2 = Some (ret, d', armed_calls)
              /\ sipeed_slogic_acquisition_start NUM_MAX_TRANSFERS fm a d
                 = Some (ret, d',
                         remote_stop (remote_stop_ret a)
                         :: probed ++ [libusb_free_transfer probe_handle]
                         ++ armed_calls))).
Proof.
  intros (Hrate & Hrc & Hms) Hstop Halloc.
  unfold sipeed_slogic_acquisition_start.
  destruct (Z.ltb_spec (remote_stop_ret a) 0) as [|_]; [lia|].
  cbn [cur_limit_samples cur_samplerate cur_samplechannel
       set_samples_got_nbytes set_samples_need_nbytes
       set_per_transfer_duration set_per_transfer_nbytes per_transfer_nbytes].
  rewrite (udiv_nonzero _ _ Hrate). cbn [mbind option_bind].
  rewrite Halloc. cbn [negb].
  pose proof (planned_nbytes_range NUM_MAX_TRANSFERS NUM_MAX_TRANSFERS_range
                d) as Hplan.
  destruct (probe_loop_spec (probe_answers a) (cur_samplerate d)
              (cur_samplechannel d) Hrc Hms 64 0%nat (planned_nbytes d))
    as (exit & probed & Hloop & Hcalls & Hexit & _).
  { change (2 ^ Z.of_nat 64) with (2 ^ 64). lia. }
  change (S 64) with probe_fuel in Hloop.
  change (planned_nbytes (set_per_transfer_duration _ _))
    with (planned_nbytes d).
  rewrite Hloop. cbn [mbind option_bind].
  exists probed. split; [exact Hcalls|].
  destruct exit as [nb dur|nb dur].
  - right.
    match goal with
    | |- context [arm _ _ a ?c] => set (d2 := c)
    end.
    destruct (arm_spec NUM_MAX_TRANSFERS fm NUM_MAX_TRANSFERS_range a d2)
      as (ret & d' & calls & Harm & _).
    rewrite Harm. cbn [mbind option_bind].
    exists d2, ret, d', calls.
    repeat split; try reflexivity; [apply Hexit|exact Harm].
  - left. eexists. reflexivity.
Qed.

Lemma start_refused (a : start_answers) (d : dev_context) :
  remote_stop_ret a < 0 ->
  sipeed_slogic_acquisition_start NUM_MAX_TRANSFERS fm a d
  = Some (remote_stop_ret a, d, [remote_stop (remote_stop_ret a)]).
Proof.
  intros Hstop. unfold sipeed_slogic_acquisition_start.
  destruct (Z.ltb_spec (remote_stop_ret a) 0); [reflexivity|lia].
Qed.

Lemma start_without_probe_transfer (a : start_answers) (d : dev_context) :
  valid_config d -> 0 <= remote_stop_ret a ->
  probe_transfer_allocated a = false ->
  exists d',
    sipeed_slogic_acquisition_start NUM_MAX_TRANSFERS fm a d
    = Some (SR_ERR_IO, d', [remote_stop (remote_stop_ret a)]).
Proof.
  intros (Hrate & _) Hstop Halloc. unfold sipeed_slogic_acquisition_start.
  destruct (Z.ltb_spec (remote_stop_ret a) 0) as [|_]; [lia|].
  cbn [cur_limit_samples cur_samplerate set_samples_got_nbytes
       set_samples_need_nbytes].
  rewrite (udiv_nonzero _ _ Hrate). cbn [mbind option_bind].
  rewrite Halloc. cbn [negb]. eexists. reflexivity.
Qed.

(** The calls of the probe and of the filling are submissions, cancellations
    and releases: no notification, no remote command. *)
Lemma probe_calls_quiet (calls : list call) :
  Forall probe_call calls ->
  omap notification calls = [] /\ omap run_command calls = [].
Proof.
  induction 1 as [|c l Hc Hl [IH1 IH2]]; [split; reflexivity|].
  destruct c; try destruct Hc; cbn; auto.
Qed.

Lemma fill_calls_probe_call (answers : Z -> fill_answer) (d : dev_context)
    (k : Z) (l : list Z) :
  Forall probe_call
    (map (fun j => libusb_submit_transfer (per_transfer_nbytes d)
                     (fill_timeout fm d j) 0) l
     ++ fill_stop_calls NUM_MAX_TRANSFERS fm answers d k).
Proof.
  apply Forall_app. split.
  - apply Forall_fmap, Forall_true. intros j. exact I.
  - unfold fill_stop_calls. destruct (fill_wanted _ _ _); [|constructor].
    destruct (answers k); repeat constructor.
Qed.

(** The calls of a start: the remote stop command and the probe, followed,
    when the pool is armed, by the release of the probe transfer and the
    calls of the arming. *)
Lemma start_calls_cases (a : start_answers) (d : dev_context)
    (ret : Z) (d' : dev_context) (calls : list call) :
  valid_config d ->
  sipeed_slogic_acquisition_start NUM_MAX_TRANSFERS fm a d
  = Some (ret, d', calls) ->
  exists probed,
    Forall probe_call probed
    /\ ((~ armed calls
         /\ calls = remote_stop (remote_stop_ret a) :: probed)
        \/ (armed calls
            /\ exists d2 armed_calls,
                 calls = remote_stop (remote_stop_ret a)
                         :: probed ++ [libusb_free_transfer probe_handle]
                         ++ armed_calls
                 /\ arm NUM_MAX_TRANSFERS fm a d2
                    = Some (ret, d', armed_calls)
                 /\ samples_got_nbytes d2 = 0
                 /\ samples_need_nbytes d2
                    = u64 (cur_limit_samples d * cur_samplechannel d) / 8
                 /\ 0 <= per_transfer_nbytes d2
                 /\ cur_pattern_mode_idx d2 = cur_pattern_mode_idx d)).
Proof.
  intros Hvalid Hstart.
  assert (Hquiet : forall probed, Forall probe_call probed ->
            ~ armed (remote_stop (remote_stop_ret a) :: probed))
    by (intros probed Hp; apply probe_calls_not_armed; [right; eauto|exact Hp]).
  destruct (Z.ltb_spec (remote_stop_ret a) 0) as [Hneg|Hstop].
  { rewrite (start_refused a d Hneg) in Hstart. injection Hstart as <- <- <-.
    exists []. split; [constructor|]. left. split; [|reflexivity].
    apply Hquiet. constructor. }
  destruct (probe_transfer_allocated a) eqn:Halloc.
  2: { destruct (start_without_probe_transfer a d Hvalid Hstop Halloc)
         as (dx & Hx).
       rewrite Hx in Hstart. injection Hstart as <- <- <-.
       exists []. split; [constructor|]. left. split; [|reflexivity].
       apply Hquiet. constructor. }
  destruct (start_decomposes a d Hvalid Hstop Halloc)
    as (probed & Hprobed & [(dx & Hx)|(d2 & rx & dx & ax & Hg & Hn & Hb & Hp
                                       & Harm & Hx)]);
    rewrite Hx in Hstart; injection Hstart as <- <- <-;
    exists probed; (split; [exact Hprobed|]).
  - left. split; [apply Hquiet; exact Hprobed|reflexivity].
  - right. split.
    + destruct (arm_spec NUM_MAX_TRANSFERS fm NUM_MAX_TRANSFERS_range a d2)
        as (r3 & d3 & c3 & Harm3 & _ & _ & _ & _ & Hc3 & _).
      rewrite Harm in Harm3. injection Harm3 as <- <- <-.
      exists (tick_period d2). right. apply in_or_app. right. right.
      rewrite Hc3. apply in_or_app. left. left. reflexivity.
    + exists d2, ax. auto 10.
Qed.

(** X8. The framing of a start.  A start that fails before it arms the pool
    (remote stop refused, probe transfer not allocated, trial submission
    refused for another reason than memory) returns a negative code, sends
    no notification, does not command the device to run and leaves the
    outstanding count, the slots and the latch as they were.  A start that
    arms the pool sends the stream header and the frame begin exactly once,
    in this order, after the pool is filled, never the end of the stream,
    and commands the device to run, as its last call, exactly when at least
    one transfer is outstanding. *)
Theorem start_notifications_in_order (a : start_answers) (d : dev_context) :
  valid_config d ->
  exists ret d' calls,
    sipeed_slogic_acquisition_start NUM_MAX_TRANSFERS fm a d
    = Some (ret, d', calls)
    /\ ((~ armed calls /\ ret < 0
         /\ omap notification calls = [] /\ omap run_command calls = []
         /\ num_transfers_used d' = num_transfers_used d
         /\ transfers d' = transfers d
         /\ acq_aborted d' = acq_aborted d)
        \/ (armed calls
            /\ omap notification calls
               = [std_session_send_df_header; std_session_send_df_frame_begin]
            /\ omap run_command calls
               = (if num_transfers_used d' =? 0 then []
                  else [remote_run_ret a])
            /\ exists before,
                 calls
                 = before
                   ++ [std_session_send_df_header;
                       std_session_send_df_frame_begin]
                   ++ (if num_transfers_used d' =? 0 then []
                       else [remote_run (remote_run_ret a)]))).
Proof.
  intros Hvalid.
  destruct (start_spec NUM_MAX_TRANSFERS fm NUM_MAX_TRANSFERS_range a d Hvalid)
    as (ret & d' & calls & Hstart & Hcases).
  exists ret, d', calls. split; [exact Hstart|].
  destruct (start_calls_cases a d ret d' calls Hvalid Hstart)
    as (probed & Hprobed & Hcalls).
  destruct (probe_calls_quiet probed Hprobed) as [Hpn Hpr].
  destruct Hcalls as [[Hna ->]|(Harmed & d2 & ac & -> & Harm & _)].
  - left. cbn. rewrite Hpn, Hpr.
    destruct Hcases as [H|[H|H]].
    + destruct H as (Hneg & -> & -> & _). auto 10.
    + destruct H as (_ & -> & _ & Hu & Ht & Hab & _).
      repeat split; assumption || reflexivity.
    + destruct H as (_ & _ & Harmed & _). contradiction.
  - right. split; [exact Harmed|].
    destruct (arm_spec NUM_MAX_TRANSFERS fm NUM_MAX_TRANSFERS_range a d2)
      as (r3 & d3 & c3 & Harm3 & _ & _ & _ & _ & Hc3 & _).
    rewrite Harm in Harm3. injection Harm3 as <- <- <-.
    rewrite Hc3.
    destruct (probe_calls_quiet _
                (fill_calls_probe_call (fill_answers a) d2
                   (num_transfers_used d')
                   (seqZ 0 (num_transfers_used d')))) as [Hfn Hfr].
    remember (map _ _ ++ fill_stop_calls _ _ _ _ _) as filled eqn:Hfilled.
    split; [|split].
    + cbn. rewrite !omap_app, Hpn. cbn. rewrite !omap_app, Hfn.
      destruct (num_transfers_used d' =? 0); reflexivity.
    + cbn. rewrite !omap_app, Hpr. cbn. rewrite !omap_app, Hfr.
      destruct (num_transfers_used d' =? 0); reflexivity.
    + eexists (remote_stop (remote_stop_ret a)
               :: probed ++ [libusb_free_transfer probe_handle]
               ++ sr_session_source_add (tick_period d2) :: _).
      cbn. rewrite <- !app_assoc. reflexivity.
Qed.

(** X9. The first completion after a start is never judged stalled: the
    start resets [num_transfers_completed] to zero, so whatever the clock
    says when the first transfer completes, the gap check is skipped; the
    outstanding count and the calls are those of the switch, and the latch
    stays clear unless the switch itself left no transfer outstanding. *)
Theorem first_completion_not_judged_stalled
    (a : start_answers) (d0 : dev_context)
    (ret : Z) (d : dev_context) (calls : list call)
    (now r : Z) (t : libusb_transfer) :
  valid_config d0 ->
  sipeed_slogic_acquisition_start NUM_MAX_TRANSFERS fm a d0
  = Some (ret, d, calls) ->
  armed calls -> num_transfers_used d <> 0 -> user_data t = true ->
  num_transfers_completed d = 0
  /\ transfers_reached_time_latest d = start_time a
  /\ let '(d', _, calls') := handler now r t d in
     num_transfers_used d' = num_transfers_used (switch now r t d).1.1
     /\ calls' = (switch now r t d).2
     /\ (num_transfers_used d' <> 0 -> acq_aborted d' = 0).
Proof.
  intros Hvalid Hstart Harmed Hused Hud.
  destruct (start_calls_cases a d0 ret d calls Hvalid Hstart)
    as (probed & _ & [[Hna _]|(_ & d2 & ac & _ & Harm & _)]);
    [contradiction|].
  destruct (arm_resets a d2 ret d ac Harm) as (Hc & _ & _ & Hl & _).
  destruct (arm_spec NUM_MAX_TRANSFERS fm NUM_MAX_TRANSFERS_range a d2)
    as (r3 & d3 & c3 & Harm3 & _ & _ & _ & _ & _ & Hret & _).
  rewrite Harm in Harm3. injection Harm3 as <- <- <-.
  destruct (Z.eqb_spec (num_transfers_used d) 0) as [|_]; [contradiction|].
  destruct Hret as [Hab _].
  split; [exact Hc|]. split; [exact Hl|].
  unfold receive_transfer. rewrite Hud, Hab. simpl.
  destruct (handle_status_frame PATTERN_MODE_TEST_MAX_SPEED fm now r t d)
    as (Hc1 & _ & Hab1).
  destruct (switch now r t d) as [[d1 t1] c1]. simpl in *.
  unfold duration_check. rewrite Hc1, Hc. simpl.
  unfold stop_if_idle, sipeed_slogic_acquisition_stop.
  destruct (Z.eqb_spec (num_transfers_used d1) 0); simpl.
  - repeat split; try assumption; try reflexivity. intros H; contradiction.
  - repeat split; try reflexivity. intros _. congruence.
Qed.

(** X10. A start that needs nothing stops at once.  When fewer than eight
    sample bits are requested ([cur_limit_samples * cur_samplechannel / 8]
    is zero) and the probe does not fail, the start opens the stream but
    fills no slot: no transfer is outstanding, the latch is set, the device
    is not commanded to run, and the start returns [SR_OK]. *)
Theorem empty_need_stops_at_once (a : start_answers) (d : dev_context) :
  valid_config d ->
  u64 (cur_limit_samples d * cur_samplechannel d) / 8 = 0 ->
  exists ret d' calls,
    sipeed_slogic_acquisition_start NUM_MAX_TRANSFERS fm a d
    = Some (ret, d', calls)
    /\ (armed calls ->
        ret = SR_OK
        /\ num_transfers_used d' = 0
        /\ acq_aborted d' = 1
        /\ samples_need_nbytes d' = 0
        /\ omap run_command calls = []
        /\ omap notification calls
           = [std_session_send_df_header; std_session_send_df_frame_begin]).
Proof.
  intros Hvalid Hnone.
  destruct (start_spec NUM_MAX_TRANSFERS fm NUM_MAX_TRANSFERS_range a d Hvalid)
    as (ret & d' & calls & Hstart & _).
  exists ret, d', calls. split; [exact Hstart|]. intros Harmed.
  destruct (start_calls_cases a d ret d' calls Hvalid Hstart)
    as (probed & Hprobed & [[Hna _]|(_ & d2 & ac & -> & Harm & Hg & Hn & _)]);
    [contradiction|].
  destruct (arm_spec NUM_MAX_TRANSFERS fm NUM_MAX_TRANSFERS_range a d2)
    as (r3 & d3 & c3 & Harm3 & Hk & _ & Hreg & _ & Hc3 & Hret & _ & Hn3 & _).
  rewrite Harm in Harm3. injection Harm3 as <- <- <-.
  assert (Hw0 : fill_wanted NUM_MAX_TRANSFERS d2 0 = false).
  { unfold fill_wanted. rewrite Hn, Hnone.
    pose proof (u64_range (samples_got_nbytes d2
                           + u64 (0 * per_transfer_nbytes d2))).
    destruct (Z.ltb_spec (u64 (samples_got_nbytes d2
                               + u64 (0 * per_transfer_nbytes d2))) 0);
      [lia|]. apply andb_false_r. }
  assert (Hzero : num_transfers_used d' = 0).
  { destruct (Z.eq_dec (num_transfers_used d') 0) as [|Hnz]; [assumption|].
    destruct (Hreg 0 ltac:(lia)) as (Hw & _). congruence. }
  rewrite Hzero in *. simpl in Hret. destruct Hret as [Hab ->].
  destruct (probe_calls_quiet probed Hprobed) as [Hpn Hpr].
  destruct (probe_calls_quiet _
              (fill_calls_probe_call (fill_answers a) d2 0 (seqZ 0 0)))
    as [Hfn Hfr].
  rewrite Hc3.
  remember (map _ _ ++ fill_stop_calls _ _ _ _ _) as filled eqn:Hfilled.
  repeat split; try assumption; try congruence.
  - cbn. rewrite !omap_app, Hpr. cbn. rewrite !omap_app, Hfr. reflexivity.
  - cbn. rewrite !omap_app, Hpn. cbn. rewrite !omap_app, Hfn. reflexivity.
Qed.

(** X11. The initial fill asks for what is needed and no more.  After a start
    that armed the pool, if [NUM_MAX_TRANSFERS] transfers of the planned
    size do not overflow 64 bits, the transfers outstanding but the last
    fall short of the need; and when no allocation or submission of the
    fill failed, either the pool is full or the outstanding transfers cover
    the whole need. *)
Theorem initial_fill_covers_need
    (a : start_answers) (d : dev_context)
    (ret : Z) (d' : dev_context) (calls : list call) :
  valid_config d ->
  sipeed_slogic_acquisition_start NUM_MAX_TRANSFERS fm a d
  = Some (ret, d', calls) ->
  armed calls ->
  NUM_MAX_TRANSFERS * per_transfer_nbytes d' < 2 ^ 64 ->
  samples_got_nbytes d' = 0
  /\ (num_transfers_used d' = 0
      \/ (num_transfers_used d' - 1) * per_transfer_nbytes d'
         < samples_need_nbytes d')
  /\ ((forall j, fill_answers a j = fill_submit 0) ->
      num_transfers_used d' = NUM_MAX_TRANSFERS
      \/ samples_need_nbytes d'
         <= num_transfers_used d' * per_transfer_nbytes d').
Proof.
  intros Hvalid Hstart Harmed Hsmall.
  destruct (start_calls_cases a d ret d' calls Hvalid Hstart)
    as (probed & _ & [[Hna _]|(_ & d2 & ac & _ & Harm & Hg & _ & Hb & _)]);
    [contradiction|].
  destruct (arm_spec NUM_MAX_TRANSFERS fm NUM_MAX_TRANSFERS_range a d2)
    as (r3 & d3 & c3 & Harm3 & Hk & _ & Hreg & Hend & _ & _ & Hg3 & Hn3 & Hb3).
  rewrite Harm in Harm3. injection Harm3 as <- <- <-.
  rewrite Hg3, Hn3, Hb3 in *.
  assert (Hexact : forall j, 0 <= j <= NUM_MAX_TRANSFERS ->
            fill_wanted NUM_MAX_TRANSFERS d2 j = true
            <-> j < NUM_MAX_TRANSFERS
                /\ j * per_transfer_nbytes d2 < samples_need_nbytes d2).
  { intros j Hj.
    rewrite (fill_wanted_exact NUM_MAX_TRANSFERS d2 j) by nia.
    rewrite Hg. reflexivity. }
  split; [exact Hg|]. split.
  - destruct (Z.eq_dec (num_transfers_used d') 0) as [|Hnz]; [left; assumption|].
    right. destruct (Hreg (num_transfers_used d' - 1) ltac:(lia)) as (Hw & _).
    apply Hexact in Hw; [|lia]. lia.
  - intros Hall. destruct Hend as [Hw|Hf]; [|specialize (Hall
      (num_transfers_used d')); contradiction].
    destruct (Z.eq_dec (num_transfers_used d') NUM_MAX_TRANSFERS) as [|Hne];
      [left; assumption|right].
    destruct (Z.lt_ge_cases (num_transfers_used d' * per_transfer_nbytes d2)
                (samples_need_nbytes d2)) as [Hlt|Hge]; [|lia].
    assert (Hw' : fill_wanted NUM_MAX_TRANSFERS d2 (num_transfers_used d')
                  = true) by (apply Hexact; lia).
    congruence.
Qed.

End Arming.

Section ProbeTrials.

Variable answers : nat -> probe_answer.
Variables rate ch : Z.
Hypothesis rate_ch_nonzero : u64 (rate * ch) <> 0.
Hypothesis bytes_per_ms_nonzero : u64 (rate / SR_KHZ 1 * ch) / 8 <> 0.

Lemma probe_loop_trials (f : nat) :
  forall (i : nat) (n : Z),
    0 <= n <= 32768 + 2 ^ Z.of_nat f ->
    exists exit calls failed,
      probe_loop (S f) answers i rate ch n = Some (exit, calls)
      /\ Forall block_trial calls
      /\ Forall (fun p : Z * Z => p.2 = LIBUSB_ERROR_NO_MEM) failed
      /\ match exit with
         | probe_planned nb _ =>
             omap submission calls = failed
             \/ omap submission calls = failed ++ [(2 * nb, 0)]
         | probe_io_error nb _ =>
             exists ret,
               ret <> 0 /\ ret <> LIBUSB_ERROR_NO_MEM
               /\ omap submission calls = failed ++ [(nb, ret)]
         end.
Proof.
  induction f as [|f IH]; intros i n Hn.
  all: rewrite probe_loop_unfold; cbv zeta.
  all: destruct (round_up_block_bounds n ltac:(lia)) as [Hr _].
  all: pose proof (round_up_block_multiple n) as Hmul.
  all: destruct (half_block_multiple _ Hmul) as [_ Hdiv].
  all: remember (round_up_block n) as r eqn:Hreq.
  all: rewrite (udiv_nonzero _ _ rate_ch_nonzero).
  all: cbn [mbind option_bind].
  all: assert (Hdouble : 2 * Z.shiftr r 1 = r) by (rewrite Hdiv; zdiv_lia).
  all: assert (Htrial : forall ret, block_trial (libusb_submit_transfer r 0 ret))
         by (intros ret; cbn; split; [exact Hmul|reflexivity]).
  - assert (Hle : Z.shiftr r 1 <= 32 * 1024)
      by (rewrite Hdiv; change (2 ^ Z.of_nat 0) with 1 in Hn; zdiv_lia).
    destruct (Z.gtb_spec (Z.shiftr r 1) (32 * 1024)) as [Hgt|_]; [lia|].
    destruct (answers i) as [|ret] eqn:Hans.
    + exists (probe_planned (Z.shiftr r 1) (u64 (u64 (r * SR_KHZ 1) * 8)
                                              / u64 (rate * ch))), [], [].
      repeat split; try constructor. reflexivity.
    + destruct (Z.eqb_spec ret 0) as [->|Hret].
      * rewrite (udiv_nonzero _ _ bytes_per_ms_nonzero).
        cbn [mbind option_bind].
        eexists _, _, []. split; [reflexivity|].
        split; [repeat (apply List.Forall_cons; [first [apply Htrial|exact I]|]);
                apply List.Forall_nil|]. split; [constructor|].
        right. cbn. rewrite Hdouble. reflexivity.
      * destruct (Z.eqb_spec ret LIBUSB_ERROR_NO_MEM) as [->|Hmem].
        -- eexists _, _, [(r, LIBUSB_ERROR_NO_MEM)]. split; [reflexivity|].
           split; [repeat (apply List.Forall_cons; [first [apply Htrial|exact I]|]);
                apply List.Forall_nil|].
           split; [repeat constructor|]. left. reflexivity.
        -- eexists _, _, []. split; [reflexivity|].
           split; [repeat (apply List.Forall_cons; [first [apply Htrial|exact I]|]);
                apply List.Forall_nil|]. split; [constructor|].
           exists ret. auto.
  - assert (Hnext : 0 <= Z.shiftr r 1 <= 32768 + 2 ^ Z.of_nat f)
      by (rewrite Hdiv; rewrite Nat2Z.inj_succ, Z.pow_succ_r in Hn by lia;
          zdiv_lia).
    destruct (answers i) as [|ret] eqn:Hans.
    + destruct (Z.gtb_spec (Z.shiftr r 1) (32 * 1024)) as [Hgt|Hle].
      * apply (IH (S i) (Z.shiftr r 1) Hnext).
      * eexists _, [], []. repeat split; try constructor. reflexivity.
    + destruct (Z.eqb_spec ret 0) as [->|Hret].
      * rewrite (udiv_nonzero _ _ bytes_per_ms_nonzero).
        cbn [mbind option_bind].
        eexists _, _, []. split; [reflexivity|].
        split; [repeat (apply List.Forall_cons; [first [apply Htrial|exact I]|]);
                apply List.Forall_nil|]. split; [constructor|].
        right. cbn. rewrite Hdouble. reflexivity.
      * destruct (Z.eqb_spec ret LIBUSB_ERROR_NO_MEM) as [->|Hmem].
        -- destruct (Z.gtb_spec (Z.shiftr r 1) (32 * 1024)) as [Hgt|Hle].
           ++ destruct (IH (S i) (Z.shiftr r 1) Hnext)
                as (exit & calls & failed & Hp & Hc & Hf & He).
              rewrite Hp. cbn [mbind option_bind].
              exists exit, (libusb_submit_transfer r 0 LIBUSB_ERROR_NO_MEM
                            :: calls), ((r, LIBUSB_ERROR_NO_MEM) :: failed).
              split; [reflexivity|].
              split; [constructor; [apply Htrial|exact Hc]|].
              split; [constructor; [reflexivity|exact Hf]|].
              destruct exit as [nb dur|nb dur]; cbn.
              ** destruct He as [-> | ->]; auto.
              ** destruct He as (ret & H0 & H1 & ->). eauto.
           ++ eexists _, _, [(r, LIBUSB_ERROR_NO_MEM)]. split; [reflexivity|].
              split; [repeat (apply List.Forall_cons; [first [apply Htrial|exact I]|]);
                apply List.Forall_nil|].
              split; [repeat constructor|]. left. reflexivity.
        -- eexists _, _, []. split; [reflexivity|].
           split; [repeat (apply List.Forall_cons; [first [apply Htrial|exact I]|]);
                apply List.Forall_nil|]. split; [constructor|].
           exists ret. auto.
Qed.

(** X12. The trials of the link probe.  On every 64-bit size and every
    sequence of answers the probing loop ends; every size it submits is a
    whole number of 32 KiB blocks, with no timeout; every submission but
    the last one failed for lack of memory; the loop stops at the first
    submission that succeeds, and the size it then plans is exactly half of
    the size that went through; an I/O error is the answer of the last
    submission, one that is neither success nor lack of memory. *)
Theorem probe_trials_are_whole_blocks (n : Z) :
  0 <= n < 2 ^ 64 ->
  exists exit calls failed,
    probe_loop probe_fuel answers 0 rate ch n = Some (exit, calls)
    /\ Forall block_trial calls
    /\ Forall (fun p : Z * Z => p.2 = LIBUSB_ERROR_NO_MEM) failed
    /\ match exit with
       | probe_planned nb _ =>
           omap submission calls = failed
           \/ omap submission calls = failed ++ [(2 * nb, 0)]
       | probe_io_error nb _ =>
           exists ret,
             ret <> 0 /\ ret <> LIBUSB_ERROR_NO_MEM
             /\ omap submission calls = failed ++ [(nb, ret)]
       end.
Proof.
  intros Hn. apply (probe_loop_trials 64 0%nat n).
  change (2 ^ Z.of_nat 64) with (2 ^ 64). lia.
Qed.

End ProbeTrials.

(** * Properties of the configuration interface *)

Lemma u64_idx_from_spec (a : list Z) :
  forall (i v : Z),
    0 <= i ->
    (u64_idx_from i v a < 0 /\ ~ In v a)
    \/ (i <= u64_idx_from i v a
        /\ a !! Z.to_nat (u64_idx_from i v a - i) = Some v).
Proof.
  induction a as [|x a IH]; intros i v Hi; simpl.
  - left. split; [lia|tauto].
  - destruct (Z.eqb_spec v x) as [->|Hne].
    + right. split; [lia|]. rewrite Z.sub_diag. reflexivity.
    + destruct (IH (i + 1) v ltac:(lia)) as [[Hneg Hnot]|[Hle Hlook]].
      * left. split; [exact Hneg|]. intros [Heq|Hin]; [congruence|tauto].
      * right. split; [lia|].
        replace (Z.to_nat (u64_idx_from (i + 1) v a - i))
          with (S (Z.to_nat (u64_idx_from (i + 1) v a - (i + 1)))) by lia.
        exact Hlook.
Qed.

Lemma u64_idx_finds : finds_index u64_idx.
Proof.
  intros v a. unfold u64_idx.
  destruct (u64_idx_from_spec a 0 v ltac:(lia)) as [H|[Hle Hlook]];
    [left; exact H|right].
  split; [exact Hle|]. rewrite Z.sub_0_r in Hlook. exact Hlook.
Qed.

Lemma le_div_mul (r b c : Z) : 0 < c -> r <= b / c -> r * c <= b.
Proof.
  intros Hc Hr. pose proof (Z.mul_div_le b c Hc). nia.
Qed.

Lemma samplerates_range (r : Z) :
  In r samplerates -> 1000000 <= r <= 1600000000.
Proof.
  unfold samplerates, SR_MHZ. simpl.
  intros H. repeat (destruct H as [<-|H]; [lia|]). destruct H.
Qed.

Lemma buffersizes_range (c : Z) : In c buffersizes -> 2 <= c <= 16.
Proof.
  unfold buffersizes. simpl.
  intros H. repeat (destruct H as [<-|H]; [lia|]). destruct H.
Qed.

(** What the bandwidth leaves to the rate is a rate of the table, and what
    it leaves to the channel count is a size of the table. *)
Lemma limit_samplerate_listed (c : Z) :
  In c buffersizes ->
  In (Z.min (SR_MHZ 3200 / c) (SR_MHZ 1600)) samplerates.
Proof.
  unfold buffersizes. simpl.
  intros H. repeat (destruct H as [<-|H]; [vm_compute; tauto|]). destruct H.
Qed.

Lemma limit_samplechannel_listed (r : Z) :
  In r samplerates -> In (Z.min (SR_MHZ 3200 / r) 16) buffersizes.
Proof.
  unfold samplerates. simpl.
  intros H. repeat (destruct H as [<-|H]; [vm_compute; tauto|]). destruct H.
Qed.

Lemma channel_indexes (l : list sr_channel) :
  map index l = seqZ 0 16 -> Forall (fun c => 0 <= index c < 16) l.
Proof.
  intros Hl.
  assert (H : Forall (fun i => 0 <= i < 16) (map index l))
    by (rewrite Hl; apply Forall_seqZ; intros; lia).
  apply Forall_fmap in H. exact H.
Qed.

Lemma enable_channels_spec (cur : Z) (l : list sr_channel) :
  map index l = seqZ 0 16 ->
  Forall (fun c => type c = SR_CHANNEL_LOGIC) l ->
  map index (enable_channels cur l) = seqZ 0 16
  /\ Forall (fun c => type c = SR_CHANNEL_LOGIC
                      /\ enabled c = (index c <? cur))
       (enable_channels cur l).
Proof.
  intros Hl Ht. pose proof (channel_indexes l Hl) as Hi.
  rewrite <- Hl. unfold enable_channels. clear Hl.
  induction l as [|c l IH]; [split; constructor|].
  inversion Ht as [|? ? Hc Htl]; subst. inversion Hi as [|? ? Hci Hil]; subst.
  destruct (IH Htl Hil) as [IH1 IH2]. cbn [map]. rewrite Hc. split.
  - cbn. f_equal. exact IH1.
  - constructor; [|exact IH2]. cbn. split; [exact Hc|].
    rewrite (u64_small (index c)) by lia.
    destruct (Z.geb_spec (index c) cur), (Z.ltb_spec (index c) cur);
      reflexivity || lia.
Qed.

Section ApiProperties.

Variable std_u64_idx : Z -> list Z -> Z.
Variable STD_CONFIG_LIST : sr_configkey -> bool -> Z.
Variable NUM_MAX_TRANSFERS : Z.
Hypothesis std_u64_idx_finds : finds_index std_u64_idx.

Local Abbreviation set_config := (config_set std_u64_idx).

Lemma std_u64_idx_found (v : Z) (a : list Z) :
  (std_u64_idx v a <? 0) = false <-> In v a.
Proof.
  destruct (std_u64_idx_finds v a) as [[Hneg Hnot]|[Hpos Hlook]].
  - destruct (Z.ltb_spec (std_u64_idx v a) 0); [|lia].
    split; [discriminate|contradiction].
  - destruct (Z.ltb_spec (std_u64_idx v a) 0); [lia|].
    split; [|reflexivity]. intros _.
    apply list_elem_of_In. eapply list_elem_of_lookup_2. exact Hlook.
Qed.

Lemma scan_new_device_inv : config_inv (scan_new_device NUM_MAX_TRANSFERS).
Proof.
  unfold config_inv, scan_new_device. cbn.
  repeat split; try reflexivity.
  - vm_compute. tauto.
  - vm_compute. tauto.
  - repeat constructor.
Qed.

(** [config_set] is defined on a configuration of the invariant and keeps
    the invariant. *)
Lemma config_set_inv (key : sr_configkey) (data : Z) (s : device) :
  config_inv s ->
  exists ret s', set_config key data s = Some (ret, s') /\ config_inv s'.
Proof.
  intros (Hm & Hr & Hc & Hbw & Hlr & Hlc & Hidx & Hch).
  destruct s as [p m lr lc chs].
  cbn [model priv limit_samplerate limit_samplechannel channels] in *.
  injection Hm as <-.
  cbn [max_bandwidth max_samplerate max_samplechannel] in *.
  pose proof (samplerates_range _ Hr) as Hr0.
  pose proof (buffersizes_range _ Hc) as Hc0.
  destruct key;
    try (eexists _, _; split; [reflexivity|];
         unfold config_inv; cbn -[In samplerates buffersizes Z.div Z.min];
         auto 10; fail).
  - (* SR_CONF_SAMPLERATE *)
    cbn -[In samplerates buffersizes Z.div Z.min SR_MHZ Z.gtb Z.ltb udiv].
    remember (if (data >? lr) || (std_u64_idx data samplerates <? 0)
              then lr else data) as rate eqn:Erate.
    assert (Hrate : In rate samplerates).
    { subst rate.
      destruct (data >? lr); cbn [orb];
        [|destruct (std_u64_idx data samplerates <? 0) eqn:Hf; cbn [orb]].
      - rewrite Hlr. apply limit_samplerate_listed. exact Hc.
      - rewrite Hlr. apply limit_samplerate_listed. exact Hc.
      - apply std_u64_idx_found. exact Hf. }
    pose proof (samplerates_range _ Hrate) as Hrange.
    assert (Hprod : rate * cur_samplechannel p <= SR_MHZ 3200).
    { apply le_div_mul; [lia|].
      destruct (Z.gtb_spec data lr); cbn [orb] in Erate;
        [|destruct (std_u64_idx data samplerates <? 0)]; lia. }
    rewrite udiv_nonzero by lia.
    cbn -[In samplerates buffersizes Z.div Z.min SR_MHZ Z.gtb Z.ltb].
    remember (SR_MHZ 3200 / rate) as q eqn:Eq.
    eexists _, _. split; [reflexivity|].
    unfold config_inv.
    destruct (Z.gtb_spec q 16);
      cbn -[In samplerates buffersizes Z.div Z.min SR_MHZ Z.gtb Z.ltb];
      rewrite <- ?Eq;
      repeat split; try assumption; try reflexivity; lia.
  - (* SR_CONF_BUFFERSIZE *)
    cbn -[In samplerates buffersizes Z.div Z.min SR_MHZ Z.gtb Z.ltb udiv
          enable_channels].
    remember (if (data >? lc) || (std_u64_idx data buffersizes <? 0)
              then lc else data) as ch eqn:Ech.
    assert (Hsize : In ch buffersizes).
    { subst ch.
      destruct (data >? lc); cbn [orb];
        [|destruct (std_u64_idx data buffersizes <? 0) eqn:Hf; cbn [orb]].
      - rewrite Hlc. apply limit_samplechannel_listed. exact Hr.
      - rewrite Hlc. apply limit_samplechannel_listed. exact Hr.
      - apply std_u64_idx_found. exact Hf. }
    pose proof (buffersizes_range _ Hsize) as Hrange.
    assert (Hprod : cur_samplerate p * ch <= SR_MHZ 3200).
    { rewrite Z.mul_comm. apply le_div_mul; [lia|].
      destruct (Z.gtb_spec data lc); cbn [orb] in Ech;
        [|destruct (std_u64_idx data buffersizes <? 0)]; lia. }
    rewrite udiv_nonzero by lia.
    cbn -[In samplerates buffersizes Z.div Z.min SR_MHZ Z.gtb Z.ltb
          enable_channels].
    destruct (enable_channels_spec ch chs Hidx) as [He1 He2].
    { eapply Forall_impl; [exact Hch|]. intros c [H _]. exact H. }
    remember (SR_MHZ 3200 / ch) as q eqn:Eq.
    eexists _, _. split; [reflexivity|].
    unfold config_inv.
    destruct (Z.gtb_spec q (SR_MHZ 1600));
      cbn -[In samplerates buffersizes Z.div Z.min SR_MHZ Z.gtb Z.ltb
            enable_channels];
      rewrite <- ?Eq;
      repeat split; try assumption; try reflexivity; lia.
Qed.

Lemma configure_inv (ops : list (sr_configkey * Z)) (s : device) :
  config_inv s ->
  exists s', configure std_u64_idx ops s = Some s' /\ config_inv s'.
Proof.
  revert s. induction ops as [|[key data] ops IH]; intros s Hinv; cbn.
  - eauto.
  - destruct (config_set_inv key data s Hinv) as (ret & s1 & -> & Hinv1).
    cbn. apply IH. exact Hinv1.
Qed.

End ApiProperties.

Lemma take_ascending (a : list Z) :
  ascending a ->
  forall (n : nat) (x v : Z),
    a !! n = Some x ->
    In v (take (S n) a) <-> In v a /\ v <= x.
Proof.
  induction a as [|y a IH]; intros Ha n x v Hlook; [discriminate Hlook|].
  destruct Ha as [Hy Ha]. rewrite List.Forall_forall in Hy.
  destruct n as [|n].
  - injection Hlook as <-. cbn. rewrite take_0. cbn. split.
    + intros [->|[]]. split; [left; reflexivity|lia].
    + intros [[->|Hin] Hle]; [left; reflexivity|].
      specialize (Hy v Hin). lia.
  - cbn in Hlook. change (take (S (S n)) (y :: a)) with (y :: take (S n) a).
    assert (Hx : y < x).
    { apply Hy. apply list_elem_of_In. eapply list_elem_of_lookup_2.
      exact Hlook. }
    cbn [In]. rewrite (IH Ha n x v Hlook). split.
    + intros [->|[Hin Hle]]; [split; [left; reflexivity|lia]|].
      split; [right; exact Hin|exact Hle].
    + intros [[->|Hin] Hle]; [left; reflexivity|right; split; assumption].
Qed.

Lemma samplerates_ascending : ascending samplerates.
Proof.
  unfold samplerates, SR_MHZ. cbn [ascending].
  repeat first [apply List.Forall_nil | apply List.Forall_cons | split].
Qed.

Lemma buffersizes_ascending : ascending buffersizes.
Proof.
  unfold buffersizes. cbn [ascending].
  repeat first [apply List.Forall_nil | apply List.Forall_cons | split].
Qed.

(** The count that [config_list] passes on selects the entries of an
    ascending table up to the limit, when the limit is in the table. *)
Lemma listed_up_to_limit (idx : Z -> list Z -> Z) (a : list Z) (limit v : Z) :
  finds_index idx -> ascending a -> In limit a ->
  In v (take (Z.to_nat (1 + idx limit a)) a) <-> In v a /\ v <= limit.
Proof.
  intros Hfind Ha Hin.
  destruct (Hfind limit a) as [[_ Hnot]|[Hpos Hlook]]; [contradiction|].
  replace (Z.to_nat (1 + idx limit a)) with (S (Z.to_nat (idx limit a)))
    by lia.
  apply take_ascending; assumption.
Qed.

Lemma filter_map_index (f : Z -> bool) (l : list sr_channel) :
  map index (List.filter (fun c => f (index c)) l)
  = List.filter f (map index l).
Proof.
  induction l as [|c l IH]; [reflexivity|]. cbn.
  destruct (f (index c)); cbn; rewrite IH; reflexivity.
Qed.

Lemma config_inv_valid (s : device) : config_inv s -> valid_config (priv s).
Proof.
  intros (_ & Hr & Hc & _).
  apply samplerates_range in Hr. apply buffersizes_range in Hc.
  unfold valid_config. change (SR_KHZ 1) with 1000.
  remember (cur_samplerate (priv s)) as r eqn:Er.
  remember (cur_samplechannel (priv s)) as c eqn:Ec.
  assert (Hq : 1000 <= r / 1000 <= 1600000) by zdiv_lia.
  remember (r / 1000) as q eqn:Eq.
  assert (Hrc : 2000000 <= r * c <= 25600000000) by nia.
  assert (Hqc : 2000 <= q * c <= 25600000) by nia.
  rewrite !u64_small by lia.
  repeat split; [lia|lia|].
  remember (q * c) as qc. zdiv_lia.
Qed.

(** X13. Whatever sequence of [config_set] calls follows [scan], every call
    returns, the rate and the channel count are entries of the tables, each
    is within its current limit, and their product is within the 3200 MHz
    bandwidth of the model. *)
Theorem configuration_within_bandwidth
    (idx : Z -> list Z -> Z) (N : Z) (ops : list (sr_configkey * Z)) :
  finds_index idx ->
  exists s,
    configure idx ops (scan_new_device N) = Some s
    /\ In (cur_samplerate (priv s)) samplerates
    /\ In (cur_samplechannel (priv s)) buffersizes
    /\ cur_samplerate (priv s) <= limit_samplerate s
    /\ cur_samplechannel (priv s) <= limit_samplechannel s
    /\ cur_samplerate (priv s) * cur_samplechannel (priv s) <= SR_MHZ 3200.
Proof.
  intros Hfind.
  destruct (configure_inv idx Hfind ops _ (scan_new_device_inv N))
    as (s & Hrun & Hinv).
  exists s. split; [exact Hrun|].
  destruct Hinv as (Hm & Hr & Hc & Hbw & Hlr & Hlc & _).
  injection Hm as Hm. rewrite <- Hm in *.
  cbn [max_bandwidth max_samplerate max_samplechannel] in *.
  pose proof (samplerates_range _ Hr) as Hr0.
  pose proof (buffersizes_range _ Hc) as Hc0.
  repeat split; try assumption.
  - rewrite Hlr. apply Z.min_glb; [|unfold SR_MHZ; lia].
    apply Z.div_le_lower_bound; lia.
  - rewrite Hlc. apply Z.min_glb; [|lia].
    apply Z.div_le_lower_bound; lia.
Qed.

(** X14. No device that [scan] produces can be started.  [scan] points
    [devc->model] to an element of [support_models], nothing assigns it
    again, and the initialiser of that element names no operation: whatever
    sequence of [config_set] calls follows [scan], the divisors of the start
    are not zero on the configuration, but the member
    [operation.remote_stop] is null, so the first call of
    [sipeed_slogic_acquisition_start] goes through a null pointer and the
    start has no defined result. *)
Theorem scanned_device_start_undefined
    (idx : Z -> list Z -> Z) (N : Z) (fm : float_model)
    (ops : list (sr_configkey * Z)) (a : start_answers) :
  finds_index idx ->
  exists s,
    configure idx ops (scan_new_device N) = Some s
    /\ valid_config (priv s)
    /\ operation_remote_stop (model s) = NULL
    /\ acquisition_start_on N fm a s = None.
Proof.
  intros Hfind.
  destruct (configure_inv idx Hfind ops _ (scan_new_device_inv N))
    as (s & Hrun & Hinv).
  exists s. split; [exact Hrun|].
  split; [exact (config_inv_valid s Hinv)|].
  destruct Hinv as (Hm & _). injection Hm as Hm.
  assert (Hnull : operation_remote_stop (model s) = NULL)
    by (rewrite <- Hm; reflexivity).
  split; [exact Hnull|].
  unfold acquisition_start_on. rewrite Hnull. reflexivity.
Qed.

(** X15. [config_list] offers exactly the table rates up to the current rate
    limit; [config_set] stores an offered rate as it is and replaces any
    other value by the limit, and [config_get] reads the stored rate back. *)
Theorem listed_samplerates_accepted
    (idx : Z -> list Z -> Z) (cl : sr_configkey -> bool -> Z)
    (s : device) (v : Z) :
  finds_index idx ->
  config_inv s ->
  exists g s',
    config_list idx cl SR_CONF_SAMPLERATE (Some s) = Some (SR_OK, Some g)
    /\ (In v (listed g) <-> In v samplerates /\ v <= limit_samplerate s)
    /\ config_set idx SR_CONF_SAMPLERATE v s = Some (SR_OK, s')
    /\ (In v (listed g) ->
        config_get SR_CONF_SAMPLERATE s'
        = (SR_OK, Some (g_variant_new_uint64 v)))
    /\ (~ In v (listed g) ->
        config_get SR_CONF_SAMPLERATE s'
        = (SR_OK, Some (g_variant_new_uint64 (limit_samplerate s)))).
Proof.
  intros Hfind (Hm & Hr & Hc & Hbw & Hlr & Hlc & _).
  injection Hm as Hm.
  assert (Hlimit : In (limit_samplerate s) samplerates).
  { rewrite Hlr, <- Hm. apply limit_samplerate_listed. exact Hc. }
  pose proof (listed_up_to_limit idx samplerates (limit_samplerate s) v
                Hfind samplerates_ascending Hlimit) as Hlisted.
  pose proof (std_u64_idx_found idx Hfind v samplerates) as Hfound.
  cbn -[In samplerates Z.gtb Z.ltb udiv].
  remember (if (v >? limit_samplerate s) || (idx v samplerates <? 0)
            then limit_samplerate s else v) as rate eqn:Erate.
  assert (Hrate : (In v samplerates /\ v <= limit_samplerate s -> rate = v)
                  /\ (~ (In v samplerates /\ v <= limit_samplerate s) ->
                      rate = limit_samplerate s)
                  /\ In rate samplerates).
  { subst rate. destruct (Z.gtb_spec v (limit_samplerate s)); cbn [orb].
    - split; [intros [_ Hle]; lia|].
      split; [intros _; reflexivity|exact Hlimit].
    - destruct (idx v samplerates <? 0) eqn:Hf.
      + split; [intros [Hin _]; apply Hfound in Hin; discriminate Hin|].
        split; [intros _; reflexivity|exact Hlimit].
      + assert (Hin : In v samplerates) by (apply Hfound; reflexivity).
        split; [intros _; reflexivity|]. split; [|exact Hin].
        intros Hnot. exfalso. apply Hnot. split; [exact Hin|lia]. }
  destruct Hrate as (Hyes & Hno & Hin).
  apply samplerates_range in Hin.
  rewrite udiv_nonzero by lia.
  eexists _, _. split; [reflexivity|]. split; [exact Hlisted|].
  split; [reflexivity|].
  split; intros Hv.
  - destruct (max_bandwidth (model s) / rate >? max_samplechannel (model s));
      cbn; rewrite Hyes by (apply Hlisted; exact Hv); reflexivity.
  - destruct (max_bandwidth (model s) / rate >? max_samplechannel (model s));
      cbn; rewrite Hno by (rewrite <- Hlisted; exact Hv); reflexivity.
Qed.

(** X16. [config_list] offers exactly the table channel counts up to the
    current channel limit; [config_set] stores an offered count as it is
    and replaces any other value by the limit, and [config_get] reads the
    stored count back. *)
Theorem listed_buffersizes_accepted
    (idx : Z -> list Z -> Z) (cl : sr_configkey -> bool -> Z)
    (s : device) (v : Z) :
  finds_index idx ->
  config_inv s ->
  exists g s',
    config_list idx cl SR_CONF_BUFFERSIZE (Some s) = Some (SR_OK, Some g)
    /\ (In v (listed g) <-> In v buffersizes /\ v <= limit_samplechannel s)
    /\ config_set idx SR_CONF_BUFFERSIZE v s = Some (SR_OK, s')
    /\ (In v (listed g) ->
        config_get SR_CONF_BUFFERSIZE s'
        = (SR_OK, Some (g_variant_new_uint64 v)))
    /\ (~ In v (listed g) ->
        config_get SR_CONF_BUFFERSIZE s'
        = (SR_OK, Some (g_variant_new_uint64 (limit_samplechannel s)))).
Proof.
  intros Hfind (Hm & Hr & Hc & Hbw & Hlr & Hlc & _).
  injection Hm as Hm.
  assert (Hlimit : In (limit_samplechannel s) buffersizes).
  { rewrite Hlc, <- Hm. apply limit_samplechannel_listed. exact Hr. }
  pose proof (listed_up_to_limit idx buffersizes (limit_samplechannel s) v
                Hfind buffersizes_ascending Hlimit) as Hlisted.
  pose proof (std_u64_idx_found idx Hfind v buffersizes) as Hfound.
  cbn -[In buffersizes Z.gtb Z.ltb udiv enable_channels].
  remember (if (v >? limit_samplechannel s) || (idx v buffersizes <? 0)
            then limit_samplechannel s else v) as ch eqn:Ech.
  assert (Hch : (In v buffersizes /\ v <= limit_samplechannel s -> ch = v)
                /\ (~ (In v buffersizes /\ v <= limit_samplechannel s) ->
                    ch = limit_samplechannel s)
                /\ In ch buffersizes).
  { subst ch. destruct (Z.gtb_spec v (limit_samplechannel s)); cbn [orb].
    - split; [intros [_ Hle]; lia|].
      split; [intros _; reflexivity|exact Hlimit].
    - destruct (idx v buffersizes <? 0) eqn:Hf.
      + split; [intros [Hin _]; apply Hfound in Hin; discriminate Hin|].
        split; [intros _; reflexivity|exact Hlimit].
      + assert (Hin : In v buffersizes) by (apply Hfound; reflexivity).
        split; [intros _; reflexivity|]. split; [|exact Hin].
        intros Hnot. exfalso. apply Hnot. split; [exact Hin|lia]. }
  destruct Hch as (Hyes & Hno & Hin).
  apply buffersizes_range in Hin.
  rewrite udiv_nonzero by lia.
  eexists _, _. split; [reflexivity|]. split; [exact Hlisted|].
  split; [reflexivity|].
  split; intros Hv.
  - destruct (max_bandwidth (model s) / ch >? max_samplerate (model s));
      cbn; rewrite Hyes by (apply Hlisted; exact Hv); reflexivity.
  - destruct (max_bandwidth (model s) / ch >? max_samplerate (model s));
      cbn; rewrite Hno by (rewrite <- Hlisted; exact Hv); reflexivity.
Qed.

(** X17. After [scan] and any sequence of [config_set] calls the enabled
    channels are, in order, the channels 0 up to the channel count. *)
Theorem enabled_channels_follow_count
    (idx : Z -> list Z -> Z) (N : Z) (ops : list (sr_configkey * Z)) :
  finds_index idx ->
  exists s,
    configure idx ops (scan_new_device N) = Some s
    /\ map index (List.filter enabled (channels s))
       = seqZ 0 (cur_samplechannel (priv s)).
Proof.
  intros Hfind.
  destruct (configure_inv idx Hfind ops _ (scan_new_device_inv N))
    as (s & Hrun & Hinv).
  exists s. split; [exact Hrun|].
  destruct Hinv as (_ & _ & Hc & _ & _ & _ & Hidx & Hch).
  assert (Heq : List.filter enabled (channels s)
                = List.filter
                    (fun c => index c <? cur_samplechannel (priv s))
                    (channels s)).
  { apply List.filter_ext_in. intros c Hin.
    rewrite List.Forall_forall in Hch. apply (Hch c Hin). }
  rewrite Heq.
  rewrite (filter_map_index (fun i => i <? cur_samplechannel (priv s))).
  rewrite Hidx. unfold buffersizes in Hc. cbn [In] in Hc.
  destruct Hc as [<-|[<-|[<-|[<-|[]]]]]; reflexivity.
Qed.

(** X18. [config_set] of one key leaves what [config_get] answers for every
    other key as it was. *)
Theorem config_set_keeps_other_settings
    (idx : Z -> list Z -> Z) (key key' : sr_configkey) (v : Z)
    (s s' : device) (r : Z) :
  key' <> key ->
  config_set idx key v s = Some (r, s') ->
  config_get key' s' = config_get key' s.
Proof.
  intros Hne Hset.
  destruct key; cbn -[udiv Z.gtb Z.ltb enable_channels] in Hset;
    try (injection Hset as _ <-; reflexivity).
  - injection Hset as _ <-. destruct key'; try reflexivity. congruence.
  - destruct (udiv _ _) as [limit|]; [|discriminate Hset].
    cbn -[Z.gtb Z.ltb] in Hset. injection Hset as _ <-.
    destruct key'; try reflexivity;
      try (destruct (_ >? _); reflexivity). congruence.
  - destruct (udiv _ _) as [limit|]; [|discriminate Hset].
    cbn -[Z.gtb Z.ltb enable_channels] in Hset. injection Hset as _ <-.
    destruct key'; try reflexivity;
      try (destruct (_ >? _); reflexivity). congruence.
Qed.

Lemma declares_opt_set (k : sr_configkey) :
  declares opt_set k <->
  k = SR_CONF_LIMIT_SAMPLES \/ k = SR_CONF_SAMPLERATE
  \/ k = SR_CONF_BUFFERSIZE.
Proof.
  unfold declares, devopts. split.
  - intros (e & Hin & <- & Hbit). cbn [In] in Hin.
    destruct Hin as [<-|[<-|[<-|[<-|[<-|[]]]]]]; cbn in *;
      auto; discriminate Hbit.
  - intros [-> | [-> | ->]].
    + exists {| opt_key := SR_CONF_LIMIT_SAMPLES; opt_get := true;
                opt_set := true; opt_list := false |}.
      cbn. auto 10.
    + exists {| opt_key := SR_CONF_SAMPLERATE; opt_get := true;
                opt_set := true; opt_list := true |}.
      cbn. auto 10.
    + exists {| opt_key := SR_CONF_BUFFERSIZE; opt_get := true;
                opt_set := true; opt_list := true |}.
      cbn. auto 10.
Qed.

Lemma declares_opt_get (k : sr_configkey) :
  declares opt_get k <->
  k = SR_CONF_LIMIT_SAMPLES \/ k = SR_CONF_SAMPLERATE
  \/ k = SR_CONF_BUFFERSIZE \/ k = SR_CONF_TRIGGER_MATCH.
Proof.
  unfold declares, devopts. split.
  - intros (e & Hin & <- & Hbit). cbn [In] in Hin.
    destruct Hin as [<-|[<-|[<-|[<-|[<-|[]]]]]]; cbn in *;
      auto; discriminate Hbit.
  - intros [-> | [-> | [-> | ->]]].
    + exists {| opt_key := SR_CONF_LIMIT_SAMPLES; opt_get := true;
                opt_set := true; opt_list := false |}.
      cbn. auto 10.
    + exists {| opt_key := SR_CONF_SAMPLERATE; opt_get := true;
                opt_set := true; opt_list := true |}.
      cbn. auto 10.
    + exists {| opt_key := SR_CONF_BUFFERSIZE; opt_get := true;
                opt_set := true; opt_list := true |}.
      cbn. auto 10.
    + exists {| opt_key := SR_CONF_TRIGGER_MATCH; opt_get := true;
                opt_set := false; opt_list := true |}.
      cbn. auto 10.
Qed.

Lemma config_set_codes
    (idx : Z -> list Z -> Z) (key : sr_configkey) (v : Z)
    (s s' : device) (r : Z) :
  config_set idx key v s = Some (r, s') ->
  (declares opt_set key -> r = SR_OK)
  /\ (~ declares opt_set key -> r = SR_ERR_NA /\ s' = s).
Proof.
  intros Hset.
  rewrite declares_opt_set.
  destruct key; cbn -[udiv Z.gtb Z.ltb enable_channels] in Hset;
    try (injection Hset as <- <-; split;
         [intros [H|[H|H]]; discriminate H|intros _; split; reflexivity]).
  - injection Hset as <- _. split; [reflexivity|]. intros H. exfalso. auto.
  - destruct (udiv _ _) as [limit|]; [|discriminate Hset].
    cbn -[Z.gtb Z.ltb] in Hset. injection Hset as <- _.
    split; [reflexivity|]. intros H. exfalso. auto.
  - destruct (udiv _ _) as [limit|]; [|discriminate Hset].
    cbn -[Z.gtb Z.ltb enable_channels] in Hset. injection Hset as <- _.
    split; [reflexivity|]. intros H. exfalso. auto.
Qed.

(** X19. On a configuration that [scan] and [config_set] keep, [config_set]
    returns for every key and every value: with [SR_OK] for the keys that
    [devopts] declares settable, and for every other key with [SR_ERR_NA]
    and the device as it was. *)
Theorem config_set_follows_devopts
    (idx : Z -> list Z -> Z) (key : sr_configkey) (v : Z) (s : device) :
  finds_index idx ->
  config_inv s ->
  exists r s',
    config_set idx key v s = Some (r, s')
    /\ (declares opt_set key -> r = SR_OK)
    /\ (~ declares opt_set key -> r = SR_ERR_NA /\ s' = s).
Proof.
  intros Hfind Hinv.
  destruct (config_set_inv idx Hfind key v s Hinv) as (r & s' & Hset & _).
  exists r, s'. split; [exact Hset|].
  exact (config_set_codes idx key v s s' r Hset).
Qed.

(** X20. [config_get] answers only keys that [devopts] declares gettable,
    and always stores a value when it answers; the one key declared
    gettable that it refuses with [SR_ERR_NA] is [SR_CONF_TRIGGER_MATCH]. *)
Theorem config_get_follows_devopts (key : sr_configkey) (s : device) :
  ((config_get key s).1 = SR_OK ->
   declares opt_get key /\ is_Some (config_get key s).2)
  /\ ((config_get key s).1 <> SR_OK ->
      config_get key s = (SR_ERR_NA, None)
      /\ (declares opt_get key -> key = SR_CONF_TRIGGER_MATCH))
  /\ config_get SR_CONF_TRIGGER_MATCH s = (SR_ERR_NA, None)
  /\ declares opt_get SR_CONF_TRIGGER_MATCH.
Proof.
  rewrite !declares_opt_get.
  split; [|split; [|split]].
  - intros H.
    destruct key; cbn in H; try (exfalso; vm_compute in H; discriminate H);
      (split; [auto 10|eexists; reflexivity]).
  - intros H.
    destruct key; cbn in H |- *; try (exfalso; apply H; reflexivity);
      (split; [reflexivity|intros [Hk|[Hk|[Hk|Hk]]]; congruence]).
  - reflexivity.
  - auto 10.
Qed.

(** * The further properties on concrete sessions *)

Lemma forwarded_bytes_match_counter_witness :
  let es := [Completion 200000 0
               (pool_transfer LIBUSB_TRANSFER_COMPLETED 131072);
             Completion 300000 0
               (pool_transfer LIBUSB_TRANSFER_TIMED_OUT 65536); Tick] in
  bytes_inv live_context
  /\ Forall wf_event es
  /\ let '(d', calls) := run 1 floats_5pct es live_context in
     forwarded_nbytes calls
     = (if cur_pattern_mode_idx live_context =? 1 then 0
        else samples_got_nbytes d' - samples_got_nbytes live_context).
Proof.
  intros es.
  assert (H1 : bytes_inv live_context) by (unfold bytes_inv; simpl; lia).
  assert (H2 : Forall wf_event es) by (repeat constructor; simpl; lia).
  split; [exact H1|]. split; [exact H2|].
  exact (forwarded_bytes_match_counter 1 floats_5pct es live_context H1 H2).
Defined.

Lemma aborted_session_is_frozen_witness :
  let es := [Completion 200000 0
               (pool_transfer LIBUSB_TRANSFER_COMPLETED 131072); Tick; Stop] in
  acq_aborted aborted_context = 1
  /\ let '(d', calls) := run 1 floats_5pct es aborted_context in
     (d' = aborted_context \/ d' = cleared aborted_context)
     /\ acq_aborted d' = 1
     /\ Forall teardown_call calls
     /\ omap submission calls = []
     /\ omap raw_data calls = [].
Proof.
  intros es.
  assert (H1 : acq_aborted aborted_context = 1) by reflexivity.
  split; [exact H1|].
  exact (aborted_session_is_frozen 1 floats_5pct es aborted_context H1).
Defined.

Lemma nothing_after_need_is_met_witness :
  let es := [Completion 200000 0
               (pool_transfer LIBUSB_TRANSFER_COMPLETED 131072);
             Completion 300000 0
               (pool_transfer LIBUSB_TRANSFER_TIMED_OUT 1024); Tick] in
  bytes_inv full_context
  /\ samples_got_nbytes full_context = samples_need_nbytes full_context
  /\ Forall wf_event es
  /\ let '(d', calls) := run 1 floats_5pct es full_context in
     samples_got_nbytes d' = samples_need_nbytes full_context
     /\ omap submission calls = []
     /\ omap raw_data calls = [].
Proof.
  intros es.
  assert (H1 : bytes_inv full_context) by (unfold bytes_inv; simpl; lia).
  assert (H2 : samples_got_nbytes full_context
               = samples_need_nbytes full_context) by reflexivity.
  assert (H3 : Forall wf_event es) by (repeat constructor; simpl; lia).
  split; [exact H1|]. split; [exact H2|]. split; [exact H3|].
  exact (nothing_after_need_is_met 1 floats_5pct es full_context H1 H2 H3).
Defined.

Lemma final_completion_not_resubmitted_witness :
  let t := pool_transfer LIBUSB_TRANSFER_COMPLETED 131072 in
  let d := last_context in
  user_data t = true
  /\ acq_aborted d <> 1
  /\ data_status (status t) = true
  /\ bytes_inv d
  /\ samples_got_nbytes d < samples_need_nbytes d
  /\ samples_need_nbytes d - samples_got_nbytes d <= actual_length t < 2 ^ 31
  /\ 1 <= num_transfers_used d < 2 ^ 64
  /\ 0 <= per_transfer_nbytes d
  /\ samples_need_nbytes d
     + (num_transfers_used d - 1) * per_transfer_nbytes d < 2 ^ 64
  /\ let '(d', t', calls) := receive_transfer 1 floats_5pct 200000 0 t d in
     samples_got_nbytes d' = samples_need_nbytes d
     /\ actual_length t' = samples_need_nbytes d - samples_got_nbytes d
     /\ omap submission calls = []
     /\ omap raw_data calls
        = (if cur_pattern_mode_idx d =? 1 then []
           else [samples_need_nbytes d - samples_got_nbytes d]).
Proof.
  intros t d.
  assert (H1 : user_data t = true) by reflexivity.
  assert (H2 : acq_aborted d <> 1) by (simpl; lia).
  assert (H3 : data_status (status t) = true) by reflexivity.
  assert (H4 : bytes_inv d) by (unfold bytes_inv; simpl; lia).
  assert (H5 : samples_got_nbytes d < samples_need_nbytes d) by (simpl; lia).
  assert (H6 : samples_need_nbytes d - samples_got_nbytes d
               <= actual_length t < 2 ^ 31) by (simpl; lia).
  assert (H7 : 1 <= num_transfers_used d < 2 ^ 64) by (simpl; lia).
  assert (H8 : 0 <= per_transfer_nbytes d) by (simpl; lia).
  assert (H9 : samples_need_nbytes d
               + (num_transfers_used d - 1) * per_transfer_nbytes d < 2 ^ 64)
    by (simpl; lia).
  repeat (split; [assumption|]).
  exact (final_completion_not_resubmitted 1 floats_5pct 200000 0 t d
           H1 H2 H3 H4 H5 H6 H7 H8 H9).
Defined.

Lemma transfers_released_once_witness :
  let es := [Completion 200000 0
               (pool_transfer LIBUSB_TRANSFER_COMPLETED 131072);
             Tick;
             Completion 300000 0
               (pool_transfer LIBUSB_TRANSFER_TIMED_OUT 0); Tick] in
  acq_aborted aborted_context <> 0
  /\ In Tick es
  /\ let '(d', calls) := run 1 floats_5pct es aborted_context in
     transfers d' = replicate (length (transfers aborted_context)) None
     /\ omap released calls
        = map libusb_cancel_transfer (registered (transfers aborted_context))
          ++ map libusb_free_transfer
               (registered (transfers aborted_context)).
Proof.
  intros es.
  assert (H1 : acq_aborted aborted_context <> 0) by (simpl; lia).
  assert (H2 : In Tick es) by (simpl; tauto).
  split; [exact H1|]. split; [exact H2|].
  pose proof (transfers_released_once 1 floats_5pct es aborted_context) as H.
  destruct (run 1 floats_5pct es aborted_context) as [d' calls].
  destruct H as (_ & Htorn & _). exact (Htorn H1 H2).
Defined.

Lemma pool_never_grows_witness :
  let es := [Completion 200000 0
               (pool_transfer LIBUSB_TRANSFER_TIMED_OUT 0);
             Completion 300000 0
               (pool_transfer LIBUSB_TRANSFER_COMPLETED 131072)] in
  0 <= 4 < 2 ^ 64 - 1
  /\ pool_inv 4 live_context
  /\ 0 <= num_transfers_used (run 1 floats_5pct es live_context).1
     <= num_transfers_used live_context.
Proof.
  intros es.
  assert (H1 : 0 <= 4 < 2 ^ 64 - 1) by lia.
  assert (H2 : pool_inv 4 live_context) by (unfold pool_inv; simpl; lia).
  split; [exact H1|]. split; [exact H2|].
  exact (pool_never_grows 4 1 floats_5pct H1 es live_context H2).
Defined.

Lemma start_notifications_in_order_witness :
  0 <= 4 < 2 ^ 64 - 1
  /\ valid_config slow_context
  /\ exists ret d' calls,
       sipeed_slogic_acquisition_start 4 floats_5pct answers_all_succeed
         slow_context = Some (ret, d', calls)
       /\ ((~ armed calls
            /\ ret < 0
            /\ omap notification calls = []
            /\ omap run_command calls = []
            /\ num_transfers_used d' = num_transfers_used slow_context
            /\ transfers d' = transfers slow_context
            /\ acq_aborted d' = acq_aborted slow_context)
           \/ (armed calls
               /\ omap notification calls
                  = [std_session_send_df_header;
                     std_session_send_df_frame_begin]
               /\ omap run_command calls
                  = (if num_transfers_used d' =? 0 then []
                     else [remote_run_ret answers_all_succeed])
               /\ exists before,
                    calls
                    = before
                      ++ [std_session_send_df_header;
                          std_session_send_df_frame_begin]
                      ++ (if num_transfers_used d' =? 0 then []
                          else [remote_run
                                  (remote_run_ret answers_all_succeed)]))).
Proof.
  assert (H1 : 0 <= 4 < 2 ^ 64 - 1) by lia.
  assert (H2 : valid_config slow_context)
    by (vm_compute; repeat split; discriminate).
  split; [exact H1|]. split; [exact H2|].
  exact (start_notifications_in_order 4 floats_5pct H1 answers_all_succeed
           slow_context H2).
Defined.

Lemma first_completion_not_judged_stalled_witness :
  let t := pool_transfer LIBUSB_TRANSFER_COMPLETED 16384 in
  0 <= 4 < 2 ^ 64 - 1
  /\ valid_config slow_context
  /\ user_data t = true
  /\ exists ret d calls,
       sipeed_slogic_acquisition_start 4 floats_5pct answers_all_succeed
         slow_context = Some (ret, d, calls)
       /\ armed calls
       /\ num_transfers_used d <> 0
       /\ num_transfers_completed d = 0
       /\ transfers_reached_time_latest d = start_time answers_all_succeed
       /\ let '(d', _, calls') :=
            receive_transfer 1 floats_5pct 900000000 0 t d in
          num_transfers_used d'
          = num_transfers_used
              (handle_status 1 floats_5pct 900000000 0 t d).1.1
          /\ calls' = (handle_status 1 floats_5pct 900000000 0 t d).2
          /\ (num_transfers_used d' <> 0 -> acq_aborted d' = 0).
Proof.
  intros t.
  assert (H1 : 0 <= 4 < 2 ^ 64 - 1) by lia.
  assert (H2 : valid_config slow_context)
    by (vm_compute; repeat split; discriminate).
  assert (H3 : user_data t = true) by reflexivity.
  split; [exact H1|]. split; [exact H2|]. split; [exact H3|].
  eexists _, _, _.
  match goal with
  | |- ?E /\ _ => assert (H4 : E) by (vm_compute; reflexivity)
  end.
  split; [exact H4|].
  match goal with
  | |- ?E /\ _ => assert (H5 : E) by (exists 32; simpl; tauto)
  end.
  split; [exact H5|].
  match goal with
  | |- ?E /\ _ => assert (H6 : E) by (simpl; lia)
  end.
  split; [exact H6|].
  exact (first_completion_not_judged_stalled 4 1 floats_5pct H1
           answers_all_succeed slow_context _ _ _ 900000000 0 t
           H2 H4 H5 H6 H3).
Defined.

Lemma empty_need_stops_at_once_witness :
  0 <= 4 < 2 ^ 64 - 1
  /\ valid_config unlimited_context
  /\ u64 (cur_limit_samples unlimited_context
          * cur_samplechannel unlimited_context) / 8 = 0
  /\ exists ret d' calls,
       sipeed_slogic_acquisition_start 4 floats_5pct answers_all_succeed
         unlimited_context = Some (ret, d', calls)
       /\ (armed calls ->
           ret = SR_OK
           /\ num_transfers_used d' = 0
           /\ acq_aborted d' = 1
           /\ samples_need_nbytes d' = 0
           /\ omap run_command calls = []
           /\ omap notification calls
              = [std_session_send_df_header;
                 std_session_send_df_frame_begin]).
Proof.
  assert (H1 : 0 <= 4 < 2 ^ 64 - 1) by lia.
  assert (H2 : valid_config unlimited_context)
    by (vm_compute; repeat split; discriminate).
  assert (H3 : u64 (cur_limit_samples unlimited_context
                    * cur_samplechannel unlimited_context) / 8 = 0)
    by reflexivity.
  split; [exact H1|]. split; [exact H2|]. split; [exact H3|].
  exact (empty_need_stops_at_once 4 floats_5pct H1 answers_all_succeed
           unlimited_context H2 H3).
Defined.

Lemma initial_fill_covers_need_witness :
  0 <= 4 < 2 ^ 64 - 1
  /\ valid_config slow_context
  /\ exists ret d' calls,
       sipeed_slogic_acquisition_start 4 floats_5pct answers_all_succeed
         slow_context = Some (ret, d', calls)
       /\ armed calls
       /\ 4 * per_transfer_nbytes d' < 2 ^ 64
       /\ samples_got_nbytes d' = 0
       /\ (num_transfers_used d' = 0
           \/ (num_transfers_used d' - 1) * per_transfer_nbytes d'
              < samples_need_nbytes d')
       /\ ((forall j, fill_answers answers_all_succeed j = fill_submit 0) ->
           num_transfers_used d' = 4
           \/ samples_need_nbytes d'
              <= num_transfers_used d' * per_transfer_nbytes d').
Proof.
  assert (H1 : 0 <= 4 < 2 ^ 64 - 1) by lia.
  assert (H2 : valid_config slow_context)
    by (vm_compute; repeat split; discriminate).
  split; [exact H1|]. split; [exact H2|].
  eexists _, _, _.
  match goal with
  | |- ?E /\ _ => assert (H3 : E) by (vm_compute; reflexivity)
  end.
  split; [exact H3|].
  match goal with
  | |- ?E /\ _ => assert (H4 : E) by (exists 32; simpl; tauto)
  end.
  split; [exact H4|].
  match goal with
  | |- ?E /\ _ => assert (H5 : E) by (simpl; lia)
  end.
  split; [exact H5|].
  exact (initial_fill_covers_need 4 floats_5pct H1 answers_all_succeed
           slow_context _ _ _ H2 H3 H4 H5).
Defined.

Lemma probe_trials_are_whole_blocks_witness :
  let answers := probe_answers answers_probe_no_mem in
  u64 (1000000 * 2) <> 0
  /\ u64 (1000000 / SR_KHZ 1 * 2) / 8 <> 0
  /\ 0 <= 31250 < 2 ^ 64
  /\ exists exit calls failed,
       probe_loop probe_fuel answers 0 1000000 2 31250 = Some (exit, calls)
       /\ Forall block_trial calls
       /\ Forall (fun p : Z * Z => p.2 = LIBUSB_ERROR_NO_MEM) failed
       /\ match exit with
          | probe_planned nb _ =>
              omap submission calls = failed
              \/ omap submission calls = failed ++ [(2 * nb, 0)]
          | probe_io_error nb _ =>
              exists ret,
                ret <> 0 /\ ret <> LIBUSB_ERROR_NO_MEM
                /\ omap submission calls = failed ++ [(nb, ret)]
          end.
Proof.
  intros answers.
  assert (H1 : u64 (1000000 * 2) <> 0) by (vm_compute; discriminate).
  assert (H2 : u64 (1000000 / SR_KHZ 1 * 2) / 8 <> 0)
    by (vm_compute; discriminate).
  assert (H3 : 0 <= 31250 < 2 ^ 64) by lia.
  split; [exact H1|]. split; [exact H2|]. split; [exact H3|].
  exact (probe_trials_are_whole_blocks answers 1000000 2 H1 H2 31250 H3).
Defined.

Lemma configuration_within_bandwidth_witness :
  finds_index u64_idx
  /\ exists s,
       configure u64_idx four_channels_fast (scan_new_device 4) = Some s
       /\ In (cur_samplerate (priv s)) samplerates
       /\ In (cur_samplechannel (priv s)) buffersizes
       /\ cur_samplerate (priv s) <= limit_samplerate s
       /\ cur_samplechannel (priv s) <= limit_samplechannel s
       /\ cur_samplerate (priv s) * cur_samplechannel (priv s)
          <= SR_MHZ 3200.
Proof.
  split; [exact u64_idx_finds|].
  exact (configuration_within_bandwidth u64_idx 4 four_channels_fast
           u64_idx_finds).
Defined.

Lemma scanned_device_start_undefined_witness :
  finds_index u64_idx
  /\ exists s,
       configure u64_idx four_channels_fast (scan_new_device 4) = Some s
       /\ valid_config (priv s)
       /\ operation_remote_stop (model s) = NULL
       /\ acquisition_start_on 4 floats_5pct answers_all_succeed s = None.
Proof.
  split; [exact u64_idx_finds|].
  exact (scanned_device_start_undefined u64_idx 4 floats_5pct
           four_channels_fast answers_all_succeed u64_idx_finds).
Defined.

Lemma listed_samplerates_accepted_witness :
  let s := scan_new_device 4 in
  finds_index u64_idx
  /\ config_inv s
  /\ exists g s',
       config_list u64_idx (fun _ _ => SR_OK) SR_CONF_SAMPLERATE (Some s)
       = Some (SR_OK, Some g)
       /\ (In (SR_MHZ 80) (listed g) <->
           In (SR_MHZ 80) samplerates /\ SR_MHZ 80 <= limit_samplerate s)
       /\ config_set u64_idx SR_CONF_SAMPLERATE (SR_MHZ 80) s
          = Some (SR_OK, s')
       /\ (In (SR_MHZ 80) (listed g) ->
           config_get SR_CONF_SAMPLERATE s'
           = (SR_OK, Some (g_variant_new_uint64 (SR_MHZ 80))))
       /\ (~ In (SR_MHZ 80) (listed g) ->
           config_get SR_CONF_SAMPLERATE s'
           = (SR_OK, Some (g_variant_new_uint64 (limit_samplerate s)))).
Proof.
  intros s.
  split; [exact u64_idx_finds|]. split; [exact (scan_new_device_inv 4)|].
  exact (listed_samplerates_accepted u64_idx (fun _ _ => SR_OK) s (SR_MHZ 80)
           u64_idx_finds (scan_new_device_inv 4)).
Defined.

Lemma listed_buffersizes_accepted_witness :
  let s := scan_new_device 4 in
  finds_index u64_idx
  /\ config_inv s
  /\ exists g s',
       config_list u64_idx (fun _ _ => SR_OK) SR_CONF_BUFFERSIZE (Some s)
       = Some (SR_OK, Some g)
       /\ (In 4 (listed g) <->
           In 4 buffersizes /\ 4 <= limit_samplechannel s)
       /\ config_set u64_idx SR_CONF_BUFFERSIZE 4 s = Some (SR_OK, s')
       /\ (In 4 (listed g) ->
           config_get SR_CONF_BUFFERSIZE s'
           = (SR_OK, Some (g_variant_new_uint64 4)))
       /\ (~ In 4 (listed g) ->
           config_get SR_CONF_BUFFERSIZE s'
           = (SR_OK, Some (g_variant_new_uint64 (limit_samplechannel s)))).
Proof.
  intros s.
  split; [exact u64_idx_finds|]. split; [exact (scan_new_device_inv 4)|].
  exact (listed_buffersizes_accepted u64_idx (fun _ _ => SR_OK) s 4
           u64_idx_finds (scan_new_device_inv 4)).
Defined.

Lemma enabled_channels_follow_count_witness :
  finds_index u64_idx
  /\ exists s,
       configure u64_idx four_channels_fast (scan_new_device 4) = Some s
       /\ map index (List.filter enabled (channels s))
          = seqZ 0 (cur_samplechannel (priv s)).
Proof.
  split; [exact u64_idx_finds|].
  exact (enabled_channels_follow_count u64_idx 4 four_channels_fast
           u64_idx_finds).
Defined.

Lemma config_set_keeps_other_settings_witness :
  let s := scan_new_device 4 in
  SR_CONF_SAMPLERATE <> SR_CONF_BUFFERSIZE
  /\ exists r s',
       config_set u64_idx SR_CONF_BUFFERSIZE 4 s = Some (r, s')
       /\ config_get SR_CONF_SAMPLERATE s' = config_get SR_CONF_SAMPLERATE s.
Proof.
  intros s.
  assert (H1 : SR_CONF_SAMPLERATE <> SR_CONF_BUFFERSIZE) by discriminate.
  split; [exact H1|].
  eexists _, _.
  match goal with
  | |- ?E /\ _ => assert (H2 : E) by (vm_compute; reflexivity)
  end.
  split; [exact H2|].
  exact (config_set_keeps_other_settings u64_idx SR_CONF_BUFFERSIZE
           SR_CONF_SAMPLERATE 4 s _ _ H1 H2).
Defined.

Lemma config_set_follows_devopts_witness :
  let s := scan_new_device 4 in
  finds_index u64_idx
  /\ config_inv s
  /\ exists r s',
       config_set u64_idx SR_CONF_SAMPLERATE (SR_MHZ 80) s = Some (r, s')
       /\ (declares opt_set SR_CONF_SAMPLERATE -> r = SR_OK)
       /\ (~ declares opt_set SR_CONF_SAMPLERATE ->
           r = SR_ERR_NA /\ s' = s).
Proof.
  intros s.
  split; [exact u64_idx_finds|]. split; [exact (scan_new_device_inv 4)|].
  exact (config_set_follows_devopts u64_idx SR_CONF_SAMPLERATE (SR_MHZ 80) s
           u64_idx_finds (scan_new_device_inv 4)).
Defined.
